(** * gokit/pkg/filesystem: storage abstraction over local disk and S3

    A shallow embedding of the [filesystem] package of gokit: the path
    handling of [handler.go], the configuration with its validation,
    the factory of [factory.go], the local backend of
    [local_storage.go] and the object-store backend of
    [s3_storage.go], together with the properties the specification
    states about them.

    Go strings are byte strings and are embedded as [string]; file
    contents are [list byte]; [int64] sizes and time stamps are [Z] (a
    size is the length of a stored byte sequence and stays far below
    2^63).  The operating system and the S3 service are explicit states
    that the operations read and update. *)

From Stdlib Require Import ZArith Bool Ascii String List Lia.
From Stdlib Require Import DecimalString DecimalZ DecimalPos.
From Stdlib.Strings Require Import Byte.
From stdpp Require Import base option gmap strings list fin_maps.

Import ListNotations.
Local Open Scope string_scope.
Local Open Scope Z_scope.

(** ** Go's [strings] package *)

Module strings.

Fixpoint drop (n : nat) (s : string) : string :=
  match n, s with
  | O, _ => s
  | S n', String _ s' => drop n' s'
  | S _, EmptyString => EmptyString
  end.

Fixpoint take (n : nat) (s : string) : string :=
  match n, s with
  | O, _ => EmptyString
  | S n', String c s' => String c (take n' s')
  | S _, EmptyString => EmptyString
  end.

Definition HasPrefix (s pre : string) : bool := String.prefix pre s.

Definition HasSuffix (s suf : string) : bool :=
  (String.length suf <=? String.length s)%nat
  && String.eqb (drop (String.length s - String.length suf) s) suf.

Definition TrimPrefix (s pre : string) : string :=
  if HasPrefix s pre then drop (String.length pre) s else s.

Definition TrimSuffix (s suf : string) : string :=
  if HasSuffix s suf then take (String.length s - String.length suf) s else s.

(** [strings.Contains s sub]: [sub] occurs somewhere in [s]. *)
Fixpoint Contains (s sub : string) : bool :=
  String.prefix sub s
  || match s with
     | EmptyString => false
     | String _ s' => Contains s' sub
     end.

Fixpoint mem (c : ascii) (cutset : string) : bool :=
  match cutset with
  | EmptyString => false
  | String d rest => Ascii.eqb c d || mem c rest
  end.

(** [strings.TrimLeft s cutset]: drop the leading bytes that are in [cutset]. *)
Fixpoint TrimLeft (s cutset : string) : string :=
  match s with
  | EmptyString => EmptyString
  | String c s' => if mem c cutset then TrimLeft s' cutset else s
  end.

(** [strings.TrimRight s cutset]: drop the trailing bytes that are in [cutset]. *)
Fixpoint TrimRight (s cutset : string) : string :=
  match s with
  | EmptyString => EmptyString
  | String c s' =>
      match TrimRight s' cutset with
      | EmptyString => if mem c cutset then EmptyString else String c EmptyString
      | t => String c t
      end
  end.

Definition lower (c : ascii) : ascii :=
  let n := nat_of_ascii c in
  if ((65 <=? n) && (n <=? 90))%nat then ascii_of_nat (n + 32) else c.

(** [strings.ToLower] on the ASCII letters; bytes from 0x80 on are
    left as they are. *)
Fixpoint ToLower (s : string) : string :=
  match s with
  | EmptyString => EmptyString
  | String c s' => String (lower c) (ToLower s')
  end.

(** [strings.Join elems sep]. *)
Fixpoint Join (elems : list string) (sep : string) : string :=
  match elems with
  | [] => ""
  | [e] => e
  | e :: rest => e ++ sep ++ Join rest sep
  end.

(** [strings.Split s "/"]: the pieces between the separators; never empty. *)
Fixpoint SplitSlash (s : string) : list string :=
  match s with
  | EmptyString => [""]
  | String c s' =>
      if Ascii.eqb c "/" then "" :: SplitSlash s'
      else match SplitSlash s' with
           | [] => [String c ""]
           | seg :: segs => String c seg :: segs
           end
  end.

(** [strings.NewReplacer(olds..., "_").Replace]: every byte of [olds]
    becomes an underscore. *)
Fixpoint ReplaceEach (olds : string) (s : string) : string :=
  match s with
  | EmptyString => EmptyString
  | String c s' => String (if mem c olds then "_"%char else c) (ReplaceEach olds s')
  end.

End strings.

(** ** Go's [path/filepath] package (Unix: separator [/], no volume names) *)

Module filepath.

Definition is_dot (seg : string) : bool := String.eqb seg ".".
Definition is_dotdot (seg : string) : bool := String.eqb seg "..".

(** One element of the path read by [Clean]; [out] is the cleaned
    path written so far, last element first.  An empty element and
    [.] are skipped; [..] removes the element before it when there is
    one that is not itself [..], is dropped at the root of a rooted
    path, and is kept otherwise. *)
Definition clean_step (rooted : bool) (out : list string) (seg : string) : list string :=
  if String.eqb seg "" || is_dot seg then out
  else if is_dotdot seg then
    match out with
    | top :: rest => if is_dotdot top then seg :: out else rest
    | [] => if rooted then [] else [seg]
    end
  else seg :: out.

Definition rooted (path : string) : bool := strings.HasPrefix path "/".

Definition clean_elems (path : string) : list string :=
  rev (fold_left (clean_step (rooted path)) (strings.SplitSlash path) []).

(** [filepath.Clean]: the shortest path equivalent to [path] by
    lexical processing. *)
Definition Clean (path : string) : string :=
  if String.eqb path "" then "."
  else
    let elems := clean_elems path in
    if rooted path then "/" ++ strings.Join elems "/"
    else match elems with
         | [] => "."
         | _ => strings.Join elems "/"
         end.

(** [filepath.Join]: empty leading elements are ignored, the rest is
    joined with separators and cleaned; all empty gives the empty
    string. *)
Fixpoint Join (elem : list string) : string :=
  match elem with
  | [] => ""
  | e :: rest => if String.eqb e "" then Join rest else Clean (strings.Join elem "/")
  end.

(** The text before the last element of [path], with its final
    separator, and the last element. *)
Definition cut_last (path : string) : string * string :=
  let segs := strings.SplitSlash path in
  let last_seg := List.last segs "" in
  (strings.take (String.length path - String.length last_seg) path, last_seg).

(** [filepath.Dir]. *)
Definition Dir (path : string) : string := Clean (fst (cut_last path)).

(** [filepath.Base]. *)
Definition Base (path : string) : string :=
  if String.eqb path "" then "."
  else
    let stripped := strings.TrimRight path "/" in
    let name := snd (cut_last stripped) in
    if String.eqb name "" then "/" else name.

(** The part of [name] from its last dot on, [""] without a dot. *)
Fixpoint from_last_dot (name : string) : string :=
  match name with
  | EmptyString => EmptyString
  | String c rest =>
      match from_last_dot rest with
      | EmptyString => if Ascii.eqb c "." then name else EmptyString
      | ext => ext
      end
  end.

(** [filepath.Ext]: the suffix of the last element beginning at its
    final dot. *)
Definition Ext (path : string) : string := from_last_dot (snd (cut_last path)).

End filepath.

(** ** Errors: [pkg/filesystem/errors] *)

(** The error numbers the [os] package reports. *)
Inductive Errno := ENOENT | EACCES | ENOTDIR | EISDIR | EEXIST | ENOTEMPTY | EIO.

Definition errno_text (e : Errno) : string :=
  match e with
  | ENOENT => "no such file or directory"
  | EACCES => "permission denied"
  | ENOTDIR => "not a directory"
  | EISDIR => "is a directory"
  | EEXIST => "file exists"
  | ENOTEMPTY => "directory not empty"
  | EIO => "input/output error"
  end.

(** Go [error] values met in the package: the [*fs.PathError] of the
    [os] package, errors known only by their text (the AWS SDK, the
    multipart reader), and the package's own [*AppError]. *)
Inductive error : Type :=
| PathError (op path : string) (errno : Errno)
| TextError (text : string)
| AppErr (e : AppError)
with AppError : Type :=
| mkAppError (Code Message : string) (Details : list string)
             (HTTPCode : Z) (Internal : option error).

Inductive result (A : Type) : Type :=
| Ok (a : A)
| Err (e : error).
Arguments Ok {A} a.
Arguments Err {A} e.

Module http.
Definition StatusOK : Z := 200.
Definition StatusBadRequest : Z := 400.
Definition StatusUnauthorized : Z := 401.
Definition StatusForbidden : Z := 403.
Definition StatusNotFound : Z := 404.
Definition StatusConflict : Z := 409.
Definition StatusUnprocessableEntity : Z := 422.
Definition StatusInternalServerError : Z := 500.
Definition StatusServiceUnavailable : Z := 503.
End http.

Module fserrors.

Definition ErrCodeBadRequest := "BAD_REQUEST".
Definition ErrCodeUnauthorized := "UNAUTHORIZED".
Definition ErrCodeForbidden := "FORBIDDEN".
Definition ErrCodeNotFound := "NOT_FOUND".
Definition ErrCodeConflict := "CONFLICT".
Definition ErrCodeValidationError := "VALIDATION_ERROR".
Definition ErrCodeInternalError := "INTERNAL_ERROR".
Definition ErrCodeServiceUnavailable := "SERVICE_UNAVAILABLE".

Definition ErrCodeFileNotFound := "FILE_NOT_FOUND".
Definition ErrCodeFileAlreadyExists := "FILE_ALREADY_EXISTS".
Definition ErrCodeInvalidPath := "INVALID_PATH".

Definition Code (e : AppError) : string := let (c, _, _, _, _) := e in c.
Definition Message (e : AppError) : string := let (_, m, _, _, _) := e in m.
Definition Details (e : AppError) : list string := let (_, _, d, _, _) := e in d.
Definition HTTPCode (e : AppError) : Z := let (_, _, _, h, _) := e in h.
Definition Internal (e : AppError) : option error := let (_, _, _, _, i) := e in i.

(** The map [statusToErrorCode]. *)
Definition statusToErrorCode (httpCode : Z) : option string :=
  if httpCode =? http.StatusBadRequest then Some ErrCodeBadRequest
  else if httpCode =? http.StatusUnauthorized then Some ErrCodeUnauthorized
  else if httpCode =? http.StatusForbidden then Some ErrCodeForbidden
  else if httpCode =? http.StatusNotFound then Some ErrCodeNotFound
  else if httpCode =? http.StatusConflict then Some ErrCodeConflict
  else if httpCode =? http.StatusUnprocessableEntity then Some ErrCodeValidationError
  else if httpCode =? http.StatusInternalServerError then Some ErrCodeInternalError
  else if httpCode =? http.StatusServiceUnavailable then Some ErrCodeServiceUnavailable
  else None.

Definition NewError (httpCode : Z) (message : string) : AppError :=
  let code := match statusToErrorCode httpCode with
              | Some c => c
              | None => ErrCodeInternalError
              end in
  mkAppError code message [] httpCode None.

Definition NewErrorWithDetails (httpCode : Z) (message : string) (details : list string) : AppError :=
  let (c, m, _, h, i) := NewError httpCode message in
  mkAppError c m details h i.

Definition NewCustomError (httpCode : Z) (code message : string) : AppError :=
  mkAppError code message [] httpCode None.

Definition WrapError (err : error) (httpCode : Z) (message : string) : AppError :=
  let (c, m, d, h, _) := NewError httpCode message in
  mkAppError c m d h (Some err).

Definition FileNotFoundError (path : string) : AppError :=
  NewCustomError http.StatusNotFound ErrCodeFileNotFound ("File not found: " ++ path).

(** [err.Error()]. *)
Fixpoint Error (err : error) : string :=
  match err with
  | PathError op path errno => op ++ " " ++ path ++ ": " ++ errno_text errno
  | TextError text => text
  | AppErr (mkAppError c m _ _ None) => "[" ++ c ++ "] " ++ m
  | AppErr (mkAppError c m _ _ (Some inner)) => "[" ++ c ++ "] " ++ m ++ ": " ++ Error inner
  end.

(** [errors.Is(err, fs.ErrNotExist)] and [os.IsNotExist(err)]: the
    error is a system error with number [ENOENT]. *)
Definition IsNotExist (err : error) : bool :=
  match err with
  | PathError _ _ ENOENT => true
  | _ => false
  end.

End fserrors.

(** ** [FileInfo]: the record every operation returns *)

Record FileInfo := mkFileInfo {
  Name : string;
  Size : Z;
  LastModified : Z;
  URL : string;
  ContentType : string;
  IsDirectory : bool
}.

(** ** [mime/multipart]: the uploaded file *)

Module multipart.

(** An opened upload: its bytes, and whether reading it to the end
    and seeking back to its start succeed. *)
Record File := mkFile {
  Bytes : list byte;
  Readable : bool;
  Seekable : bool
}.

(** [*multipart.FileHeader]; [Source] is what [Open] finds, [None]
    when the upload cannot be opened. *)
Record FileHeader := mkFileHeader {
  Filename : string;
  Size : Z;
  Source : option File
}.

Definition Open (fh : FileHeader) : result File :=
  match Source fh with
  | Some f => Ok f
  | None => Err (PathError "open" "" ENOENT)
  end.

(** Reading [src] to its end, as [io.Copy] does. *)
Definition ReadAll (src : File) : result (list byte) :=
  if Readable src then Ok (Bytes src) else Err (TextError "unexpected EOF").

Definition SeekStart (src : File) : result unit :=
  if Seekable src then Ok tt else Err (TextError "seek: invalid argument").

End multipart.

(** Sorting names the way Go compares strings (byte-wise). *)
Fixpoint insert_sorted {A} (key : A -> string) (x : A) (l : list A) : list A :=
  match l with
  | [] => [x]
  | y :: rest => if String.leb (key x) (key y) then x :: l else y :: insert_sorted key x rest
  end.

Definition sort_by {A} (key : A -> string) (l : list A) : list A :=
  fold_right (insert_sorted key) [] l.

(** ** The [os] package over a model of the file system

    The file system is a finite map from path names to nodes; a name
    is looked up as it is given.  The operations of the backend pass
    only names produced by [filepath.Join] and [filepath.Dir], which
    are clean, so that a name identifies its node.  [faults] lists
    the names whose access the system refuses (permission, I/O
    failure) with the error number it reports. *)

Module os.

Inductive inode :=
| File (data : list byte) (mtime : Z)
| Directory (mtime : Z).

(** [fs.FileInfo], the result of [Stat]. *)
Record FileStat := mkFileStat {
  StatName : string;
  StatSize : Z;
  ModTime : Z;
  IsDir : bool
}.

Record State := mkState {
  nodes : gmap string inode;
  faults : gmap string Errno;
  clock : Z
}.

Definition with_nodes (w : State) (m : gmap string inode) : State :=
  mkState m (faults w) (clock w).

Definition stat_of (name : string) (n : inode) : FileStat :=
  match n with
  | File data mtime => mkFileStat (filepath.Base name) (Z.of_nat (length data)) mtime false
  | Directory mtime => mkFileStat (filepath.Base name) 4096 mtime true
  end.

(** Resolving [name] for the system call [op]. *)
Definition access (w : State) (op name : string) : result inode :=
  match faults w !! name with
  | Some e => Err (PathError op name e)
  | None =>
      match nodes w !! name with
      | Some n => Ok n
      | None => Err (PathError op name ENOENT)
      end
  end.

Definition Stat (w : State) (name : string) : result FileStat :=
  match access w "stat" name with
  | Ok n => Ok (stat_of name n)
  | Err e => Err e
  end.

Definition Lstat (w : State) (name : string) : result FileStat :=
  match access w "lstat" name with
  | Ok n => Ok (stat_of name n)
  | Err e => Err e
  end.

(** The error number [op] on [name] fails with because of the
    directory that is to hold [name], [None] when that directory is
    there and accessible. *)
Definition parent_errno (w : State) (name : string) : option Errno :=
  match access w "stat" (filepath.Dir name) with
  | Ok (Directory _) => None
  | Ok (File _ _) => Some ENOTDIR
  | Err (PathError _ _ e) => Some e
  | Err _ => Some EIO
  end.

Definition Mkdir (w : State) (name : string) : result State :=
  match faults w !! name with
  | Some e => Err (PathError "mkdir" name e)
  | None =>
      match nodes w !! name with
      | Some _ => Err (PathError "mkdir" name EEXIST)
      | None =>
          match parent_errno w name with
          | Some e => Err (PathError "mkdir" name e)
          | None => Ok (with_nodes w (<[name := Directory (clock w)]> (nodes w)))
          end
      end
  end.

(** [os.MkdirAll]: nothing to do when [path] is a directory;
    otherwise the parent (the text before the last separator, when
    there is one past the first byte) is made first, then [path].
    Each nested call is on a shorter name, so [fuel] of the length of
    the name is never used up. *)
Fixpoint MkdirAll_rec (fuel : nat) (w : State) (path : string) : option error * State :=
  match Stat w path with
  | Ok st =>
      if IsDir st then (None, w)
      else (Some (PathError "mkdir" path ENOTDIR), w)
  | Err _ =>
      let j := String.length (fst (filepath.cut_last (strings.TrimRight path "/"))) in
      let '(err, w1) :=
        match fuel with
        | S fuel' =>
            if (1 <? j)%nat then MkdirAll_rec fuel' w (strings.take (j - 1) path)
            else (None, w)
        | O => (None, w)
        end in
      match err with
      | Some e => (Some e, w1)
      | None =>
          match Mkdir w1 path with
          | Ok w2 => (None, w2)
          | Err e =>
              match Lstat w1 path with
              | Ok st => if IsDir st then (None, w1) else (Some e, w1)
              | Err _ => (Some e, w1)
              end
          end
      end
  end.

Definition MkdirAll (w : State) (path : string) : option error * State :=
  MkdirAll_rec (String.length path) w path.

(** [os.Create]: the file is created or truncated; the handle it
    returns is identified with [name]. *)
Definition Create (w : State) (name : string) : result State :=
  match faults w !! name with
  | Some e => Err (PathError "open" name e)
  | None =>
      match nodes w !! name with
      | Some (Directory _) => Err (PathError "open" name EISDIR)
      | _ =>
          match parent_errno w name with
          | Some e => Err (PathError "open" name e)
          | None => Ok (with_nodes w (<[name := File [] (clock w)]> (nodes w)))
          end
      end
  end.

(** Writing [data] through the handle of the created file [name]. *)
Definition Write (w : State) (name : string) (data : list byte) : State :=
  with_nodes w (<[name := File data (clock w)]> (nodes w)).

(** [os.Open] followed by reading the file to its end. *)
Definition Open (w : State) (name : string) : result (list byte) :=
  match access w "open" name with
  | Ok (File data _) => Ok data
  | Ok (Directory _) => Err (PathError "read" name EISDIR)
  | Err e => Err e
  end.

(** The nodes directly inside the directory [name]. *)
Definition children (w : State) (name : string) : list (string * inode) :=
  List.filter (fun kn => negb (String.eqb (fst kn) name)
                         && String.eqb (filepath.Dir (fst kn)) name)
              (map_to_list (nodes w)).

Definition Remove (w : State) (name : string) : result State :=
  match access w "remove" name with
  | Err e => Err e
  | Ok (File _ _) => Ok (with_nodes w (delete name (nodes w)))
  | Ok (Directory _) =>
      match children w name with
      | [] => Ok (with_nodes w (delete name (nodes w)))
      | _ => Err (PathError "remove" name ENOTEMPTY)
      end
  end.

(** [fs.DirEntry]: the name of the entry; [Info] looks it up at
    [EntryPath]. *)
Record DirEntry := mkDirEntry {
  EntryName : string;
  EntryPath : string
}.

(** [os.ReadDir]: the entries of the directory, sorted by file name. *)
Definition ReadDir (w : State) (name : string) : result (list DirEntry) :=
  match access w "open" name with
  | Err e => Err e
  | Ok (File _ _) => Err (PathError "readdirent" name ENOTDIR)
  | Ok (Directory _) =>
      Ok (sort_by EntryName
            (List.map (fun kn => mkDirEntry (filepath.Base (fst kn)) (fst kn))
                      (children w name)))
  end.

Definition Info (w : State) (entry : DirEntry) : result FileStat :=
  Lstat w (EntryPath entry).

End os.

(** ** [local_storage.go] *)

Record LocalStorage := mkLocalStorage {
  basePath : string;
  baseURL : string;
  createDirectories : bool
}.

Record LocalStorageConfig := mkLocalStorageConfig {
  BasePath : string;
  BaseURL : string;
  CreateDirectories : bool
}.

Module Local.

Import fserrors.

(** [NewLocalStorage]. *)
Definition NewLocalStorage (config : LocalStorageConfig) (w : os.State)
  : result LocalStorage * os.State :=
  let basePath := if String.eqb (BasePath config) "" then "./storage/uploads"
                  else BasePath config in
  match os.MkdirAll w basePath with
  | (Some err, w1) =>
      (Err (AppErr (WrapError err http.StatusInternalServerError
                      ("Failed to create base directory: " ++ basePath))), w1)
  | (None, w1) =>
      (Ok (mkLocalStorage basePath (BaseURL config) (CreateDirectories config)), w1)
  end.

(** [getContentType]: the MIME type of a file extension. *)
Definition getContentType (ls : LocalStorage) (ext : string) : string :=
  let ext := strings.ToLower ext in
  if String.eqb ext ".jpg" || String.eqb ext ".jpeg" then "image/jpeg"
  else if String.eqb ext ".png" then "image/png"
  else if String.eqb ext ".gif" then "image/gif"
  else if String.eqb ext ".webp" then "image/webp"
  else if String.eqb ext ".svg" then "image/svg+xml"
  else if String.eqb ext ".pdf" then "application/pdf"
  else if String.eqb ext ".doc" then "application/msword"
  else if String.eqb ext ".docx" then
    "application/vnd.openxmlformats-officedocument.wordprocessingml.document"
  else if String.eqb ext ".xls" then "application/vnd.ms-excel"
  else if String.eqb ext ".xlsx" then
    "application/vnd.openxmlformats-officedocument.spreadsheetml.sheet"
  else if String.eqb ext ".txt" then "text/plain"
  else if String.eqb ext ".html" || String.eqb ext ".htm" then "text/html"
  else if String.eqb ext ".css" then "text/css"
  else if String.eqb ext ".js" then "application/javascript"
  else if String.eqb ext ".json" then "application/json"
  else if String.eqb ext ".xml" then "application/xml"
  else if String.eqb ext ".zip" then "application/zip"
  else if String.eqb ext ".tar" then "application/x-tar"
  else if String.eqb ext ".gz" || String.eqb ext ".gzip" then "application/gzip"
  else if String.eqb ext ".mp3" then "audio/mpeg"
  else if String.eqb ext ".mp4" then "video/mp4"
  else if String.eqb ext ".wav" then "audio/wav"
  else if String.eqb ext ".avi" then "video/x-msvideo"
  else if String.eqb ext ".mov" then "video/quicktime"
  else if String.eqb ext ".webm" then "video/webm"
  else "application/octet-stream".

(** The URL every operation builds for [path]. *)
Definition urlFor (ls : LocalStorage) (path : string) : string :=
  if String.eqb (baseURL ls) "" then path
  else strings.TrimRight (baseURL ls) "/" ++ "/" ++ strings.TrimLeft path "/".

(** [Upload]: the parent directory is made or required, an existing
    destination is refused, then the file is created and filled. *)
Definition Upload (ls : LocalStorage) (file : multipart.FileHeader) (path : string)
    (w : os.State) : result FileInfo * os.State :=
  let fullPath := filepath.Join [basePath ls; path] in
  let dir := filepath.Dir fullPath in
  let '(dirErr, w1) :=
    if createDirectories ls then
      match os.MkdirAll w dir with
      | (Some err, w') =>
          (Some (WrapError err http.StatusInternalServerError
                   ("Failed to create directory: " ++ dir)), w')
      | (None, w') => (None, w')
      end
    else
      match os.Stat w dir with
      | Err err =>
          if IsNotExist err then
            (Some (WrapError err http.StatusBadRequest
                     ("Directory does not exist: " ++ dir)), w)
          else (None, w)
      | Ok _ => (None, w)
      end in
  match dirErr with
  | Some e => (Err (AppErr e), w1)
  | None =>
  match os.Stat w1 fullPath with
  | Ok _ =>
      (Err (AppErr (NewCustomError http.StatusConflict ErrCodeFileAlreadyExists
                      ("File already exists: " ++ path))), w1)
  | Err _ =>
  match multipart.Open file with
  | Err err =>
      (Err (AppErr (WrapError err http.StatusInternalServerError
                      "Failed to open uploaded file")), w1)
  | Ok src =>
  match os.Create w1 fullPath with
  | Err err =>
      (Err (AppErr (WrapError err http.StatusInternalServerError
                      ("Failed to create destination file: " ++ fullPath))), w1)
  | Ok w2 =>
  match multipart.ReadAll src with
  | Err err =>
      (Err (AppErr (WrapError err http.StatusInternalServerError
                      "Failed to copy file contents")), w2)
  | Ok data =>
  let w3 := os.Write w2 fullPath data in
  match os.Stat w3 fullPath with
  | Err err =>
      (Err (AppErr (WrapError err http.StatusInternalServerError
                      "Failed to get file information")), w3)
  | Ok fileInfo =>
      let contentType := getContentType ls (filepath.Ext fullPath) in
      (Ok (mkFileInfo (filepath.Base path) (os.StatSize fileInfo) (os.ModTime fileInfo)
             (urlFor ls path) contentType false), w3)
  end end end end end end.

(** [Get]: the content of the file and its record. *)
Definition Get (ls : LocalStorage) (path : string) (w : os.State)
  : result (list byte * FileInfo) :=
  let fullPath := filepath.Join [basePath ls; path] in
  match os.Stat w fullPath with
  | Err err =>
      if IsNotExist err then Err (AppErr (FileNotFoundError path))
      else Err (AppErr (WrapError err http.StatusInternalServerError
                          ("Failed to access file: " ++ path)))
  | Ok fileInfo =>
      if os.IsDir fileInfo then
        Err (AppErr (NewCustomError http.StatusBadRequest ErrCodeInvalidPath
                       ("Path is a directory, not a file: " ++ path)))
      else
        match os.Open w fullPath with
        | Err err =>
            Err (AppErr (WrapError err http.StatusInternalServerError
                           ("Failed to open file: " ++ path)))
        | Ok content =>
            let contentType := getContentType ls (filepath.Ext fullPath) in
            Ok (content,
                mkFileInfo (filepath.Base path) (os.StatSize fileInfo) (os.ModTime fileInfo)
                  (urlFor ls path) contentType false)
        end
  end.

(** [Delete]: [None] is Go's [nil] error. *)
Definition Delete (ls : LocalStorage) (path : string) (w : os.State)
  : option error * os.State :=
  let fullPath := filepath.Join [basePath ls; path] in
  match os.Stat w fullPath with
  | Err err =>
      if IsNotExist err then (Some (AppErr (FileNotFoundError path)), w)
      else (Some (AppErr (WrapError err http.StatusInternalServerError
                            ("Failed to access file: " ++ path))), w)
  | Ok fileInfo =>
      if os.IsDir fileInfo then
        (Some (AppErr (NewCustomError http.StatusBadRequest ErrCodeInvalidPath
                         ("Cannot delete a directory with this method: " ++ path))), w)
      else
        match os.Remove w fullPath with
        | Err err =>
            (Some (AppErr (WrapError err http.StatusInternalServerError
                             ("Failed to delete file: " ++ path))), w)
        | Ok w1 => (None, w1)
        end
  end.

(** [Exists]: the pair Go returns, the flag and the error. *)
Definition Exists (ls : LocalStorage) (path : string) (w : os.State)
  : bool * option error :=
  let fullPath := filepath.Join [basePath ls; path] in
  match os.Stat w fullPath with
  | Err err =>
      if IsNotExist err then (false, None)
      else (false, Some (AppErr (WrapError err http.StatusInternalServerError
                                   ("Failed to check file existence: " ++ path))))
  | Ok _ => (true, None)
  end.

(** The body of the loop of [List] over the directory entries. *)
Fixpoint listEntries (ls : LocalStorage) (path : string) (w : os.State)
    (entries : list os.DirEntry) : list FileInfo :=
  match entries with
  | [] => []
  | entry :: rest =>
      match os.Info w entry with
      | Err _ => listEntries ls path w rest
      | Ok entryInfo =>
          let relativePath := filepath.Join [path; os.EntryName entry] in
          let contentType :=
            if os.IsDir entryInfo then ""
            else getContentType ls (filepath.Ext (os.EntryName entry)) in
          mkFileInfo (os.EntryName entry) (os.StatSize entryInfo) (os.ModTime entryInfo)
            (urlFor ls relativePath) contentType (os.IsDir entryInfo)
          :: listEntries ls path w rest
      end
  end.

Definition List (ls : LocalStorage) (path : string) (w : os.State)
  : result (list FileInfo) :=
  let fullPath := filepath.Join [basePath ls; path] in
  match os.Stat w fullPath with
  | Err err =>
      if IsNotExist err then Err (AppErr (FileNotFoundError path))
      else Err (AppErr (WrapError err http.StatusInternalServerError
                          ("Failed to access directory: " ++ path)))
  | Ok fileInfo =>
      if negb (os.IsDir fileInfo) then
        let contentType := getContentType ls (filepath.Ext fullPath) in
        Ok [mkFileInfo (filepath.Base path) (os.StatSize fileInfo) (os.ModTime fileInfo)
              (urlFor ls path) contentType false]
      else
        match os.ReadDir w fullPath with
        | Err err =>
            Err (AppErr (WrapError err http.StatusInternalServerError
                           ("Failed to read directory: " ++ path)))
        | Ok entries => Ok (listEntries ls path w entries)
        end
  end.

Definition GetInfo (ls : LocalStorage) (path : string) (w : os.State)
  : result FileInfo :=
  let fullPath := filepath.Join [basePath ls; path] in
  match os.Stat w fullPath with
  | Err err =>
      if IsNotExist err then Err (AppErr (FileNotFoundError path))
      else Err (AppErr (WrapError err http.StatusInternalServerError
                          ("Failed to get file information: " ++ path)))
  | Ok fileInfo =>
      let contentType :=
        if os.IsDir fileInfo then ""
        else getContentType ls (filepath.Ext fullPath) in
      Ok (mkFileInfo (filepath.Base path) (os.StatSize fileInfo) (os.ModTime fileInfo)
            (urlFor ls path) contentType (os.IsDir fileInfo))
  end.

End Local.

(** ** The AWS SDK client over a model of the S3 service

    The service holds the objects of its buckets under their keys.
    [outage] is the text of the error every request fails with while
    the service cannot be reached or refuses the caller.  A listing is
    returned whole (the service cuts one at 1000 entries). *)

Module s3.

Record Metadata := mkMetadata {
  OriginalFilename : string;
  UploadedAt : Z
}.

Record Object := mkObject {
  Body : list byte;
  ObjectContentType : option string;
  ObjectLastModified : Z;
  ObjectMetadata : option Metadata
}.

Record Service := mkService {
  bucketNames : gset string;
  objects : gmap (string * string) Object;
  outage : option string;
  now : Z;
  endpoint : string;
  defaultConfigError : option string
}.

Definition with_objects (svc : Service) (m : gmap (string * string) Object) : Service :=
  mkService (bucketNames svc) m (outage svc) (now svc) (endpoint svc)
            (defaultConfigError svc).

(** The texts of the errors of the SDK. *)
Definition notFoundText (op : string) : string :=
  "operation error S3: " ++ op
  ++ ", https response error StatusCode: 404, RequestID: , HostID: , api error NotFound: Not Found".
Definition noSuchBucketText (op : string) : string :=
  "operation error S3: " ++ op
  ++ ", https response error StatusCode: 404, RequestID: , HostID: , api error NoSuchBucket: The specified bucket does not exist".
Definition noSuchKeyText (op : string) : string :=
  "operation error S3: " ++ op
  ++ ", https response error StatusCode: 404, RequestID: , HostID: , api error NoSuchKey: The specified key does not exist.".
Definition emptyKeyText (op : string) : string :=
  "operation error S3: " ++ op
  ++ ", failed to serialize request: input member Key must not be empty".

Record HeadObjectOutput := mkHeadObjectOutput {
  HeadContentLength : option Z;
  HeadLastModified : option Z;
  HeadContentType : option string
}.

Record GetObjectOutput := mkGetObjectOutput {
  GetBody : list byte;
  GetContentType : option string
}.

Record ObjectSummary := mkObjectSummary {
  Key : string;
  ObjectSize : Z;
  SummaryLastModified : Z
}.

Record ListObjectsV2Output := mkListObjectsV2Output {
  CommonPrefixes : list string;
  Contents : list ObjectSummary
}.

Definition HeadBucket (svc : Service) (bucket : string) : option error :=
  match outage svc with
  | Some text => Some (TextError text)
  | None =>
      if bool_decide (bucket ∈ bucketNames svc) then None
      else Some (TextError (notFoundText "HeadBucket"))
  end.

Definition HeadObject (svc : Service) (bucket key : string) : result HeadObjectOutput :=
  match outage svc with
  | Some text => Err (TextError text)
  | None =>
      if String.eqb key "" then Err (TextError (emptyKeyText "HeadObject"))
      else if negb (bool_decide (bucket ∈ bucketNames svc)) then
        Err (TextError (notFoundText "HeadObject"))
      else
        match objects svc !! (bucket, key) with
        | None => Err (TextError (notFoundText "HeadObject"))
        | Some o =>
            Ok (mkHeadObjectOutput (Some (Z.of_nat (length (Body o))))
                  (Some (ObjectLastModified o)) (ObjectContentType o))
        end
  end.

Definition GetObject (svc : Service) (bucket key : string) : result GetObjectOutput :=
  match outage svc with
  | Some text => Err (TextError text)
  | None =>
      if String.eqb key "" then Err (TextError (emptyKeyText "GetObject"))
      else if negb (bool_decide (bucket ∈ bucketNames svc)) then
        Err (TextError (noSuchBucketText "GetObject"))
      else
        match objects svc !! (bucket, key) with
        | None => Err (TextError (noSuchKeyText "GetObject"))
        | Some o => Ok (mkGetObjectOutput (Body o) (ObjectContentType o))
        end
  end.

(** [manager.Uploader.Upload]: the object is stored under [key],
    replacing what was there; the result is its location. *)
Definition PutObject (svc : Service) (bucket key : string) (body : list byte)
    (contentType : string) (meta : Metadata) : result (string * Service) :=
  match outage svc with
  | Some text => Err (TextError text)
  | None =>
      if String.eqb key "" then Err (TextError (emptyKeyText "PutObject"))
      else if negb (bool_decide (bucket ∈ bucketNames svc)) then
        Err (TextError (noSuchBucketText "PutObject"))
      else
        Ok (endpoint svc ++ "/" ++ bucket ++ "/" ++ key,
            with_objects svc
              (<[(bucket, key) := mkObject body (Some contentType) (now svc) (Some meta)]>
                 (objects svc)))
  end.

Definition DeleteObject (svc : Service) (bucket key : string) : result Service :=
  match outage svc with
  | Some text => Err (TextError text)
  | None =>
      if String.eqb key "" then Err (TextError (emptyKeyText "DeleteObject"))
      else if negb (bool_decide (bucket ∈ bucketNames svc)) then
        Err (TextError (noSuchBucketText "DeleteObject"))
      else Ok (with_objects svc (delete (bucket, key) (objects svc)))
  end.

(** The keys of [bucket] that begin with [prefix], with their
    objects, in key order. *)
Definition keysWithPrefix (svc : Service) (bucket prefix : string)
  : list (string * Object) :=
  sort_by fst
    (omap (fun ko : (string * string) * Object =>
             if String.eqb (fst (fst ko)) bucket
                && strings.HasPrefix (snd (fst ko)) prefix
             then Some (snd (fst ko), snd ko) else None)
          (map_to_list (objects svc))).

(** The text of [rest] up to and with its first separator, [None]
    when it has none. *)
Fixpoint upToSlash (rest : string) : option string :=
  match rest with
  | EmptyString => None
  | String c rest' =>
      if Ascii.eqb c "/" then Some (String c EmptyString)
      else match upToSlash rest' with
           | Some t => Some (String c t)
           | None => None
           end
  end.

(** Folding the keys under [prefix] at the delimiter [/]: a key with
    a separator after the prefix is rolled up into its common prefix
    (listed once), the others are contents. *)
Fixpoint rollUp (prefix : string) (keys : list (string * Object))
  : list string * list ObjectSummary :=
  match keys with
  | [] => ([], [])
  | (key, o) :: rest =>
      let (cps, cs) := rollUp prefix rest in
      match upToSlash (strings.drop (String.length prefix) key) with
      | Some group =>
          let cp := prefix ++ group in
          (if existsb (String.eqb cp) cps then cps else cp :: cps, cs)
      | None =>
          (cps, mkObjectSummary key (Z.of_nat (length (Body o))) (ObjectLastModified o) :: cs)
      end
  end.

(** [ListObjectsV2] with the delimiter [/]. *)
Definition ListObjectsV2 (svc : Service) (bucket prefix : string)
  : result ListObjectsV2Output :=
  match outage svc with
  | Some text => Err (TextError text)
  | None =>
      if negb (bool_decide (bucket ∈ bucketNames svc)) then
        Err (TextError (noSuchBucketText "ListObjectsV2"))
      else
        let (cps, cs) := rollUp prefix (keysWithPrefix svc bucket prefix) in
        Ok (mkListObjectsV2Output cps cs)
  end.

(** [config.LoadDefaultConfig]. *)
Definition LoadDefaultConfig (svc : Service) (region : string) : result string :=
  match defaultConfigError svc with
  | Some text => Err (TextError text)
  | None => Ok region
  end.

End s3.

(** ** [s3_storage.go] *)

(** The client, uploader and downloader of the Go struct are handles
    on the service and are left out. *)
Record S3Storage := mkS3Storage {
  bucket : string;
  basePrefix : string;
  s3BaseURL : string;
  region : string
}.

(** [aws.Config] is kept as its region. *)
Record S3Config := mkS3Config {
  AWSConfigRegion : string;
  Bucket : string;
  BasePrefix : string;
  S3ConfigBaseURL : string;
  Region : string;
  Endpoint : string;
  AccessKey : string;
  SecretKey : string;
  UseSSL : bool;
  UsePathStyle : bool
}.

Module S3.

Import fserrors.

(** [NewS3Storage]: a client is made for the endpoint, the given AWS
    configuration or the default one, and the bucket is probed. *)
Definition NewS3Storage (cfg : S3Config) (svc : s3.Service) : result S3Storage :=
  let client :=
    if negb (String.eqb (Endpoint cfg) "") then Ok (Region cfg)
    else if negb (String.eqb (AWSConfigRegion cfg) "") then Ok (AWSConfigRegion cfg)
    else
      match s3.LoadDefaultConfig svc (Region cfg) with
      | Err err =>
          Err (AppErr (WrapError err http.StatusInternalServerError
                         "Failed to load AWS configuration"))
      | Ok awsCfg => Ok awsCfg
      end in
  match client with
  | Err e => Err e
  | Ok _ =>
      match s3.HeadBucket svc (Bucket cfg) with
      | Some err =>
          Err (AppErr (WrapError err http.StatusInternalServerError
                         ("Failed to access S3 bucket '" ++ Bucket cfg ++ "'")))
      | None =>
          Ok (mkS3Storage (Bucket cfg) (BasePrefix cfg) (S3ConfigBaseURL cfg) (Region cfg))
      end
  end.

Definition getFullKey (s : S3Storage) (path : string) : string :=
  if String.eqb (basePrefix s) "" then path
  else filepath.Join [basePrefix s; path].

Definition getURL (s : S3Storage) (key : string) : string :=
  if negb (String.eqb (s3BaseURL s) "") then
    strings.TrimRight (s3BaseURL s) "/" ++ "/" ++ strings.TrimLeft key "/"
  else if String.eqb (region s) "" then
    "https://" ++ bucket s ++ ".s3.amazonaws.com/" ++ key
  else
    "https://" ++ bucket s ++ ".s3." ++ region s ++ ".amazonaws.com/" ++ key.

(** [getContentTypeByExt]. *)
Definition getContentTypeByExt (ext : string) : string :=
  let ext := strings.ToLower ext in
  if String.eqb ext ".jpg" || String.eqb ext ".jpeg" then "image/jpeg"
  else if String.eqb ext ".png" then "image/png"
  else if String.eqb ext ".gif" then "image/gif"
  else if String.eqb ext ".webp" then "image/webp"
  else if String.eqb ext ".svg" then "image/svg+xml"
  else if String.eqb ext ".pdf" then "application/pdf"
  else if String.eqb ext ".doc" then "application/msword"
  else if String.eqb ext ".docx" then
    "application/vnd.openxmlformats-officedocument.wordprocessingml.document"
  else if String.eqb ext ".xls" then "application/vnd.ms-excel"
  else if String.eqb ext ".xlsx" then
    "application/vnd.openxmlformats-officedocument.spreadsheetml.sheet"
  else if String.eqb ext ".txt" then "text/plain"
  else if String.eqb ext ".html" || String.eqb ext ".htm" then "text/html"
  else if String.eqb ext ".css" then "text/css"
  else if String.eqb ext ".js" then "application/javascript"
  else if String.eqb ext ".json" then "application/json"
  else if String.eqb ext ".xml" then "application/xml"
  else if String.eqb ext ".zip" then "application/zip"
  else if String.eqb ext ".tar" then "application/x-tar"
  else if String.eqb ext ".gz" || String.eqb ext ".gzip" then "application/gzip"
  else if String.eqb ext ".mp3" then "audio/mpeg"
  else if String.eqb ext ".mp4" then "video/mp4"
  else if String.eqb ext ".wav" then "audio/wav"
  else if String.eqb ext ".avi" then "video/x-msvideo"
  else if String.eqb ext ".mov" then "video/quicktime"
  else if String.eqb ext ".webm" then "video/webm"
  else "application/octet-stream".

Definition getInt64Value (val : option Z) : Z :=
  match val with
  | None => 0
  | Some v => v
  end.

(** The zero [time.Time] is the first second of year 1. *)
Definition zeroTime : Z := -62135596800.

Definition getTimeValue (val : option Z) : Z :=
  match val with
  | None => zeroTime
  | Some v => v
  end.

(** The test both probes of the backend apply to the text of an
    error of [HeadObject]. *)
Definition looksNotFound (err : error) : bool :=
  strings.Contains (Error err) "NotFound" || strings.Contains (Error err) "404".

Definition Exists (s : S3Storage) (path : string) (svc : s3.Service)
  : bool * option error :=
  let fullKey := getFullKey s path in
  match s3.HeadObject svc (bucket s) fullKey with
  | Err err =>
      if looksNotFound err then (false, None)
      else (false, Some (AppErr (WrapError err http.StatusInternalServerError
                                   ("Failed to check if file exists in S3: " ++ path))))
  | Ok _ => (true, None)
  end.

Section Upload.

(** [http.DetectContentType]: the MIME type sniffed from the first
    bytes of the content. *)
Variable DetectContentType : list byte -> string.

Definition Upload (s : S3Storage) (file : multipart.FileHeader) (path : string)
    (svc : s3.Service) : result FileInfo * s3.Service :=
  match multipart.Open file with
  | Err err =>
      (Err (AppErr (WrapError err http.StatusInternalServerError
                      "Failed to open uploaded file")), svc)
  | Ok src =>
  match multipart.ReadAll src with
  | Err err =>
      (Err (AppErr (WrapError err http.StatusInternalServerError
                      "Failed to read file")), svc)
  | Ok buffer =>
  let size := Z.of_nat (length buffer) in
  let contentType := DetectContentType buffer in
  let contentType :=
    if strings.HasPrefix contentType "application/octet-stream"
    then getContentTypeByExt (filepath.Ext (multipart.Filename file))
    else contentType in
  match multipart.SeekStart src with
  | Err err =>
      (Err (AppErr (WrapError err http.StatusInternalServerError
                      "Failed to reset file pointer")), svc)
  | Ok _ =>
  let fullKey := getFullKey s path in
  match Exists s path svc with
  | (_, Some err) =>
      (Err (AppErr (WrapError err http.StatusInternalServerError
                      "Failed to check if file exists")), svc)
  | (true, None) =>
      (Err (AppErr (NewCustomError http.StatusConflict ErrCodeFileAlreadyExists
                      ("File already exists: " ++ path))), svc)
  | (false, None) =>
  match s3.PutObject svc (bucket s) fullKey buffer contentType
          (s3.mkMetadata (multipart.Filename file) (s3.now svc)) with
  | Err err =>
      (Err (AppErr (WrapError err http.StatusInternalServerError
                      ("Failed to upload file to S3: " ++ Error err))), svc)
  | Ok (location, svc1) =>
      let fileURL := if negb (String.eqb (s3BaseURL s) "") then getURL s fullKey
                     else location in
      (Ok (mkFileInfo (filepath.Base path) size (s3.now svc1) fileURL contentType false),
       svc1)
  end end end end end.

End Upload.

Definition Get (s : S3Storage) (path : string) (svc : s3.Service)
  : result (list byte * FileInfo) :=
  let fullKey := getFullKey s path in
  match s3.HeadObject svc (bucket s) fullKey with
  | Err err =>
      if looksNotFound err then Err (AppErr (FileNotFoundError path))
      else Err (AppErr (WrapError err http.StatusInternalServerError
                          ("Failed to get file metadata from S3: " ++ path)))
  | Ok headOutput =>
      match s3.GetObject svc (bucket s) fullKey with
      | Err err =>
          Err (AppErr (WrapError err http.StatusInternalServerError
                         ("Failed to get file from S3: " ++ path)))
      | Ok result =>
          let contentType := match s3.GetContentType result with
                             | Some ct => ct
                             | None => "application/octet-stream"
                             end in
          Ok (s3.GetBody result,
              mkFileInfo (filepath.Base path)
                (getInt64Value (s3.HeadContentLength headOutput))
                (getTimeValue (s3.HeadLastModified headOutput))
                (getURL s fullKey) contentType false)
      end
  end.

Definition Delete (s : S3Storage) (path : string) (svc : s3.Service)
  : option error * s3.Service :=
  let fullKey := getFullKey s path in
  match Exists s path svc with
  | (_, Some err) =>
      (Some (AppErr (WrapError err http.StatusInternalServerError
                       ("Failed to check if file exists: " ++ path))), svc)
  | (false, None) => (Some (AppErr (FileNotFoundError path)), svc)
  | (true, None) =>
      match s3.DeleteObject svc (bucket s) fullKey with
      | Err err =>
          (Some (AppErr (WrapError err http.StatusInternalServerError
                           ("Failed to delete file from S3: " ++ path))), svc)
      | Ok svc1 => (None, svc1)
      end
  end.

Definition GetInfo (s : S3Storage) (path : string) (svc : s3.Service)
  : result FileInfo :=
  let fullKey := getFullKey s path in
  match s3.HeadObject svc (bucket s) fullKey with
  | Err err =>
      if looksNotFound err then Err (AppErr (FileNotFoundError path))
      else Err (AppErr (WrapError err http.StatusInternalServerError
                          ("Failed to get file metadata from S3: " ++ path)))
  | Ok headOutput =>
      let contentType := match s3.HeadContentType headOutput with
                         | Some ct => ct
                         | None => getContentTypeByExt (filepath.Ext path)
                         end in
      Ok (mkFileInfo (filepath.Base path)
            (getInt64Value (s3.HeadContentLength headOutput))
            (getTimeValue (s3.HeadLastModified headOutput))
            (getURL s fullKey) contentType false)
  end.

(** The two loops of [List]: a record for every common prefix, then
    one for every listed object that is neither a directory marker
    nor the prefix itself. *)
Definition prefixRecord (s : S3Storage) (svc : s3.Service) (prefix : string) : FileInfo :=
  let prefixName := filepath.Base (strings.TrimSuffix prefix "/") in
  mkFileInfo prefixName 0 (s3.now svc) (getURL s prefix) "application/directory" true.

Fixpoint contentRecords (s : S3Storage) (fullPrefix : string)
    (contents : list s3.ObjectSummary) : list FileInfo :=
  match contents with
  | [] => []
  | obj :: rest =>
      let key := s3.Key obj in
      if strings.HasSuffix key "/" then contentRecords s fullPrefix rest
      else if String.eqb key fullPrefix then contentRecords s fullPrefix rest
      else
        let name := filepath.Base key in
        let contentType := getContentTypeByExt (filepath.Ext name) in
        mkFileInfo name (s3.ObjectSize obj) (s3.SummaryLastModified obj)
          (getURL s key) contentType false
        :: contentRecords s fullPrefix rest
  end.

Definition withSlash (fullPrefix : string) : string :=
  if negb (String.eqb fullPrefix "") && negb (strings.HasSuffix fullPrefix "/")
  then fullPrefix ++ "/" else fullPrefix.

Definition List (s : S3Storage) (path : string) (svc : s3.Service)
  : result (list FileInfo) :=
  let fullPrefix := withSlash (getFullKey s path) in
  let fullPrefix :=
    if String.eqb path "" || String.eqb path "/" then withSlash (basePrefix s)
    else fullPrefix in
  match s3.ListObjectsV2 svc (bucket s) fullPrefix with
  | Err err =>
      Err (AppErr (WrapError err http.StatusInternalServerError
                     ("Failed to list files in S3: " ++ path)))
  | Ok output =>
      let files := List.app (List.map (prefixRecord s svc) (s3.CommonPrefixes output))
                            (contentRecords s fullPrefix (s3.Contents output)) in
      let fallback :=
        if (Nat.eqb (length files) 0) && negb (strings.HasSuffix fullPrefix "/") then
          match GetInfo s path svc with
          | Ok fileInfo => Some [fileInfo]
          | Err _ => None
          end
        else None in
      match fallback with
      | Some single => Ok single
      | None => Ok files
      end
  end.

End S3.

(** ** The [Storage] interface and the [Provider] facade *)

(** The two implementations of the [Storage] interface. *)
Inductive Storage :=
| LocalBackend (ls : LocalStorage)
| S3Backend (s : S3Storage).

Record Provider := mkProvider { storage : Storage }.

Definition NewProvider (storage : Storage) : Provider := mkProvider storage.

(** What the backends act on: the local disk and the S3 service. *)
Record World := mkWorld {
  disk : os.State;
  cloud : s3.Service
}.

Module provider.

Section Upload.

Variable DetectContentType : list byte -> string.

Definition Upload (p : Provider) (file : multipart.FileHeader) (path : string)
    (w : World) : result FileInfo * World :=
  match storage p with
  | LocalBackend ls =>
      let (r, d) := Local.Upload ls file path (disk w) in (r, mkWorld d (cloud w))
  | S3Backend s =>
      let (r, c) := S3.Upload DetectContentType s file path (cloud w) in
      (r, mkWorld (disk w) c)
  end.

End Upload.

Definition Get (p : Provider) (path : string) (w : World)
  : result (list byte * FileInfo) :=
  match storage p with
  | LocalBackend ls => Local.Get ls path (disk w)
  | S3Backend s => S3.Get s path (cloud w)
  end.

Definition Delete (p : Provider) (path : string) (w : World) : option error * World :=
  match storage p with
  | LocalBackend ls =>
      let (r, d) := Local.Delete ls path (disk w) in (r, mkWorld d (cloud w))
  | S3Backend s =>
      let (r, c) := S3.Delete s path (cloud w) in (r, mkWorld (disk w) c)
  end.

Definition Exists (p : Provider) (path : string) (w : World) : bool * option error :=
  match storage p with
  | LocalBackend ls => Local.Exists ls path (disk w)
  | S3Backend s => S3.Exists s path (cloud w)
  end.

Definition List (p : Provider) (path : string) (w : World) : result (list FileInfo) :=
  match storage p with
  | LocalBackend ls => Local.List ls path (disk w)
  | S3Backend s => S3.List s path (cloud w)
  end.

Definition GetInfo (p : Provider) (path : string) (w : World) : result FileInfo :=
  match storage p with
  | LocalBackend ls => Local.GetInfo ls path (disk w)
  | S3Backend s => S3.GetInfo s path (cloud w)
  end.

End provider.

(** ** [Config] and its validation *)

Record Config := mkConfig {
  StorageType : string;
  LocalStoragePath : string;
  LocalBaseURL : string;
  CreateLocalDirs : bool;
  S3Endpoint : string;
  S3AccessKey : string;
  S3SecretKey : string;
  S3Bucket : string;
  S3BasePrefix : string;
  S3BaseURL : string;
  S3Region : string;
  S3UseSSL : bool;
  S3PathStyle : bool;
  UploadMaxSizeMB : Z;
  AllowedFileTypes : list string;
  UseUUID : bool;
  TimeoutSecs : Z
}.

Definition DefaultConfig : Config :=
  mkConfig "local" "./storage/uploads" "" true "" "" "" "" "" "" "" false false 10
    [".jpg"; ".jpeg"; ".png"; ".gif"; ".pdf"; ".doc"; ".docx"; ".xls"; ".xlsx"]
    true 30.

(** [errors = append(errors, msg)] when [cond] holds. *)
Definition appendIf (cond : bool) (msg : string) (errors : list string) : list string :=
  if cond then List.app errors [msg] else errors.

(** [Config.Validate]: the list of what is wrong with the configuration. *)
Definition Validate (c : Config) : list string :=
  let errors := [] in
  let errors :=
    appendIf (negb (String.eqb (StorageType c) "local")
              && negb (String.eqb (StorageType c) "s3"))
      "Invalid storage type. Must be 'local' or 's3'" errors in
  let errors :=
    if String.eqb (StorageType c) "s3" then
      let errors :=
        appendIf (String.eqb (S3Bucket c) "")
          "S3 bucket name is required when using S3 storage" errors in
      if negb (String.eqb (S3Endpoint c) "") then
        let errors :=
          appendIf (String.eqb (S3AccessKey c) "")
            "S3 access key is required when using a custom S3 endpoint" errors in
        appendIf (String.eqb (S3SecretKey c) "")
          "S3 secret key is required when using a custom S3 endpoint" errors
      else errors
    else errors in
  let errors :=
    appendIf (UploadMaxSizeMB c <=? 0) "Upload max size must be greater than 0" errors in
  appendIf (TimeoutSecs c <=? 0) "Timeout seconds must be greater than 0" errors.

(** ** [factory.go] *)

Import fserrors.

(** [NewStorageProvider]: the configuration is validated, then the
    backend named by [StorageType] is constructed. *)
Definition NewStorageProvider (cfg : Config) (w : World) : result Provider * World :=
  let errors := Validate cfg in
  if (0 <? length errors)%nat then
    (Err (AppErr (NewErrorWithDetails http.StatusBadRequest
                    "Invalid filesystem configuration" errors)), w)
  else if String.eqb (StorageType cfg) "s3" then
    let s3Config :=
      if negb (String.eqb (S3Endpoint cfg) "") then
        Ok (mkS3Config "" (S3Bucket cfg) (S3BasePrefix cfg) (S3BaseURL cfg) (S3Region cfg)
              (S3Endpoint cfg) (S3AccessKey cfg) (S3SecretKey cfg) (S3UseSSL cfg)
              (S3PathStyle cfg))
      else
        match s3.LoadDefaultConfig (cloud w) (S3Region cfg) with
        | Err err =>
            Err (AppErr (WrapError err http.StatusInternalServerError
                           "Unable to load AWS SDK config"))
        | Ok awsCfg =>
            Ok (mkS3Config awsCfg (S3Bucket cfg) (S3BasePrefix cfg) (S3BaseURL cfg)
                  (S3Region cfg) "" "" "" false false)
        end in
    match s3Config with
    | Err e => (Err e, w)
    | Ok s3Config =>
        match S3.NewS3Storage s3Config (cloud w) with
        | Err err => (Err err, w)
        | Ok s3Storage => (Ok (NewProvider (S3Backend s3Storage)), w)
        end
    end
  else if String.eqb (StorageType cfg) "local" || String.eqb (StorageType cfg) "" then
    let localConfig :=
      mkLocalStorageConfig (LocalStoragePath cfg) (LocalBaseURL cfg) (CreateLocalDirs cfg) in
    match Local.NewLocalStorage localConfig (disk w) with
    | (Err err, d) =>
        (Err (AppErr (WrapError err http.StatusInternalServerError
                        "Failed to initialize local storage")), mkWorld d (cloud w))
    | (Ok localStorage, d) =>
        (Ok (NewProvider (LocalBackend localStorage)), mkWorld d (cloud w))
    end
  else
    (Err (AppErr (NewError http.StatusBadRequest
                    ("Unsupported storage type: " ++ StorageType cfg))), w).

(** ** [handler.go]: the paths the handlers pass to the provider *)

(** The double quote character. *)
Definition dquote : ascii := ascii_of_nat 34.

(** [sanitizeFilename]. *)
Definition sanitizeFilename (filename : string) : string :=
  let filename := filepath.Base filename in
  strings.ReplaceEach ("/\:*?" ++ String dquote "<>|%") filename.

(** [sanitizePath]. *)
Definition sanitizePath (path : string) : string :=
  let path := filepath.Clean path in
  let path := strings.TrimPrefix path "../" in
  let path := strings.TrimPrefix path "/" in
  path.

(** The cleaning of the form value [path] in [UploadHandler]. *)
Definition cleanCustomPath (customPath : string) : string :=
  if negb (String.eqb customPath "") then
    let customPath := filepath.Clean customPath in
    strings.TrimPrefix customPath "../"
  else customPath.

(** The destination [UploadHandler] passes to [Provider.Upload]. *)
Definition uploadFullPath (handlerBasePath customPath filename : string) : string :=
  filepath.Join [handlerBasePath; cleanCustomPath customPath; filename].

(** The path [GetFileHandler], [GetFileInfoHandler], [DeleteFileHandler]
    and [ListFilesHandler] pass to the provider. *)
Definition handlerFullPath (handlerBasePath path : string) : string :=
  filepath.Join [handlerBasePath; sanitizePath path].

(** ** Notions the properties are stated with *)

(** The case labels of the extension switch. *)
Definition knownExtensions : list string :=
  [".jpg"; ".jpeg"; ".png"; ".gif"; ".webp"; ".svg"; ".pdf"; ".doc"; ".docx"; ".xls";
   ".xlsx"; ".txt"; ".html"; ".htm"; ".css"; ".js"; ".json"; ".xml"; ".zip"; ".tar";
   ".gz"; ".gzip"; ".mp3"; ".mp4"; ".wav"; ".avi"; ".mov"; ".webm"].

(** [location] is the directory [root] or lies below it. *)
Definition underRoot (root location : string) : bool :=
  String.eqb location root || strings.HasPrefix location (root ++ "/").

(** The location on disk the local backend resolves [path] to. *)
Definition physicalPath (ls : LocalStorage) (path : string) : string :=
  filepath.Join [basePath ls; path].

(** ** Concrete states used to exercise the properties *)

Definition hello : list byte := [x68; x65; x6c; x6c; x6f].

Definition helloFile : multipart.FileHeader :=
  multipart.mkFileHeader "b.txt" 5 (Some (multipart.mkFile hello true true)).

(** An upload whose source cannot be opened. *)
Definition brokenFile : multipart.FileHeader :=
  multipart.mkFileHeader "b.txt" 5 None.

(** A disk holding the empty root [/tmp/x] of the local backend. *)
Definition emptyDisk : os.State :=
  os.mkState
    (<["/" := os.Directory 0]>
       (<["/tmp" := os.Directory 0]> (<["/tmp/x" := os.Directory 0]> ∅)))
    ∅ 1000.

(** The same disk with the file [a/b.txt] and the directory [a/c]
    under the root. *)
Definition filledDisk : os.State :=
  os.mkState
    (<["/tmp/x/a" := os.Directory 900]>
       (<["/tmp/x/a/b.txt" := os.File hello 950]>
          (<["/tmp/x/a/c" := os.Directory 960]> (os.nodes emptyDisk))))
    ∅ 1000.

Definition localStore : LocalStorage := mkLocalStorage "/tmp/x" "" true.

(** A reachable service with the bucket [docs] holding two objects
    under [reports/] and one at the top. *)
Definition pdfObject : s3.Object :=
  s3.mkObject hello (Some "application/pdf") 900 None.

Definition textObject : s3.Object :=
  s3.mkObject hello (Some "text/plain; charset=utf-8") 910 None.

Definition filledCloud : s3.Service :=
  s3.mkService {["docs"]}
    (<[("docs", "reports/q1.pdf") := pdfObject]>
       (<[("docs", "reports/2024/q2.pdf") := pdfObject]>
          (<[("docs", "readme.txt") := textObject]> ∅)))
    None 1000 "https://s3.example.com" None.

(** The same service refusing the caller: every request fails with a
    403 whose request id happens to contain the digits 404. *)
Definition refusingCloud : s3.Service :=
  s3.mkService {["docs"]} (s3.objects filledCloud)
    (Some "operation error S3: HeadObject, https response error StatusCode: 403, RequestID: 7404A1B2C3D4E5F6, HostID: , api error Forbidden: Forbidden")
    1000 "https://s3.example.com" None.

Definition s3Store : S3Storage := mkS3Storage "docs" "" "" "eu-west-1".

Definition emptyWorld : World := mkWorld emptyDisk filledCloud.
Definition filledWorld : World := mkWorld filledDisk filledCloud.

(** A sniffer that recognises text only. *)
Definition sniffText (content : list byte) : string := "text/plain; charset=utf-8".

(** A configuration that leaves the storage type empty. *)
Definition untypedConfig : Config :=
  mkConfig "" "./storage/uploads" "" true "" "" "" "" "" "" "" false false 10 [] true 30.





(** [path] is a logical directory of the S3 backend: the service is
    reachable, no object is stored at the (non-empty) full key itself,
    and some object is stored below it. *)
Definition s3DirectoryAt (s : S3Storage) (path : string) (svc : s3.Service) : Prop :=
  s3.outage svc = None
  /\ S3.getFullKey s path <> ""
  /\ s3.objects svc !! (bucket s, S3.getFullKey s path) = None
  /\ exists key o, s3.objects svc !! (bucket s, key) = Some o
                   /\ strings.HasPrefix key (S3.getFullKey s path ++ "/") = true.


(** Every accessible node of the disk lies in an accessible directory. *)
Definition hierarchical (d : os.State) : Prop :=
  map_Forall (fun name _ => os.faults d !! name = None -> os.parent_errno d name = None)
             (os.nodes d).

(** The three failures the properties name. *)
Definition AlreadyExistsError (path : string) : AppError :=
  NewCustomError http.StatusConflict ErrCodeFileAlreadyExists
    ("File already exists: " ++ path).



#[global] Instance Errno_eq_dec : EqDecision Errno.
Proof. solve_decision. Defined.

#[global] Instance hierarchical_dec (d : os.State) : Decision (hierarchical d).
Proof. unfold hierarchical. apply _. Defined.


(** The extension table as the specification describes it: a static
    map from extension to MIME type, unknown extensions going to the
    generic octet-stream type. *)
Definition mimeTable : list (string * string) :=
  [(".jpg", "image/jpeg"); (".jpeg", "image/jpeg"); (".png", "image/png");
   (".gif", "image/gif"); (".webp", "image/webp"); (".svg", "image/svg+xml");
   (".pdf", "application/pdf"); (".doc", "application/msword");
   (".docx", "application/vnd.openxmlformats-officedocument.wordprocessingml.document");
   (".xls", "application/vnd.ms-excel");
   (".xlsx", "application/vnd.openxmlformats-officedocument.spreadsheetml.sheet");
   (".txt", "text/plain"); (".html", "text/html"); (".htm", "text/html");
   (".css", "text/css"); (".js", "application/javascript");
   (".json", "application/json"); (".xml", "application/xml");
   (".zip", "application/zip"); (".tar", "application/x-tar");
   (".gz", "application/gzip"); (".gzip", "application/gzip");
   (".mp3", "audio/mpeg"); (".mp4", "video/mp4"); (".wav", "audio/wav");
   (".avi", "video/x-msvideo"); (".mov", "video/quicktime"); (".webm", "video/webm")].

Fixpoint lookupExt (ext : string) (table : list (string * string)) : option string :=
  match table with
  | [] => None
  | (label, mime) :: rest => if String.eqb ext label then Some mime else lookupExt ext rest
  end.

Definition tableContentType (ext : string) : string :=
  match lookupExt (strings.ToLower ext) mimeTable with
  | Some mime => mime
  | None => "application/octet-stream"
  end.


(** ** Notions the further properties are stated with *)

(** What [Validate] asks of a configuration. *)
Definition validConfig (c : Config) : Prop :=
  (StorageType c = "local"
   \/ StorageType c = "s3" /\ S3Bucket c <> ""
      /\ (S3Endpoint c <> "" -> S3AccessKey c <> "" /\ S3SecretKey c <> ""))
  /\ 0 < UploadMaxSizeMB c /\ 0 < TimeoutSecs c.

(** The characters [sanitizeFilename] replaces. *)
Definition dangerousChars : string := "/\:*?" ++ String dquote "<>|%".

(** [name] is an accessible directory of the disk. *)
Definition isDirectory (d : os.State) (name : string) : Prop :=
  exists st, os.Stat d name = Ok st /\ os.IsDir st = true.



(** The disk [d'] holds every node of [d] as it was, and refuses the
    same names. *)
Definition extends (d d' : os.State) : Prop :=
  os.faults d' = os.faults d
  /\ forall k n, os.nodes d !! k = Some n -> os.nodes d' !! k = Some n.


(** ** [errors.go]: the remaining constructors and the response body *)

Module errors.

Definition ErrCodeFileTooLarge := "FILE_TOO_LARGE".
Definition ErrCodeInvalidFileType := "INVALID_FILE_TYPE".
Definition ErrCodeStorageUnavailable := "STORAGE_UNAVAILABLE".
Definition ErrCodePermissionDenied := "PERMISSION_DENIED".
Definition ErrCodeQuotaExceeded := "QUOTA_EXCEEDED".

(** What the verb [%d] prints for an integer. *)
Definition decimal (z : Z) : string := NilZero.string_of_int (Z.to_int z).

(** [AppError.Unwrap]. *)
Definition Unwrap (e : AppError) : option error := fserrors.Internal e.

Definition WrapErrorWithCustomCode (err : error) (httpCode : Z) (code message : string)
  : AppError :=
  let (c, m, d, h, _) := fserrors.NewCustomError httpCode code message in
  mkAppError c m d h (Some err).

Definition FileTooLargeError (size maxSize : Z) : AppError :=
  fserrors.NewCustomError http.StatusBadRequest ErrCodeFileTooLarge
    ("File size of " ++ decimal size ++ " bytes exceeds the maximum allowed size of "
     ++ decimal maxSize ++ " bytes").

(** The details, in Go a map with the keys [fileType] and
    [allowedTypes], are kept as the file type followed by the allowed
    types. *)
Definition InvalidFileTypeError (fileType : string) (allowedTypes : list string)
  : AppError :=
  fserrors.NewErrorWithDetails http.StatusBadRequest
    ("File type '" ++ fileType ++ "' is not allowed") (fileType :: allowedTypes).

Definition StorageUnavailableError (err : error) : AppError :=
  WrapErrorWithCustomCode err http.StatusServiceUnavailable ErrCodeStorageUnavailable
    "Storage service is currently unavailable".

(** [ErrorResponse], the body of every error reply. *)
Record ErrorResponse := mkErrorResponse {
  Success : bool;
  Code : Z;
  Error : string;
  Message : string;
  Details : list string
}.

Definition FormatErrorResponse (err : error) : ErrorResponse :=
  match err with
  | AppErr appErr =>
      mkErrorResponse false (fserrors.HTTPCode appErr) (fserrors.Code appErr)
        (fserrors.Message appErr) (fserrors.Details appErr)
  | _ =>
      mkErrorResponse false http.StatusInternalServerError fserrors.ErrCodeInternalError
        (fserrors.Error err) []
  end.

End errors.

(** ** [handler.go]: the HTTP handlers

    A handler is the closure the Go function returns, applied to the
    request it reads from the Fiber context and to the world; its
    result is the reply it writes to the context.  The context with
    its timeout is left out: the operations of the model complete at
    once.  The constructors panic on a nil provider; a configuration
    here always has one. *)

Module handler.

Record UploadHandlerConfig := mkUploadHandlerConfig {
  Provider : Provider;
  BasePath : string;
  AllowedTypes : list string;
  MaxFileSize : Z;
  UseUUID : bool;
  TimeoutSecs : Z
}.

(** [FileResponse]. *)
Record FileResponse := mkFileResponse {
  Name : string;
  OriginalName : string;
  Size : Z;
  ContentType : string;
  URL : string;
  Path : string;
  LastModified : Z;
  IsDirectory : bool
}.

(** What the field [Data] of a [Response] holds. *)
Inductive Data :=
| FileData (file : FileResponse)
| PathData (path : string)
| FileListData (files : list FileResponse).

(** [Response]. *)
Record Response := mkResponse {
  Success : bool;
  Message : string;
  ResponseData : Data
}.

(** What the handlers read of the request: the uploaded file of a
    form field, [None] when the form has none, and the raw values of
    the form fields, route parameters and query parameters, empty
    when absent. *)
Record Request := mkRequest {
  FormFile : string -> option multipart.FileHeader;
  FormValue : string -> string;
  Params : string -> string;
  Query : string -> string
}.

(** Fiber's [defaultString]: the default stands in for an empty value. *)
Definition defaultString (value defaultValue : string) : string :=
  if String.eqb value "" then defaultValue else value.

Inductive Payload :=
| ErrorJSON (body : errors.ErrorResponse)
| JSON (body : Response)
| Stream (content : list byte).

(** The reply written to the context: the status, the headers in the
    order they are set, and the body. *)
Record Reply := mkReply {
  Status : Z;
  Headers : list (string * string);
  Body : Payload
}.

(** [c.Status(status).JSON(FormatErrorResponse(err))]. *)
Definition errorReply (status : Z) (err : AppError) : Reply :=
  mkReply status [("Content-Type", "application/json")]
    (ErrorJSON (errors.FormatErrorResponse (AppErr err))).

(** [c.Status(fiber.StatusOK).JSON(response)]. *)
Definition jsonReply (response : Response) : Reply :=
  mkReply http.StatusOK [("Content-Type", "application/json")] (JSON response).

(** The loop over [AllowedTypes] of [UploadHandler]. *)
Fixpoint isAllowed (ext : string) (allowedTypes : list string) : bool :=
  match allowedTypes with
  | [] => false
  | allowedType :: rest => if String.eqb ext allowedType then true else isAllowed ext rest
  end.

(** The loop of [ListFilesHandler] over the records. *)
Fixpoint fileList (path : string) (files : list FileInfo) : list FileResponse :=
  match files with
  | [] => []
  | mkFileInfo name size lastModified url contentType isDirectory :: rest =>
      mkFileResponse name "" size contentType url (filepath.Join [path; name])
        lastModified isDirectory
      :: fileList path rest
  end.

Section Handlers.

(** [http.DetectContentType], and the text of the UUID that
    [uuid.New] draws for the request. *)
Variable DetectContentType : list byte -> string.
Variable uuidNew : string.

Definition UploadHandler (config : UploadHandlerConfig) (c : Request) (w : World)
  : Reply * World :=
  match FormFile c "file" with
  | None =>
      (errorReply http.StatusBadRequest
         (fserrors.NewError http.StatusBadRequest "Failed to get uploaded file"), w)
  | Some file =>
  if multipart.Size file >? MaxFileSize config then
    (errorReply http.StatusBadRequest
       (errors.FileTooLargeError (multipart.Size file) (MaxFileSize config)), w)
  else
  let ext := strings.ToLower (filepath.Ext (multipart.Filename file)) in
  if (0 <? length (AllowedTypes config))%nat && negb (isAllowed ext (AllowedTypes config))
  then
    (errorReply http.StatusBadRequest
       (errors.InvalidFileTypeError ext (AllowedTypes config)), w)
  else
  let originalName := multipart.Filename file in
  let filename :=
    if UseUUID config then uuidNew ++ filepath.Ext (multipart.Filename file)
    else sanitizeFilename (multipart.Filename file) in
  let customPath := cleanCustomPath (FormValue c "path") in
  let fullPath := filepath.Join [BasePath config; customPath; filename] in
  match provider.Upload DetectContentType (Provider config) file fullPath w with
  | (Err (AppErr appErr), w') => (errorReply (fserrors.HTTPCode appErr) appErr, w')
  | (Err err, w') =>
      (errorReply http.StatusInternalServerError
         (fserrors.WrapError err http.StatusInternalServerError "Failed to upload file"),
       w')
  | (Ok (mkFileInfo name size lastModified url contentType _), w') =>
      (jsonReply
         (mkResponse true "File uploaded successfully"
            (FileData (mkFileResponse name originalName size contentType url
                         (filepath.Join [customPath; filename]) lastModified false))),
       w')
  end
  end.

Definition GetFileHandler (config : UploadHandlerConfig) (c : Request) (w : World)
  : Reply :=
  let path := Params c "*" in
  if String.eqb path "" then
    errorReply http.StatusBadRequest
      (fserrors.NewError http.StatusBadRequest "File path is required")
  else
  let path := sanitizePath path in
  let fullPath := filepath.Join [BasePath config; path] in
  match provider.Exists (Provider config) fullPath w with
  | (_, Some err) =>
      errorReply http.StatusInternalServerError
        (fserrors.WrapError err http.StatusInternalServerError
           "Failed to check file existence")
  | (false, None) => errorReply http.StatusNotFound (fserrors.FileNotFoundError path)
  | (true, None) =>
  match provider.Get (Provider config) fullPath w with
  | Err (AppErr appErr) => errorReply (fserrors.HTTPCode appErr) appErr
  | Err err =>
      errorReply http.StatusInternalServerError
        (fserrors.WrapError err http.StatusInternalServerError "Failed to get file")
  | Ok (file, mkFileInfo name _ _ _ contentType _) =>
      let disposition := defaultString (Query c "disposition") "inline" in
      let filename := defaultString (Query c "filename") name in
      let contentType :=
        if String.eqb contentType "" then "application/octet-stream" else contentType in
      mkReply http.StatusOK
        [("Content-Type", contentType);
         ("Content-Disposition",
          disposition ++ "; filename=" ++ String dquote (filename ++ String dquote ""));
         ("Cache-Control", "public, max-age=31536000")]
        (Stream file)
  end
  end.

Definition GetFileInfoHandler (config : UploadHandlerConfig) (c : Request) (w : World)
  : Reply :=
  let path := Params c "*" in
  if String.eqb path "" then
    errorReply http.StatusBadRequest
      (fserrors.NewError http.StatusBadRequest "File path is required")
  else
  let path := sanitizePath path in
  let fullPath := filepath.Join [BasePath config; path] in
  match provider.GetInfo (Provider config) fullPath w with
  | Err (AppErr appErr) => errorReply (fserrors.HTTPCode appErr) appErr
  | Err err =>
      errorReply http.StatusInternalServerError
        (fserrors.WrapError err http.StatusInternalServerError
           "Failed to get file information")
  | Ok (mkFileInfo name size lastModified url contentType isDirectory) =>
      jsonReply
        (mkResponse true ""
           (FileData (mkFileResponse name "" size contentType url path lastModified
                        isDirectory)))
  end.

Definition DeleteFileHandler (config : UploadHandlerConfig) (c : Request) (w : World)
  : Reply * World :=
  let path := Params c "*" in
  if String.eqb path "" then
    (errorReply http.StatusBadRequest
       (fserrors.NewError http.StatusBadRequest "File path is required"), w)
  else
  let path := sanitizePath path in
  let fullPath := filepath.Join [BasePath config; path] in
  match provider.Exists (Provider config) fullPath w with
  | (_, Some err) =>
      (errorReply http.StatusInternalServerError
         (fserrors.WrapError err http.StatusInternalServerError
            "Failed to check file existence"), w)
  | (false, None) => (errorReply http.StatusNotFound (fserrors.FileNotFoundError path), w)
  | (true, None) =>
  match provider.Delete (Provider config) fullPath w with
  | (Some (AppErr appErr), w') => (errorReply (fserrors.HTTPCode appErr) appErr, w')
  | (Some err, w') =>
      (errorReply http.StatusInternalServerError
         (fserrors.WrapError err http.StatusInternalServerError "Failed to delete file"),
       w')
  | (None, w') =>
      (jsonReply (mkResponse true "File deleted successfully" (PathData path)), w')
  end
  end.

Definition ListFilesHandler (config : UploadHandlerConfig) (c : Request) (w : World)
  : Reply :=
  let path := Params c "*" in
  let path := sanitizePath path in
  let fullPath := filepath.Join [BasePath config; path] in
  match provider.List (Provider config) fullPath w with
  | Err (AppErr appErr) => errorReply (fserrors.HTTPCode appErr) appErr
  | Err err =>
      errorReply http.StatusInternalServerError
        (fserrors.WrapError err http.StatusInternalServerError "Failed to list files")
  | Ok files => jsonReply (mkResponse true "" (FileListData (fileList path files)))
  end.

End Handlers.

End handler.

(** ** The configuration read from the environment *)

(** [os.Getenv] over the environment as a map: an unset variable
    reads as the empty string. *)
Definition Getenv (env : gmap string string) (key : string) : string :=
  match env !! key with
  | Some value => value
  | None => ""
  end.

Definition maxInt : Z := 9223372036854775807.
Definition minInt : Z := -9223372036854775808.

(** [strconv.Atoi]: an optional sign and decimal digits, within the
    range of [int]; [None] is a non-nil error. *)
Definition Atoi (s : string) : option Z :=
  let parsed :=
    match s with
    | EmptyString => None
    | String c rest =>
        if Ascii.eqb c "+" then
          match NilZero.int_of_string rest with
          | Some (Decimal.Pos d) => Some (Z.of_int (Decimal.Pos d))
          | _ => None
          end
        else
          match NilZero.int_of_string s with
          | Some d => Some (Z.of_int d)
          | None => None
          end
    end in
  match parsed with
  | Some value => if (minInt <=? value) && (value <=? maxInt) then Some value else None
  | None => None
  end.

(** [getEnvAsInt]. *)
Definition getEnvAsInt (env : gmap string string) (key : string) (defaultValue : Z) : Z :=
  let valueStr := Getenv env key in
  if String.eqb valueStr "" then defaultValue
  else match Atoi valueStr with
       | None => defaultValue
       | Some value => value
       end.

(** [strings.Split s sep] for a separator of one byte. *)
Fixpoint Split (s : string) (sep : ascii) : list string :=
  match s with
  | EmptyString => [""]
  | String c s' =>
      if Ascii.eqb c sep then "" :: Split s' sep
      else match Split s' sep with
           | [] => [String c ""]
           | seg :: segs => String c seg :: segs
           end
  end.

Definition bytes (codes : list nat) : string :=
  fold_right (fun n s => String (ascii_of_nat n) s) "" codes.

(** The white space of Unicode in UTF-8: tab, line feed, vertical
    tab, form feed, carriage return, space, U+0085, U+00A0, U+1680,
    U+2000 to U+200A, U+2028, U+2029, U+202F, U+205F and U+3000. *)
Definition spaceRunes : list string :=
  List.map bytes
    [[9]; [10]; [11]; [12]; [13]; [32]; [194; 133]; [194; 160]; [225; 154; 128];
     [226; 128; 128]; [226; 128; 129]; [226; 128; 130]; [226; 128; 131];
     [226; 128; 132]; [226; 128; 133]; [226; 128; 134]; [226; 128; 135];
     [226; 128; 136]; [226; 128; 137]; [226; 128; 138]; [226; 128; 168];
     [226; 128; 169]; [226; 128; 175]; [226; 129; 159]; [227; 128; 128]]%nat.

Fixpoint revString (s acc : string) : string :=
  match s with
  | EmptyString => acc
  | String c s' => revString s' (String c acc)
  end.

(** The length in bytes of the rune of [runes] that [s] begins with,
    [0] when it begins with none. *)
Fixpoint runeLen (runes : list string) (s : string) : nat :=
  match runes with
  | [] => 0
  | r :: rest => if String.prefix r s then String.length r else runeLen rest s
  end.

(** Dropping the leading runes of [runes]; [skip] counts the bytes
    left of the rune being dropped. *)
Fixpoint trimLeading (runes : list string) (skip : nat) (s : string) : string :=
  match s with
  | EmptyString => EmptyString
  | String c s' =>
      match skip with
      | S k => trimLeading runes k s'
      | O =>
          match runeLen runes s with
          | O => s
          | S k => trimLeading runes k s'
          end
      end
  end.

(** [strings.TrimSpace]. *)
Definition TrimSpace (s : string) : string :=
  let s := trimLeading spaceRunes 0 s in
  let reversed := List.map (fun r => revString r "") spaceRunes in
  revString (trimLeading reversed 0 (revString s "")) "".

Definition truthy (value : string) : bool :=
  String.eqb value "true" || String.eqb value "1" || String.eqb value "yes".

(** The loop of [NewConfigFromEnv] over the allowed types. *)
Fixpoint cleanTypes (types : list string) : list string :=
  match types with
  | [] => []
  | t :: rest =>
      let t := TrimSpace t in
      if negb (String.eqb t "") then
        let t := if negb (strings.HasPrefix t ".") then "." ++ t else t in
        strings.ToLower t :: cleanTypes rest
      else cleanTypes rest
  end.

(** [NewConfigFromEnv]. *)
Definition NewConfigFromEnv (env : gmap string string) : Config :=
  let config := DefaultConfig in
  let get := Getenv env in
  let orDefault (value : string) (field : string) :=
    if negb (String.eqb value "") then value else field in
  let maxSize := getEnvAsInt env "UPLOAD_MAX_SIZE" 10 in
  let timeout := getEnvAsInt env "UPLOAD_TIMEOUT_SECS" 30 in
  let allowedTypes := get "ALLOWED_FILE_TYPES" in
  let cleaned := if negb (String.eqb allowedTypes "")
                 then cleanTypes (Split allowedTypes ",") else [] in
  mkConfig
    (orDefault (get "STORAGE_TYPE") (StorageType config))
    (orDefault (get "UPLOAD_STORAGE_PATH") (LocalStoragePath config))
    (orDefault (get "LOCAL_BASE_URL") (LocalBaseURL config))
    (if negb (String.eqb (get "CREATE_LOCAL_DIRS") "")
     then truthy (get "CREATE_LOCAL_DIRS") else CreateLocalDirs config)
    (get "S3_ENDPOINT") (get "S3_ACCESS_KEY") (get "S3_SECRET_KEY") (get "S3_BUCKET")
    (get "S3_PREFIX") (get "S3_BASE_URL") (get "S3_REGION")
    (String.eqb (get "S3_USE_SSL") "true") (String.eqb (get "S3_PATH_STYLE") "true")
    (if 0 <? maxSize then maxSize else UploadMaxSizeMB config)
    (if (0 <? length cleaned)%nat then cleaned else AllowedFileTypes config)
    (if negb (String.eqb (get "USE_UUID_FILENAMES") "")
     then truthy (get "USE_UUID_FILENAMES") else UseUUID config)
    (if 0 <? timeout then timeout else TimeoutSecs config).

(** ** [factory.go] and [provider.go]: the handler configuration and
    the high-level provider *)

(** The product of two values of type [int], which wraps around. *)
Definition mulInt (a b : Z) : Z :=
  (a * b + 9223372036854775808) mod 18446744073709551616 - 9223372036854775808.

(** [GetUploadHandlerConfig]. *)
Definition GetUploadHandlerConfig (provider : Provider) (cfg : Config)
  : handler.UploadHandlerConfig :=
  handler.mkUploadHandlerConfig provider "" (AllowedFileTypes cfg)
    (mulInt (mulInt (UploadMaxSizeMB cfg) 1024) 1024) (UseUUID cfg) (TimeoutSecs cfg).

Module fsprovider.

Record FilesystemProvider := mkFilesystemProvider {
  Provider : Provider;
  HandlerConfig : handler.UploadHandlerConfig;
  Config : Config
}.

(** [NewFilesystemProviderWithConfig]. *)
Definition NewFilesystemProviderWithConfig config (w : World)
  : result FilesystemProvider * World :=
  let errors := Validate config in
  if (0 <? length errors)%nat then
    (Err (AppErr (NewErrorWithDetails http.StatusBadRequest
                    "Invalid filesystem configuration" errors)), w)
  else
    match NewStorageProvider config w with
    | (Err err, w') => (Err err, w')
    | (Ok provider, w') =>
        (Ok (mkFilesystemProvider provider (GetUploadHandlerConfig provider config) config),
         w')
    end.

(** [NewFilesystemProvider]. *)
Definition NewFilesystemProvider (env : gmap string string) (w : World)
  : result FilesystemProvider * World :=
  let config := NewConfigFromEnv env in
  let errors := Validate config in
  if (0 <? length errors)%nat then
    (Err (AppErr (NewErrorWithDetails http.StatusBadRequest
                    "Invalid filesystem configuration" errors)), w)
  else
    match NewStorageProvider config w with
    | (Err err, w') => (Err err, w')
    | (Ok provider, w') =>
        (Ok (mkFilesystemProvider provider (GetUploadHandlerConfig provider config) config),
         w')
    end.

(** [config := f.HandlerConfig; config.BasePath = basePath]. *)
Definition withBasePath (f : FilesystemProvider) (basePath : string)
  : handler.UploadHandlerConfig :=
  let config := HandlerConfig f in
  handler.mkUploadHandlerConfig (handler.Provider config) basePath
    (handler.AllowedTypes config) (handler.MaxFileSize config) (handler.UseUUID config)
    (handler.TimeoutSecs config).

Section Handlers.

Variable DetectContentType : list byte -> string.
Variable uuidNew : string.

Definition GetUploadHandler (f : FilesystemProvider) (basePath : string) :=
  handler.UploadHandler DetectContentType uuidNew (withBasePath f basePath).

Definition GetFileHandler (f : FilesystemProvider) (basePath : string) :=
  handler.GetFileHandler (withBasePath f basePath).

Definition GetFileInfoHandler (f : FilesystemProvider) (basePath : string) :=
  handler.GetFileInfoHandler (withBasePath f basePath).

Definition GetDeleteFileHandler (f : FilesystemProvider) (basePath : string) :=
  handler.DeleteFileHandler (withBasePath f basePath).

Definition GetListFilesHandler (f : FilesystemProvider) (basePath : string) :=
  handler.ListFilesHandler (withBasePath f basePath).

End Handlers.

End fsprovider.

(** The failures the backends report: a client error (400, with the
    code of the status or [INVALID_PATH]), not found (404), a
    conflict (409) or an internal error (500), each with its code. *)
Definition storageFailure (e : AppError) : bool :=
  (HTTPCode e =? http.StatusBadRequest)
  && (String.eqb (Code e) ErrCodeBadRequest || String.eqb (Code e) ErrCodeInvalidPath)
  || (HTTPCode e =? http.StatusNotFound) && String.eqb (Code e) ErrCodeFileNotFound
  || (HTTPCode e =? http.StatusConflict) && String.eqb (Code e) ErrCodeFileAlreadyExists
  || (HTTPCode e =? http.StatusInternalServerError)
     && String.eqb (Code e) ErrCodeInternalError.

(** The status line of a reply and its body agree: an error body
    carries the status of the reply, which is 400 or more, and denies
    success; any other body comes with the status 200. *)
Definition consistentReply (r : handler.Reply) : bool :=
  match handler.Body r with
  | handler.ErrorJSON body =>
      negb (errors.Success body) && (errors.Code body =? handler.Status r)
      && (400 <=? handler.Status r)
  | handler.JSON body => handler.Success body && (handler.Status r =? http.StatusOK)
  | handler.Stream _ => handler.Status r =? http.StatusOK
  end.

(** A request with the uploaded file [file], the form value [path]
    and the route parameter [param], and no query. *)
Definition request (file : option multipart.FileHeader) (path param : string)
  : handler.Request :=
  handler.mkRequest (fun key => if String.eqb key "file" then file else None)
    (fun key => if String.eqb key "path" then path else "")
    (fun key => if String.eqb key "*" then param else "")
    (fun _ => "").

(** Handlers on the local backend that take any type up to 100 bytes
    and keep the names of the files. *)
Definition plainHandlers : handler.UploadHandlerConfig :=
  handler.mkUploadHandlerConfig (mkProvider (LocalBackend localStore)) "" [] 100 false 30.


(** No element of [path] is the parent element [..]. *)
Definition noParentSegment (path : string) : bool :=
  forallb (fun seg => negb (filepath.is_dotdot seg)) (strings.SplitSlash path).


(** An element [Clean] keeps: not empty and not [.]. *)
Definition kept (seg : string) : bool :=
  negb (String.eqb seg "" || filepath.is_dot seg).


(** * Properties *)

Example Clean_ex1 : filepath.Clean "a//b/./c/.." = "a/b". Proof. reflexivity. Qed.
Example Clean_ex2 : filepath.Clean "/../a/../.." = "/". Proof. reflexivity. Qed.
Example Clean_ex3 : filepath.Clean "../a/../../b/" = "../../b". Proof. reflexivity. Qed.
Example Clean_ex4 : filepath.Clean "a/.." = ".". Proof. reflexivity. Qed.
Example Clean_ex5 : filepath.Clean "" = ".". Proof. reflexivity. Qed.
Example Clean_ex6 : filepath.Clean "/a/b/" = "/a/b". Proof. reflexivity. Qed.
Example Join_ex1 : filepath.Join ["/tmp/x"; "a/b.txt"] = "/tmp/x/a/b.txt". Proof. reflexivity. Qed.
Example Join_ex2 : filepath.Join [""; ""; "a"] = "a". Proof. reflexivity. Qed.
Example Join_ex3 : filepath.Join [""; ""] = "". Proof. reflexivity. Qed.
Example Join_ex4 : filepath.Join ["a"; ""; "/b"] = "a/b". Proof. reflexivity. Qed.
Example Dir_ex1 : filepath.Dir "/tmp/x/a/b.txt" = "/tmp/x/a". Proof. reflexivity. Qed.
Example Dir_ex2 : filepath.Dir "b.txt" = ".". Proof. reflexivity. Qed.
Example Dir_ex3 : filepath.Dir "/" = "/". Proof. reflexivity. Qed.
Example Dir_ex4 : filepath.Dir "/a" = "/". Proof. reflexivity. Qed.
Example Base_ex1 : filepath.Base "/tmp/x/a/b.txt" = "b.txt". Proof. reflexivity. Qed.
Example Base_ex2 : filepath.Base "a/b/" = "b". Proof. reflexivity. Qed.
Example Base_ex3 : filepath.Base "///" = "/". Proof. reflexivity. Qed.
Example Base_ex4 : filepath.Base "" = ".". Proof. reflexivity. Qed.
Example Ext_ex1 : filepath.Ext "a.b/c.tar.gz" = ".gz". Proof. reflexivity. Qed.
Example Ext_ex2 : filepath.Ext "a.b/c" = "". Proof. reflexivity. Qed.
Example Ext_ex3 : filepath.Ext ".bashrc" = ".bashrc". Proof. reflexivity. Qed.
Example Trim_ex1 : strings.TrimRight "http://x//" "/" = "http://x". Proof. reflexivity. Qed.
Example Trim_ex2 : strings.TrimLeft "//a/b" "/" = "a/b". Proof. reflexivity. Qed.
Example Trim_ex3 : strings.TrimSuffix "a/b/" "/" = "a/b". Proof. reflexivity. Qed.
Example Trim_ex4 : strings.TrimPrefix "../../x" "../" = "../x". Proof. reflexivity. Qed.
Example Cont_ex1 : strings.Contains "dial tcp 127.0.0.1:4040: refused" "404" = true. Proof. reflexivity. Qed.
Example Cont_ex2 : strings.Contains "AccessDenied 403" "404" = false. Proof. reflexivity. Qed.
Example Low_ex : strings.ToLower ".JPG" = ".jpg". Proof. reflexivity. Qed.

(** ** Content types (C6) *)

Ltac not_a_label H :=
  repeat match goal with
    | |- context [String.eqb ?e ?l] =>
        destruct (String.eqb_spec e l) as [->|_];
        [exfalso; apply H; unfold knownExtensions;
         repeat (first [left; reflexivity | right]) |]
    end.

(** C6: content-type inference from an extension agrees between the
    two backends for every extension string; [.pdf] gives
    [application/pdf], [.json] gives [application/json], and an
    extension that, lower-cased, is none of the case labels gives
    [application/octet-stream]. *)
Theorem content_type_same_on_both_backends :
  (forall (ls : LocalStorage) (ext : string),
      Local.getContentType ls ext = S3.getContentTypeByExt ext)
  /\ (forall ls : LocalStorage, Local.getContentType ls ".pdf" = "application/pdf")
  /\ S3.getContentTypeByExt ".pdf" = "application/pdf"
  /\ (forall ls : LocalStorage, Local.getContentType ls ".json" = "application/json")
  /\ S3.getContentTypeByExt ".json" = "application/json"
  /\ (forall (ls : LocalStorage) (ext : string),
         ~ In (strings.ToLower ext) knownExtensions ->
         Local.getContentType ls ext = "application/octet-stream"
         /\ S3.getContentTypeByExt ext = "application/octet-stream").
Proof.
  repeat split; try reflexivity.
  - unfold Local.getContentType. generalize dependent (strings.ToLower ext).
    intros e H. not_a_label H. reflexivity.
  - unfold S3.getContentTypeByExt. generalize dependent (strings.ToLower ext).
    intros e H. not_a_label H. reflexivity.
Qed.

(** Both switches compute the lookup in the extension table. *)
Lemma content_type_is_table_lookup (ls : LocalStorage) (ext : string) :
  Local.getContentType ls ext = tableContentType ext
  /\ S3.getContentTypeByExt ext = tableContentType ext.
Proof.
  unfold Local.getContentType, S3.getContentTypeByExt, tableContentType.
  generalize (strings.ToLower ext). intros e. unfold mimeTable, lookupExt.
  repeat match goal with
    | |- context [String.eqb e ?l] =>
        destruct (String.eqb_spec e l) as [->|_]; [split; reflexivity|]
    end.
  split; reflexivity.
Qed.

(** C6 on an extension outside the table. *)
Lemma content_type_same_on_both_backends_witness :
  Local.getContentType (mkLocalStorage "/tmp/x" "" true) ".Qux" = "application/octet-stream"
  /\ S3.getContentTypeByExt ".Qux" = "application/octet-stream".
Proof.
  apply (proj2 (proj2 (proj2 (proj2 (proj2 content_type_same_on_both_backends))))).
  vm_compute. intros H.
  repeat match type of H with
         | _ \/ _ => destruct H as [H|H]
         end; try discriminate H; exact H.
Defined.

(** ** Path sanitization at the handlers (C1) *)

(** C1: the sanitization of the handlers is meant to confine every
    caller-supplied path under the root.  It strips one leading
    parent segment only: for the request path [../../etc/passwd]
    [sanitizePath] returns [../etc/passwd], and the local backend with
    root [/srv/uploads] resolves it to [/srv/etc/passwd], outside its
    root; the custom path of [UploadHandler] escapes the same way. *)
Theorem sanitizePath_leaves_parent_segment :
  sanitizePath "../../etc/passwd" = "../etc/passwd"
  /\ strings.HasPrefix (sanitizePath "../../etc/passwd") "../" = true
  /\ physicalPath (mkLocalStorage "/srv/uploads" "" true)
       (handlerFullPath "" "../../etc/passwd") = "/srv/etc/passwd"
  /\ underRoot "/srv/uploads"
       (physicalPath (mkLocalStorage "/srv/uploads" "" true)
          (handlerFullPath "" "../../etc/passwd")) = false
  /\ cleanCustomPath "../../etc" = "../etc"
  /\ physicalPath (mkLocalStorage "/srv/uploads" "" true)
       (uploadFullPath "" "../../etc" "passwd") = "/srv/etc/passwd"
  /\ underRoot "/srv/uploads"
       (physicalPath (mkLocalStorage "/srv/uploads" "" true)
          (uploadFullPath "" "../../etc" "passwd")) = false.
Proof. repeat split; vm_compute; reflexivity. Qed.

(** Whatever follows two leading parent segments of the cleaned path,
    one of them is left. *)
Lemma sanitizePath_strips_one_parent_only (path rest : string) :
  filepath.Clean path = "../../" ++ rest ->
  sanitizePath path = "../" ++ rest.
Proof. intros H. unfold sanitizePath. rewrite H. reflexivity. Qed.

(** A path without parent segments stays under the root. *)
Example sanitizePath_plain :
  sanitizePath "/a/./b//c.txt" = "a/b/c.txt"
  /\ underRoot "/srv/uploads"
       (physicalPath (mkLocalStorage "/srv/uploads" "" true)
          (handlerFullPath "" "/a/./b//c.txt")) = true.
Proof. split; vm_compute; reflexivity. Qed.

(** ** Configuration and factory (C9) *)

Lemma appendIf_In (cond : bool) (msg x : string) (errors : list string) :
  In x errors -> In x (appendIf cond msg errors).
Proof.
  unfold appendIf. destruct cond; [|tauto].
  intros H. apply in_or_app. now left.
Qed.

(** [Validate] reports every storage type other than [local] and [s3]. *)
Lemma Validate_rejects_unknown_type (cfg : Config) :
  StorageType cfg <> "local" -> StorageType cfg <> "s3" ->
  In "Invalid storage type. Must be 'local' or 's3'" (Validate cfg).
Proof.
  intros Hl Hs. unfold Validate.
  destruct (String.eqb_spec (StorageType cfg) "local") as [|_]; [contradiction|].
  destruct (String.eqb_spec (StorageType cfg) "s3") as [|_]; [contradiction|].
  cbn [negb andb]. do 2 apply appendIf_In. simpl. now left.
Qed.

(** A refused configuration constructs nothing. *)
Lemma NewStorageProvider_invalid (cfg : Config) (w : World) (msg : string) :
  In msg (Validate cfg) ->
  NewStorageProvider cfg w =
    (Err (AppErr (NewErrorWithDetails http.StatusBadRequest
                    "Invalid filesystem configuration" (Validate cfg))), w).
Proof.
  intros H. unfold NewStorageProvider.
  destruct (Validate cfg) as [|e errors]; [destruct H|]. reflexivity.
Qed.

(** C9: a configuration whose [StorageType] is empty is refused by
    [NewStorageProvider] with the configuration error that carries
    the findings of [Validate] (status 400); nothing is constructed
    and the world is left as it was, so the arm of the switch that
    takes the empty type for the local backend is never reached. *)
Theorem empty_storage_type_is_refused (cfg : Config) (w : World) :
  StorageType cfg = "" ->
  NewStorageProvider cfg w =
    (Err (AppErr (NewErrorWithDetails http.StatusBadRequest
                    "Invalid filesystem configuration" (Validate cfg))), w)
  /\ In "Invalid storage type. Must be 'local' or 's3'" (Validate cfg)
  /\ HTTPCode (NewErrorWithDetails http.StatusBadRequest
                 "Invalid filesystem configuration" (Validate cfg)) = 400
  /\ Code (NewErrorWithDetails http.StatusBadRequest
             "Invalid filesystem configuration" (Validate cfg)) = ErrCodeBadRequest.
Proof.
  intros H.
  assert (Hin : In "Invalid storage type. Must be 'local' or 's3'" (Validate cfg)).
  { apply Validate_rejects_unknown_type; rewrite H; discriminate. }
  split; [|split; [exact Hin|split; reflexivity]].
  eapply NewStorageProvider_invalid, Hin.
Qed.

(** A provider over the local backend is only returned for the
    storage type [local]. *)
Lemma local_backend_only_for_local (cfg : Config) (w w' : World) (ls : LocalStorage) :
  NewStorageProvider cfg w = (Ok (mkProvider (LocalBackend ls)), w') ->
  StorageType cfg = "local".
Proof.
  intros H.
  destruct (String.eqb_spec (StorageType cfg) "local") as [|Hl]; [assumption|].
  destruct (String.eqb_spec (StorageType cfg) "s3") as [Hs|Hs].
  - unfold NewStorageProvider in H.
    destruct (0 <? length (Validate cfg))%nat; [discriminate|].
    rewrite Hs in H. cbn [String.eqb Ascii.eqb Bool.eqb] in H.
    repeat match type of H with
           | context [match ?x with _ => _ end] => destruct x; try discriminate
           end.
  - rewrite (NewStorageProvider_invalid cfg w _ (Validate_rejects_unknown_type cfg Hl Hs)) in H.
    discriminate.
Qed.

(** C9 on a configuration that leaves the storage type empty. *)
Lemma empty_storage_type_is_refused_witness :
  NewStorageProvider untypedConfig emptyWorld =
    (Err (AppErr (NewErrorWithDetails http.StatusBadRequest
                    "Invalid filesystem configuration" (Validate untypedConfig))), emptyWorld)
  /\ In "Invalid storage type. Must be 'local' or 's3'" (Validate untypedConfig)
  /\ HTTPCode (NewErrorWithDetails http.StatusBadRequest
                 "Invalid filesystem configuration" (Validate untypedConfig)) = 400
  /\ Code (NewErrorWithDetails http.StatusBadRequest
             "Invalid filesystem configuration" (Validate untypedConfig)) = ErrCodeBadRequest.
Proof. apply (empty_storage_type_is_refused untypedConfig emptyWorld). reflexivity. Defined.

(** ** The [os] model and the SDK client: inversion lemmas *)

Lemma Stat_Ok_inv (w : os.State) (name : string) (st : os.FileStat) :
  os.Stat w name = Ok st ->
  os.faults w !! name = None
  /\ exists n, os.nodes w !! name = Some n /\ st = os.stat_of name n.
Proof.
  unfold os.Stat, os.access. intros H.
  destruct (os.faults w !! name); [discriminate|].
  destruct (os.nodes w !! name) as [n|]; [|discriminate].
  injection H as <-. eauto.
Qed.

Lemma Stat_lookup (w : os.State) (name : string) (n : os.inode) :
  os.faults w !! name = None -> os.nodes w !! name = Some n ->
  os.Stat w name = Ok (os.stat_of name n).
Proof. intros Hf Hn. unfold os.Stat, os.access. now rewrite Hf, Hn. Qed.

Lemma Stat_absent (w : os.State) (name : string) :
  os.faults w !! name = None -> os.nodes w !! name = None ->
  os.Stat w name = Err (PathError "stat" name ENOENT).
Proof. intros Hf Hn. unfold os.Stat, os.access. now rewrite Hf, Hn. Qed.

Ltac split_match H :=
  repeat match type of H with
    | context [match ?x with _ => _ end] =>
        let E := fresh "E" in destruct x eqn:E; try discriminate H
    | context [if ?x then _ else _] =>
        let E := fresh "E" in destruct x eqn:E; try discriminate H
    end.


Lemma Open_Ok_inv (file : multipart.FileHeader) (src : multipart.File) :
  multipart.Open file = Ok src -> multipart.Source file = Some src.
Proof. unfold multipart.Open. destruct (multipart.Source file); congruence. Qed.

Lemma ReadAll_Ok_inv (src : multipart.File) (data : list byte) :
  multipart.ReadAll src = Ok data ->
  multipart.Readable src = true /\ data = multipart.Bytes src.
Proof. unfold multipart.ReadAll. destruct (multipart.Readable src); intros H; [|discriminate]. injection H as <-. auto. Qed.

Lemma S3_HeadObject_Ok_inv (svc : s3.Service) (b key : string) (out : s3.HeadObjectOutput) :
  s3.HeadObject svc b key = Ok out ->
  s3.outage svc = None /\ key <> "" /\ b ∈ s3.bucketNames svc
  /\ exists o, s3.objects svc !! (b, key) = Some o
       /\ out = s3.mkHeadObjectOutput (Some (Z.of_nat (length (s3.Body o))))
                  (Some (s3.ObjectLastModified o)) (s3.ObjectContentType o).
Proof.
  unfold s3.HeadObject. intros H.
  destruct (s3.outage svc); [discriminate|].
  destruct (String.eqb_spec key ""); [discriminate|].
  destruct (bool_decide_reflect (b ∈ s3.bucketNames svc)); [|discriminate].
  simpl in H. destruct (s3.objects svc !! (b, key)) as [o|]; [|discriminate].
  injection H as <-. eauto 10.
Qed.

Lemma S3_HeadObject_found (svc : s3.Service) (b key : string) (o : s3.Object) :
  s3.outage svc = None -> key <> "" -> b ∈ s3.bucketNames svc ->
  s3.objects svc !! (b, key) = Some o ->
  s3.HeadObject svc b key =
    Ok (s3.mkHeadObjectOutput (Some (Z.of_nat (length (s3.Body o))))
          (Some (s3.ObjectLastModified o)) (s3.ObjectContentType o)).
Proof.
  intros Ho Hk Hb Hl. unfold s3.HeadObject. rewrite Ho.
  destruct (String.eqb_spec key ""); [contradiction|].
  rewrite (bool_decide_eq_true_2 _ Hb). simpl. now rewrite Hl.
Qed.

Lemma S3_HeadObject_missing (svc : s3.Service) (b key : string) :
  s3.outage svc = None -> key <> "" ->
  s3.objects svc !! (b, key) = None ->
  s3.HeadObject svc b key = Err (TextError (s3.notFoundText "HeadObject")).
Proof.
  intros Ho Hk Hl. unfold s3.HeadObject. rewrite Ho.
  destruct (String.eqb_spec key ""); [contradiction|].
  destruct (bool_decide (b ∈ s3.bucketNames svc)); simpl; [|reflexivity].
  now rewrite Hl.
Qed.

Lemma S3_GetObject_found (svc : s3.Service) (b key : string) (o : s3.Object) :
  s3.outage svc = None -> key <> "" -> b ∈ s3.bucketNames svc ->
  s3.objects svc !! (b, key) = Some o ->
  s3.GetObject svc b key = Ok (s3.mkGetObjectOutput (s3.Body o) (s3.ObjectContentType o)).
Proof.
  intros Ho Hk Hb Hl. unfold s3.GetObject. rewrite Ho.
  destruct (String.eqb_spec key ""); [contradiction|].
  rewrite (bool_decide_eq_true_2 _ Hb). simpl. now rewrite Hl.
Qed.

Lemma looksNotFound_notFound :
  S3.looksNotFound (TextError (s3.notFoundText "HeadObject")) = true.
Proof. vm_compute. reflexivity. Qed.

Lemma S3_PutObject_Ok_inv (svc svc1 : s3.Service) (b key ct loc : string)
    (body : list byte) (meta : s3.Metadata) :
  s3.PutObject svc b key body ct meta = Ok (loc, svc1) ->
  s3.outage svc = None /\ key <> "" /\ b ∈ s3.bucketNames svc
  /\ svc1 = s3.with_objects svc
              (<[(b, key) := s3.mkObject body (Some ct) (s3.now svc) (Some meta)]>
                 (s3.objects svc)).
Proof.
  unfold s3.PutObject. intros H.
  destruct (s3.outage svc); [discriminate|].
  destruct (String.eqb_spec key ""); [discriminate|].
  destruct (bool_decide_reflect (b ∈ s3.bucketNames svc)); [|discriminate].
  simpl in H. injection H as _ <-. auto.
Qed.

(** What a successful [Upload] has done, on either backend. *)
Lemma S3_Upload_Ok (sniff : list byte -> string) (s : S3Storage)
    (file : multipart.FileHeader) (path : string) (svc svc1 : s3.Service) (info : FileInfo) :
  S3.Upload sniff s file path svc = (Ok info, svc1) ->
  exists src ct meta,
    multipart.Source file = Some src
    /\ s3.outage svc = None /\ S3.getFullKey s path <> "" /\ bucket s ∈ s3.bucketNames svc
    /\ svc1 = s3.with_objects svc
                (<[(bucket s, S3.getFullKey s path) :=
                     s3.mkObject (multipart.Bytes src) (Some ct) (s3.now svc) (Some meta)]>
                   (s3.objects svc)).
Proof.
  unfold S3.Upload. intros H. split_match H.
  all: injection H as _ <-.
  all: match goal with
  | Ho : multipart.Open _ = Ok ?a, Hr : multipart.ReadAll ?a = Ok ?d,
    Hp : s3.PutObject _ _ _ _ _ _ = Ok _ |- _ =>
      apply Open_Ok_inv in Ho; apply ReadAll_Ok_inv in Hr as [_ ->];
      apply S3_PutObject_Ok_inv in Hp as (? & ? & ? & ->); eauto 10
  end.
Qed.

Lemma S3_Get_found (s : S3Storage) (path : string) (svc : s3.Service) (o : s3.Object) :
  s3.outage svc = None -> S3.getFullKey s path <> "" -> bucket s ∈ s3.bucketNames svc ->
  s3.objects svc !! (bucket s, S3.getFullKey s path) = Some o ->
  exists info, S3.Get s path svc = Ok (s3.Body o, info)
               /\ Size info = Z.of_nat (length (s3.Body o))
               /\ IsDirectory info = false.
Proof.
  intros Ho Hk Hb Hl. unfold S3.Get.
  rewrite (S3_HeadObject_found _ _ _ _ Ho Hk Hb Hl), (S3_GetObject_found _ _ _ _ Ho Hk Hb Hl).
  eexists. split; [reflexivity|]. split; reflexivity.
Qed.

Lemma Local_Upload_Ok (ls : LocalStorage) (file : multipart.FileHeader) (path : string)
    (w w' : os.State) (info : FileInfo) :
  Local.Upload ls file path w = (Ok info, w') ->
  exists src w2,
    multipart.Source file = Some src
    /\ w' = os.Write w2 (physicalPath ls path) (multipart.Bytes src)
    /\ os.faults w' !! physicalPath ls path = None.
Proof.
  unfold Local.Upload, physicalPath.
  set (fullPath := filepath.Join [basePath ls; path]).
  intros H.
  split_match H.
  injection H as _ <-.
  match goal with
  | Ho : multipart.Open file = Ok ?a, Hr : multipart.ReadAll ?a = Ok ?d,
    Hs : os.Stat (os.Write ?w2 _ _) _ = Ok _ |- _ =>
      apply Open_Ok_inv in Ho; apply ReadAll_Ok_inv in Hr as [_ ->];
      apply Stat_Ok_inv in Hs as [Hf _]; exists a, w2; auto
  end.
Qed.

Lemma Local_Get_file (ls : LocalStorage) (path : string) (w : os.State)
    (data : list byte) (mtime : Z) :
  os.faults w !! physicalPath ls path = None ->
  os.nodes w !! physicalPath ls path = Some (os.File data mtime) ->
  Local.Get ls path w =
    Ok (data, mkFileInfo (filepath.Base path) (Z.of_nat (length data)) mtime
                (Local.urlFor ls path)
                (Local.getContentType ls (filepath.Ext (physicalPath ls path))) false).
Proof.
  intros Hf Hn. unfold Local.Get. fold (physicalPath ls path).
  rewrite (Stat_lookup _ _ _ Hf Hn). simpl.
  unfold os.Open, os.access. now rewrite Hf, Hn.
Qed.

Lemma Remove_Ok_inv (w w1 : os.State) (name : string) :
  os.Remove w name = Ok w1 ->
  os.faults w !! name = None /\ w1 = os.with_nodes w (delete name (os.nodes w)).
Proof.
  unfold os.Remove, os.access. intros H.
  destruct (os.faults w !! name); [discriminate|].
  split_match H; injection H as <-; auto.
Qed.

Lemma Local_Delete_Ok (ls : LocalStorage) (path : string) (w w1 : os.State) :
  Local.Delete ls path w = (None, w1) ->
  os.faults w !! physicalPath ls path = None
  /\ w1 = os.with_nodes w (delete (physicalPath ls path) (os.nodes w)).
Proof.
  unfold Local.Delete. fold (physicalPath ls path). intros H.
  split_match H. injection H as <-.
  eapply Remove_Ok_inv; eassumption.
Qed.

Lemma Local_absent (ls : LocalStorage) (path : string) (w : os.State) :
  os.Stat w (physicalPath ls path) = Err (PathError "stat" (physicalPath ls path) ENOENT) ->
  Local.Exists ls path w = (false, None)
  /\ Local.Get ls path w = Err (AppErr (FileNotFoundError path))
  /\ Local.Delete ls path w = (Some (AppErr (FileNotFoundError path)), w).
Proof.
  intros H. unfold Local.Exists, Local.Get, Local.Delete.
  fold (physicalPath ls path). rewrite H. auto.
Qed.

Lemma S3_absent (s : S3Storage) (path : string) (svc : s3.Service) :
  s3.HeadObject svc (bucket s) (S3.getFullKey s path)
  = Err (TextError (s3.notFoundText "HeadObject")) ->
  S3.Exists s path svc = (false, None)
  /\ S3.Get s path svc = Err (AppErr (FileNotFoundError path))
  /\ S3.GetInfo s path svc = Err (AppErr (FileNotFoundError path))
  /\ S3.Delete s path svc = (Some (AppErr (FileNotFoundError path)), svc).
Proof.
  intros H. unfold S3.Delete, S3.Exists, S3.Get, S3.GetInfo.
  rewrite H, looksNotFound_notFound. auto.
Qed.

Lemma S3_Delete_Ok (s : S3Storage) (path : string) (svc svc1 : s3.Service) :
  S3.Delete s path svc = (None, svc1) ->
  s3.outage svc = None /\ S3.getFullKey s path <> ""
  /\ svc1 = s3.with_objects svc (delete (bucket s, S3.getFullKey s path) (s3.objects svc)).
Proof.
  unfold S3.Delete, S3.Exists. intros H.
  destruct (s3.HeadObject svc (bucket s) (S3.getFullKey s path)) as [out|e] eqn:E.
  - apply S3_HeadObject_Ok_inv in E as (Ho & Hk & Hb & _).
    unfold s3.DeleteObject in H. rewrite Ho in H.
    destruct (String.eqb_spec (S3.getFullKey s path) ""); [contradiction|].
    rewrite (bool_decide_eq_true_2 _ Hb) in H. simpl in H.
    injection H as <-. auto.
  - destruct (S3.looksNotFound e); discriminate.
Qed.

(** An error whose text matches is taken for not-found whatever
    failed. *)
Lemma S3_Exists_swallows_matching_failure (s : S3Storage) (path : string)
    (svc : s3.Service) (text : string) :
  s3.outage svc = Some text -> S3.looksNotFound (TextError text) = true ->
  S3.Exists s path svc = (false, None).
Proof.
  intros Ho Hl. unfold S3.Exists, s3.HeadObject. now rewrite Ho, Hl.
Qed.

Lemma Local_Exists_propagates (ls : LocalStorage) (path : string) (d : os.State) (err : error) :
  os.Stat d (physicalPath ls path) = Err err -> IsNotExist err = false ->
  Local.Exists ls path d =
    (false, Some (AppErr (WrapError err http.StatusInternalServerError
                            ("Failed to check file existence: " ++ path)))).
Proof. intros H Hn. unfold Local.Exists. fold (physicalPath ls path). now rewrite H, Hn. Qed.

Lemma S3_Exists_propagates (s : S3Storage) (path : string) (svc : s3.Service) (err : error) :
  s3.HeadObject svc (bucket s) (S3.getFullKey s path) = Err err ->
  S3.looksNotFound err = false ->
  S3.Exists s path svc =
    (false, Some (AppErr (WrapError err http.StatusInternalServerError
                            ("Failed to check if file exists in S3: " ++ path)))).
Proof. intros H Hn. unfold S3.Exists. now rewrite H, Hn. Qed.

Lemma length_take (n : nat) (s : string) : (String.length (strings.take n s) <= n)%nat.
Proof.
  revert s. induction n as [|n IH]; intros [|c s]; simpl; try lia.
  specialize (IH s). lia.
Qed.

Lemma length_TrimRight (s cutset : string) :
  (String.length (strings.TrimRight s cutset) <= String.length s)%nat.
Proof.
  induction s as [|c s IH]; simpl; [lia|].
  destruct (strings.TrimRight s cutset) eqn:E.
  - destruct (strings.mem c cutset); simpl; lia.
  - simpl in *. lia.
Qed.

Lemma length_before_last (path : string) :
  (String.length (fst (filepath.cut_last path)) <= String.length path)%nat.
Proof.
  unfold filepath.cut_last. simpl.
  pose proof (length_take
                (String.length path
                 - String.length (List.last (strings.SplitSlash path) "")) path).
  lia.
Qed.

(** The fuel of [MkdirAll] is enough: more of it changes nothing. *)
Lemma MkdirAll_rec_enough (fuel1 fuel2 : nat) (w : os.State) (path : string) :
  (String.length path <= fuel1)%nat -> (String.length path <= fuel2)%nat ->
  os.MkdirAll_rec fuel1 w path = os.MkdirAll_rec fuel2 w path.
Proof.
  revert fuel2 w path. induction fuel1 as [|fuel1 IH]; intros fuel2 w path H1 H2.
  - destruct path; [|simpl in H1; lia].
    destruct fuel2; reflexivity.
  - destruct fuel2 as [|fuel2].
    + destruct path; [|simpl in H2; lia]. reflexivity.
    + cbn [os.MkdirAll_rec]. destruct (os.Stat w path); [reflexivity|].
      set (j := String.length (fst (filepath.cut_last (strings.TrimRight path "/")))).
      assert (Hj : (j <= String.length path)%nat).
      { subst j. pose proof (length_before_last (strings.TrimRight path "/")).
        pose proof (length_TrimRight path "/"). lia. }
      destruct (1 <? j)%nat eqn:E; [|reflexivity].
      apply Nat.ltb_lt in E.
      pose proof (length_take (j - 1) path).
      rewrite (IH fuel2 w (strings.take (j - 1) path)) by lia. reflexivity.
Qed.

Lemma MkdirAll_existing_directory (w : os.State) (dir : string) (st : os.FileStat) :
  os.Stat w dir = Ok st -> os.IsDir st = true -> os.MkdirAll w dir = (None, w).
Proof.
  intros Hs Hd. unfold os.MkdirAll.
  destruct (String.length dir); simpl; now rewrite Hs, Hd.
Qed.

Lemma parent_is_directory (d : os.State) (name : string) (st : os.FileStat) :
  hierarchical d -> os.Stat d name = Ok st ->
  exists st', os.Stat d (filepath.Dir name) = Ok st' /\ os.IsDir st' = true.
Proof.
  intros Hh Hs. apply Stat_Ok_inv in Hs as (Hf & n & Hn & _).
  specialize (Hh name n Hn Hf). unfold os.parent_errno in Hh. unfold os.Stat.
  destruct (os.access d "stat" (filepath.Dir name)) as [[data m|m]|[]]; try discriminate.
  eexists. split; reflexivity.
Qed.

Lemma Local_Upload_existing (ls : LocalStorage) (file : multipart.FileHeader)
    (path : string) (d : os.State) (st : os.FileStat) :
  hierarchical d -> os.Stat d (physicalPath ls path) = Ok st ->
  Local.Upload ls file path d = (Err (AppErr (AlreadyExistsError path)), d).
Proof.
  intros Hh Hs. destruct (parent_is_directory _ _ _ Hh Hs) as (st' & Hp & Hd).
  unfold Local.Upload. fold (physicalPath ls path).
  destruct (createDirectories ls).
  - rewrite (MkdirAll_existing_directory _ _ _ Hp Hd). now rewrite Hs.
  - rewrite Hp. now rewrite Hs.
Qed.



Lemma s3DirectoryAt_not_found (s : S3Storage) (path : string) (svc : s3.Service) :
  s3DirectoryAt s path svc ->
  s3.HeadObject svc (bucket s) (S3.getFullKey s path)
  = Err (TextError (s3.notFoundText "HeadObject")).
Proof. intros (Ho & Hk & Hn & _). now apply S3_HeadObject_missing. Qed.

Lemma s3_reports_is_directory : s3DirectoryAt s3Store "reports" filledCloud.
Proof.
  unfold s3DirectoryAt. split; [reflexivity|]. split; [discriminate|].
  split; [vm_compute; reflexivity|].
  exists "reports/q1.pdf", pdfObject. split; vm_compute; reflexivity.
Defined.

Lemma Local_List_file (ls : LocalStorage) (path : string) (d : os.State) (st : os.FileStat) :
  os.Stat d (physicalPath ls path) = Ok st -> os.IsDir st = false ->
  exists record, Local.List ls path d = Ok [record]
                 /\ Name record = filepath.Base path /\ IsDirectory record = false.
Proof.
  intros H Hd. unfold Local.List. fold (physicalPath ls path). rewrite H, Hd. simpl.
  eexists. split; [reflexivity|]. split; reflexivity.
Qed.

Lemma drop_length_app (k t : string) : strings.drop (String.length k) (k ++ t) = t.
Proof. induction k as [|c k IH]; simpl; [reflexivity|exact IH]. Qed.

Lemma length_app (k t : string) :
  String.length (k ++ t) = (String.length k + String.length t)%nat.
Proof. induction k as [|c k IH]; simpl; [reflexivity|now rewrite IH]. Qed.

Lemma HasSuffix_app (k t : string) : strings.HasSuffix (k ++ t) t = true.
Proof.
  unfold strings.HasSuffix. rewrite length_app.
  replace (String.length k + String.length t - String.length t)%nat
    with (String.length k) by lia.
  rewrite drop_length_app, String.eqb_refl.
  rewrite andb_true_r. apply Nat.leb_le. lia.
Qed.

Lemma withSlash_ends_with_slash (k : string) :
  k <> "" -> strings.HasSuffix (S3.withSlash k) "/" = true.
Proof.
  intros Hk. unfold S3.withSlash.
  destruct (String.eqb_spec k ""); [contradiction|]. simpl.
  destruct (strings.HasSuffix k "/") eqn:E; simpl; [exact E|].
  apply HasSuffix_app.
Qed.

(** Off the root, [List] never reaches its single-file fallback. *)
Lemma S3_List_fallback_unreachable (s : S3Storage) (path : string) (svc : s3.Service)
    (output : s3.ListObjectsV2Output) :
  S3.getFullKey s path <> "" -> path <> "" -> path <> "/" ->
  s3.ListObjectsV2 svc (bucket s) (S3.withSlash (S3.getFullKey s path)) = Ok output ->
  S3.List s path svc =
    Ok (List.app (List.map (S3.prefixRecord s svc) (s3.CommonPrefixes output))
                 (S3.contentRecords s (S3.withSlash (S3.getFullKey s path))
                    (s3.Contents output))).
Proof.
  intros Hk Hp Hs Hl. unfold S3.List.
  destruct (String.eqb_spec path ""); [contradiction|].
  destruct (String.eqb_spec path "/"); [contradiction|]. simpl.
  rewrite Hl, (withSlash_ends_with_slash _ Hk). simpl.
  now rewrite andb_false_r.
Qed.

Lemma omap_all_None {A B} (f : A -> option B) (l : list A) :
  (forall x, x ∈ l -> f x = None) -> omap f l = [].
Proof.
  induction l as [|x l IH]; intros H; [reflexivity|].
  simpl. rewrite (H x) by apply list_elem_of_here.
  apply IH. intros y Hy. apply H. now apply list_elem_of_further.
Qed.

Lemma keysWithPrefix_none (svc : s3.Service) (b prefix : string) :
  (forall key o, s3.objects svc !! (b, key) = Some o ->
                 strings.HasPrefix key prefix = false) ->
  s3.keysWithPrefix svc b prefix = [].
Proof.
  intros H. unfold s3.keysWithPrefix. rewrite omap_all_None; [reflexivity|].
  intros [[b' key] o] Hin. apply elem_of_map_to_list in Hin. simpl.
  destruct (String.eqb_spec b' b) as [->|]; [|reflexivity].
  now rewrite (H key o Hin).
Qed.

(** On the S3 backend [List] on a stored object with nothing stored
    below its key returns the empty list, for every storage, service
    and path off the root. *)
Lemma S3_List_of_file_is_empty (s : S3Storage) (path : string) (svc : s3.Service) :
  s3.outage svc = None -> bucket s ∈ s3.bucketNames svc ->
  S3.getFullKey s path <> "" -> path <> "" -> path <> "/" ->
  (forall key o, s3.objects svc !! (bucket s, key) = Some o ->
                 strings.HasPrefix key (S3.withSlash (S3.getFullKey s path)) = false) ->
  S3.List s path svc = Ok [].
Proof.
  intros Ho Hb Hk Hp Hs Hnone.
  erewrite S3_List_fallback_unreachable; try eassumption.
  2:{ unfold s3.ListObjectsV2. rewrite Ho, (bool_decide_eq_true_2 _ Hb). simpl.
      rewrite (keysWithPrefix_none _ _ _ Hnone). reflexivity. }
  reflexivity.
Qed.

Lemma contentRecords_not_directories (s : S3Storage) (fullPrefix : string)
    (contents : list s3.ObjectSummary) (r : FileInfo) :
  In r (S3.contentRecords s fullPrefix contents) -> IsDirectory r = false.
Proof.
  induction contents as [|obj rest IH]; simpl; [tauto|].
  destruct (strings.HasSuffix (s3.Key obj) "/"); [exact IH|].
  destruct (String.eqb (s3.Key obj) fullPrefix); [exact IH|].
  intros [<-|H]; [reflexivity|auto].
Qed.

Lemma S3_GetInfo_not_directory (s : S3Storage) (path : string) (svc : s3.Service)
    (info : FileInfo) :
  S3.GetInfo s path svc = Ok info -> IsDirectory info = false.
Proof.
  unfold S3.GetInfo. intros H. split_match H; injection H as <-; reflexivity.
Qed.

Lemma S3_List_directories_synthesized (s : S3Storage) (path : string) (svc : s3.Service)
    (records : list FileInfo) (r : FileInfo) :
  S3.List s path svc = Ok records -> In r records -> IsDirectory r = true ->
  ContentType r = "application/directory" /\ Size r = 0.
Proof.
  unfold S3.List. intros H Hin Hd.
  destruct (s3.ListObjectsV2 _ _ _) as [output|]; [|discriminate].
  match type of H with
  | context [S3.GetInfo s path svc] => destruct (S3.GetInfo s path svc) as [single|] eqn:Hg
  end.
  - apply S3_GetInfo_not_directory in Hg.
    destruct (_ && _) in H; injection H as <-.
    + destruct Hin as [<-|[]]. congruence.
    + apply in_app_or in Hin as [Hin|Hin].
      * apply in_map_iff in Hin as (cp & <- & _). split; reflexivity.
      * apply contentRecords_not_directories in Hin. congruence.
  - assert (records = List.app (List.map (S3.prefixRecord s svc) (s3.CommonPrefixes output))
                        (S3.contentRecords s
                           (if String.eqb path "" || String.eqb path "/"
                            then S3.withSlash (basePrefix s)
                            else S3.withSlash (S3.getFullKey s path))
                           (s3.Contents output))) as ->.
    { destruct (_ && _) in H; injection H as <-; reflexivity. }
    apply in_app_or in Hin as [Hin|Hin].
    + apply in_map_iff in Hin as (cp & <- & _). split; reflexivity.
    + apply contentRecords_not_directories in Hin. congruence.
Qed.

(** ** The disk stays hierarchical

    The properties of the local backend assume a disk on which every
    accessible node lies in an accessible directory.  The system
    calls of the model and the operations of the backend keep it so. *)

Lemma parent_errno_None (d : os.State) (name : string) :
  os.parent_errno d name = None <->
  os.faults d !! filepath.Dir name = None
  /\ exists m, os.nodes d !! filepath.Dir name = Some (os.Directory m).
Proof.
  unfold os.parent_errno, os.access.
  destruct (os.faults d !! filepath.Dir name) as [e|].
  { split; [discriminate|]. intros [H _]. discriminate. }
  destruct (os.nodes d !! filepath.Dir name) as [[data m|m]|].
  - split; [discriminate|]. intros (_ & m' & H). discriminate.
  - split; eauto.
  - split; [discriminate|]. intros (_ & m' & H). discriminate.
Qed.

(** Putting a node where no directory was keeps the disk hierarchical,
    when the new node itself lies in an accessible directory. *)
Lemma hierarchical_insert (d : os.State) (name : string) (n : os.inode) :
  hierarchical d ->
  (forall m, os.nodes d !! name <> Some (os.Directory m)) ->
  (os.faults d !! name = None -> os.parent_errno d name = None) ->
  hierarchical (os.with_nodes d (<[name := n]> (os.nodes d))).
Proof.
  intros Hh Hnd Hp k nk Hk Hf. simpl in *.
  assert (Hpk : os.parent_errno d k = None).
  { destruct (decide (name = k)) as [<-|Hne]; [auto|].
    rewrite lookup_insert_ne in Hk by exact Hne. exact (Hh k nk Hk Hf). }
  apply parent_errno_None in Hpk as (Hfp & m & Hm).
  apply parent_errno_None. simpl. split; [exact Hfp|].
  exists m. rewrite lookup_insert_ne; [exact Hm|].
  intros ->. exact (Hnd m Hm).
Qed.

(** Taking away a node that is no directory keeps the disk
    hierarchical. *)
Lemma hierarchical_delete (d : os.State) (name : string) :
  hierarchical d ->
  (forall m, os.nodes d !! name <> Some (os.Directory m)) ->
  hierarchical (os.with_nodes d (delete name (os.nodes d))).
Proof.
  intros Hh Hnd k nk Hk Hf. simpl in *.
  apply lookup_delete_Some in Hk as [Hne Hk].
  apply parent_errno_None. simpl.
  destruct (proj1 (parent_errno_None d k) (Hh k nk Hk Hf)) as (Hfp & m & Hm).
  split; [exact Hfp|]. exists m.
  rewrite lookup_delete_ne; [exact Hm|].
  intros Heq. rewrite Heq in Hnd. exact (Hnd m Hm).
Qed.

Lemma Mkdir_hierarchical (d d' : os.State) (name : string) :
  hierarchical d -> os.Mkdir d name = Ok d' -> hierarchical d'.
Proof.
  unfold os.Mkdir. intros Hh H.
  destruct (os.faults d !! name); [discriminate|].
  destruct (os.nodes d !! name) eqn:Hn; [discriminate|].
  destruct (os.parent_errno d name) eqn:Hp; [discriminate|].
  injection H as <-. apply hierarchical_insert; [exact Hh| |auto].
  intros m. rewrite Hn. discriminate.
Qed.

Lemma MkdirAll_rec_hierarchical (fuel : nat) (d d' : os.State) (path : string)
    (err : option error) :
  hierarchical d -> os.MkdirAll_rec fuel d path = (err, d') -> hierarchical d'.
Proof.
  revert d d' path err. induction fuel as [|fuel IH]; intros d d' path err Hh;
    cbn [os.MkdirAll_rec]; destruct (os.Stat d path) as [st|e].
  1,3: destruct (os.IsDir st); intros H; injection H as _ <-; exact Hh.
  - destruct (os.Mkdir d path) as [d2|e2] eqn:Hm.
    + intros H. injection H as _ <-. eapply Mkdir_hierarchical; eassumption.
    + destruct (os.Lstat d path) as [st|]; [destruct (os.IsDir st)|];
        intros H; injection H as _ <-; exact Hh.
  - set (j := String.length (fst (filepath.cut_last (strings.TrimRight path "/")))).
    destruct (1 <? j)%nat.
    + destruct (os.MkdirAll_rec fuel d (strings.take (j - 1) path)) as [[e1|] d1] eqn:Hr.
      * intros H. injection H as _ <-. eapply IH; eassumption.
      * assert (Hh1 : hierarchical d1) by (eapply IH; eassumption).
        destruct (os.Mkdir d1 path) as [d2|e2] eqn:Hm.
        -- intros H. injection H as _ <-. eapply Mkdir_hierarchical; eassumption.
        -- destruct (os.Lstat d1 path) as [st|]; [destruct (os.IsDir st)|];
             intros H; injection H as _ <-; exact Hh1.
    + destruct (os.Mkdir d path) as [d2|e2] eqn:Hm.
      * intros H. injection H as _ <-. eapply Mkdir_hierarchical; eassumption.
      * destruct (os.Lstat d path) as [st|]; [destruct (os.IsDir st)|];
          intros H; injection H as _ <-; exact Hh.
Qed.

Lemma Create_hierarchical (d d' : os.State) (name : string) :
  hierarchical d -> os.Create d name = Ok d' ->
  hierarchical d' /\ exists m, os.nodes d' !! name = Some (os.File [] m).
Proof.
  unfold os.Create. intros Hh H.
  destruct (os.faults d !! name); [discriminate|].
  destruct (os.parent_errno d name) eqn:Hp.
  { destruct (os.nodes d !! name) as [[]|]; discriminate. }
  assert (Hnd : forall m, os.nodes d !! name <> Some (os.Directory m)).
  { intros m Hm. rewrite Hm in H. discriminate. }
  assert (d' = os.with_nodes d (<[name := os.File [] (os.clock d)]> (os.nodes d))) as ->.
  { destruct (os.nodes d !! name) as [[]|]; congruence. }
  split; [apply hierarchical_insert; auto|].
  eexists. simpl. apply lookup_insert_eq.
Qed.

Lemma Write_hierarchical (d : os.State) (name : string) (data old : list byte) (m : Z) :
  hierarchical d -> os.nodes d !! name = Some (os.File old m) ->
  hierarchical (os.Write d name data).
Proof.
  intros Hh Hn. unfold os.Write. apply hierarchical_insert; [exact Hh| |].
  - intros m'. rewrite Hn. discriminate.
  - intros Hf. exact (Hh name _ Hn Hf).
Qed.

(** The operations of the local backend keep the disk hierarchical. *)
Lemma Local_Upload_hierarchical (ls : LocalStorage) (file : multipart.FileHeader)
    (path : string) (d d' : os.State) (r : result FileInfo) :
  hierarchical d -> Local.Upload ls file path d = (r, d') -> hierarchical d'.
Proof.
  intros Hh. unfold Local.Upload.
  set (fullPath := filepath.Join [basePath ls; path]).
  assert (Hdir : forall (o : option AppError) (d1 : os.State),
            (if createDirectories ls
             then match os.MkdirAll d (filepath.Dir fullPath) with
                  | (Some err, w') =>
                      (Some (WrapError err http.StatusInternalServerError
                               ("Failed to create directory: " ++ filepath.Dir fullPath)), w')
                  | (None, w') => (None, w')
                  end
             else match os.Stat d (filepath.Dir fullPath) with
                  | Ok _ => (None, d)
                  | Err err =>
                      if IsNotExist err
                      then (Some (WrapError err http.StatusBadRequest
                                    ("Directory does not exist: " ++ filepath.Dir fullPath)), d)
                      else (None, d)
                  end) = (o, d1) -> hierarchical d1).
  { intros o d1. destruct (createDirectories ls).
    - destruct (os.MkdirAll d (filepath.Dir fullPath)) as [[e|] w'] eqn:Hm;
        intros H; injection H as _ <-;
        eapply MkdirAll_rec_hierarchical; eassumption.
    - destruct (os.Stat d (filepath.Dir fullPath)) as [|e]; [|destruct (IsNotExist e)];
        intros H; injection H as _ <-; exact Hh. }
  match goal with
  | |- (let '(_, _) := ?x in _) = _ -> _ => destruct x as [o d1] eqn:E
  end.
  specialize (Hdir o d1 eq_refl).
  destruct o; [intros H; injection H as _ <-; exact Hdir|].
  destruct (os.Stat d1 fullPath); [intros H; injection H as _ <-; exact Hdir|].
  destruct (multipart.Open file) as [src|]; [|intros H; injection H as _ <-; exact Hdir].
  destruct (os.Create d1 fullPath) as [d2|] eqn:Hc;
    [|intros H; injection H as _ <-; exact Hdir].
  apply (Create_hierarchical _ _ _ Hdir) in Hc as (Hh2 & m & Hn).
  destruct (multipart.ReadAll src) as [data|]; [|intros H; injection H as _ <-; exact Hh2].
  pose proof (Write_hierarchical d2 fullPath data [] m Hh2 Hn) as Hh3.
  destruct (os.Stat (os.Write d2 fullPath data) fullPath);
    intros H; injection H as _ <-; exact Hh3.
Qed.

Lemma Local_Delete_hierarchical (ls : LocalStorage) (path : string) (d d' : os.State)
    (r : option error) :
  hierarchical d -> Local.Delete ls path d = (r, d') -> hierarchical d'.
Proof.
  intros Hh. unfold Local.Delete.
  set (fullPath := filepath.Join [basePath ls; path]).
  destruct (os.Stat d fullPath) as [st|e] eqn:Hs.
  2:{ destruct (IsNotExist e); intros H; injection H as _ <-; exact Hh. }
  destruct (os.IsDir st) eqn:Hd; [intros H; injection H as _ <-; exact Hh|].
  destruct (os.Remove d fullPath) as [d1|] eqn:Hr;
    intros H; injection H as _ <-; [|exact Hh].
  apply Stat_Ok_inv in Hs as (Hf & n & Hn & ->).
  destruct n as [data m|m]; [|discriminate].
  apply Remove_Ok_inv in Hr as [_ ->].
  apply hierarchical_delete; [exact Hh|].
  intros m'. rewrite Hn. discriminate.
Qed.

Lemma NewLocalStorage_hierarchical (config : LocalStorageConfig) (d d' : os.State)
    (r : result LocalStorage) :
  hierarchical d -> Local.NewLocalStorage config d = (r, d') -> hierarchical d'.
Proof.
  intros Hh. unfold Local.NewLocalStorage, os.MkdirAll.
  match goal with
  | |- context [os.MkdirAll_rec ?f d ?p] =>
      destruct (os.MkdirAll_rec f d p) as [[e|] d1] eqn:E
  end; intros H; injection H as _ <-; eapply MkdirAll_rec_hierarchical; eassumption.
Qed.

Example emptyDisk_hierarchical : hierarchical emptyDisk.
Proof. refine (bool_decide_unpack _ _). vm_compute. exact I. Qed.

(** ** Upload and read back (C3) *)

Section RoundTrip.

Variable DetectContentType : list byte -> string.

(** C3: for every backend, path and upload, a successful [Upload]
    followed at once by [Get] on the same path returns the bytes that
    were uploaded, and a record whose [Size] is their number. *)
Theorem upload_then_get_returns_content (p : Provider) (file : multipart.FileHeader)
    (path : string) (w w1 : World) (uploaded : FileInfo) :
  provider.Upload DetectContentType p file path w = (Ok uploaded, w1) ->
  exists src info,
    multipart.Source file = Some src
    /\ provider.Get p path w1 = Ok (multipart.Bytes src, info)
    /\ Size info = Z.of_nat (length (multipart.Bytes src)).
Proof.
  unfold provider.Upload, provider.Get. destruct (storage p) as [ls|s].
  - destruct (Local.Upload ls file path (disk w)) as [r d] eqn:E.
    intros H. injection H as -> <-. simpl.
    apply Local_Upload_Ok in E as (src & w2 & Hsrc & -> & Hf).
    exists src. eexists. split; [exact Hsrc|].
    rewrite (Local_Get_file ls path _ (multipart.Bytes src) (os.clock w2)); [split; reflexivity|exact Hf|].
    simpl. apply lookup_insert_eq.
  - destruct (S3.Upload DetectContentType s file path (cloud w)) as [r c] eqn:E.
    intros H. injection H as -> <-. simpl.
    apply S3_Upload_Ok in E as (src & ct & meta & Hsrc & Ho & Hk & Hb & ->).
    exists src.
    destruct (S3_Get_found s path
                (s3.with_objects (cloud w)
                   (<[(bucket s, S3.getFullKey s path) :=
                        s3.mkObject (multipart.Bytes src) (Some ct) (s3.now (cloud w)) (Some meta)]>
                      (s3.objects (cloud w))))
                (s3.mkObject (multipart.Bytes src) (Some ct) (s3.now (cloud w)) (Some meta)))
      as (info & Hg & Hsz & _); auto.
    { simpl. apply lookup_insert_eq. }
    exists info. auto.
Qed.

End RoundTrip.

(** C3 on the empty root and on the bucket: [hello] uploaded is read
    back. *)
Lemma upload_then_get_returns_content_witness :
  (exists src info,
     multipart.Source helloFile = Some src
     /\ provider.Get (mkProvider (LocalBackend localStore)) "a/b.txt"
          (snd (provider.Upload sniffText (mkProvider (LocalBackend localStore))
                  helloFile "a/b.txt" emptyWorld))
        = Ok (multipart.Bytes src, info)
     /\ Size info = Z.of_nat (length (multipart.Bytes src)))
  /\ (exists src info,
        multipart.Source helloFile = Some src
        /\ provider.Get (mkProvider (S3Backend s3Store)) "notes/b.txt"
             (snd (provider.Upload sniffText (mkProvider (S3Backend s3Store))
                     helloFile "notes/b.txt" emptyWorld))
           = Ok (multipart.Bytes src, info)
        /\ Size info = Z.of_nat (length (multipart.Bytes src))).
Proof.
  split.
  - apply (upload_then_get_returns_content sniffText
             (mkProvider (LocalBackend localStore)) helloFile "a/b.txt" emptyWorld _
             (mkFileInfo "b.txt" 5 1000 "a/b.txt" "text/plain" false)).
    vm_compute. reflexivity.
  - apply (upload_then_get_returns_content sniffText
             (mkProvider (S3Backend s3Store)) helloFile "notes/b.txt" emptyWorld _
             (mkFileInfo "b.txt" 5 1000 "https://s3.example.com/docs/notes/b.txt"
                "text/plain; charset=utf-8" false)).
    vm_compute. reflexivity.
Defined.

(** ** Delete, then look again (C4) *)

(** C4: for every backend and path, after a successful [Delete]
    [Exists] on the same path returns false with no error, and [Get]
    fails with the not-found error. *)
Theorem deleted_path_is_gone (p : Provider) (path : string) (w w1 : World) :
  provider.Delete p path w = (None, w1) ->
  provider.Exists p path w1 = (false, None)
  /\ provider.Get p path w1 = Err (AppErr (FileNotFoundError path)).
Proof.
  unfold provider.Delete, provider.Exists, provider.Get.
  destruct (storage p) as [ls|s].
  - destruct (Local.Delete ls path (disk w)) as [r d] eqn:E.
    intros H. injection H as -> <-. simpl.
    apply Local_Delete_Ok in E as [Hf ->].
    destruct (Local_absent ls path
                (os.with_nodes (disk w) (delete (physicalPath ls path) (os.nodes (disk w)))))
      as (He & Hg & _); [|auto].
    apply Stat_absent; [exact Hf|]. simpl. apply lookup_delete_eq.
  - destruct (S3.Delete s path (cloud w)) as [r c] eqn:E.
    intros H. injection H as -> <-. simpl.
    apply S3_Delete_Ok in E as (Ho & Hk & ->).
    destruct (S3_absent s path
                (s3.with_objects (cloud w)
                   (delete (bucket s, S3.getFullKey s path) (s3.objects (cloud w)))))
      as (He & Hg & _); [|auto].
    apply S3_HeadObject_missing; [exact Ho|exact Hk|]. simpl. apply lookup_delete_eq.
Qed.

(** C4 on the bucket and on the disk: a deleted file is gone. *)
Lemma deleted_path_is_gone_witness :
  (provider.Exists (mkProvider (S3Backend s3Store)) "readme.txt"
     (snd (provider.Delete (mkProvider (S3Backend s3Store)) "readme.txt" filledWorld))
   = (false, None)
   /\ provider.Get (mkProvider (S3Backend s3Store)) "readme.txt"
        (snd (provider.Delete (mkProvider (S3Backend s3Store)) "readme.txt" filledWorld))
      = Err (AppErr (FileNotFoundError "readme.txt")))
  /\ (provider.Exists (mkProvider (LocalBackend localStore)) "a/b.txt"
        (snd (provider.Delete (mkProvider (LocalBackend localStore)) "a/b.txt" filledWorld))
      = (false, None)
      /\ provider.Get (mkProvider (LocalBackend localStore)) "a/b.txt"
           (snd (provider.Delete (mkProvider (LocalBackend localStore)) "a/b.txt"
                   filledWorld))
         = Err (AppErr (FileNotFoundError "a/b.txt"))).
Proof.
  split.
  - apply (deleted_path_is_gone (mkProvider (S3Backend s3Store)) "readme.txt" filledWorld).
    vm_compute. reflexivity.
  - apply (deleted_path_is_gone (mkProvider (LocalBackend localStore)) "a/b.txt"
             filledWorld).
    vm_compute. reflexivity.
Defined.

(** ** Upload never overwrites (C2) *)

Section Overwrite.

Variable DetectContentType : list byte -> string.



End Overwrite.



(** ** Failing deletes (C8) *)




(** ** Existence checks (C7) *)

(** C7: [Exists] is to report every failure other than not-found
    as an error.  The S3 backend decides by looking for [NotFound]
    and [404] in the text of the error: while the service refuses
    the caller with a 403 whose request id contains the digits 404,
    [Exists] on the stored object [readme.txt] returns false and no
    error, where the reachable service answers true. *)
Theorem s3_exists_swallows_a_refusal :
  (exists text, s3.outage refusingCloud = Some text
                /\ s3.HeadObject refusingCloud "docs" "readme.txt" = Err (TextError text)
                /\ strings.Contains text "StatusCode: 403" = true
                /\ strings.Contains text "NotFound" = false)
  /\ S3.Exists s3Store "readme.txt" refusingCloud = (false, None)
  /\ provider.Exists (mkProvider (S3Backend s3Store)) "readme.txt"
       (mkWorld filledDisk refusingCloud) = (false, None)
  /\ S3.Exists s3Store "readme.txt" filledCloud = (true, None).
Proof.
  split; [eexists; repeat split; vm_compute; reflexivity|].
  repeat split; vm_compute; reflexivity.
Qed.

(** ** Listing (C5) *)

(** C5: [List] on the path of a plain file is to return the one
    record of that file.  The local backend does; the S3 backend
    returns the empty list for the stored object [readme.txt], whose
    record [GetInfo] would supply: the listing prefix always ends
    with a separator, so the single-file fallback is not taken. *)
Theorem s3_list_of_a_file_is_empty :
  (exists record, S3.GetInfo s3Store "readme.txt" filledCloud = Ok record
                  /\ Name record = "readme.txt" /\ IsDirectory record = false)
  /\ provider.List (mkProvider (S3Backend s3Store)) "readme.txt" filledWorld = Ok []
  /\ provider.List (mkProvider (LocalBackend localStore)) "a/b.txt" filledWorld
     = Ok [mkFileInfo "b.txt" 5 950 "a/b.txt" "text/plain" false].
Proof.
  split; [eexists; repeat split; vm_compute; reflexivity|].
  split; vm_compute; reflexivity.
Qed.

(** ** Directories of the S3 backend (C10) *)

Section Directories.

Variable DetectContentType : list byte -> string.

(** C10: [GetInfo] of the S3 backend never reports a directory: a
    record it returns has [IsDirectory] false, and on a logical
    directory it fails with the not-found error; nor do [Upload] and
    [Get] return a directory record, and a directory record in the
    result of [List] is one synthesized from a common prefix
    (content type [application/directory], size 0). *)
Theorem s3_directories_come_from_List_only :
  (forall s path svc info, S3.GetInfo s path svc = Ok info -> IsDirectory info = false)
  /\ (forall s path svc, s3DirectoryAt s path svc ->
        S3.GetInfo s path svc = Err (AppErr (FileNotFoundError path)))
  /\ (forall s file path svc info svc1,
        S3.Upload DetectContentType s file path svc = (Ok info, svc1) ->
        IsDirectory info = false)
  /\ (forall s path svc content info,
        S3.Get s path svc = Ok (content, info) -> IsDirectory info = false)
  /\ (forall s path svc records r,
        S3.List s path svc = Ok records -> In r records -> IsDirectory r = true ->
        ContentType r = "application/directory" /\ Size r = 0).
Proof.
  split; [exact S3_GetInfo_not_directory|].
  split.
  { intros s path svc H. apply s3DirectoryAt_not_found in H.
    now destruct (S3_absent s path svc H) as (_ & _ & -> & _). }
  split.
  { intros s file path svc info svc1. unfold S3.Upload. intros H.
    split_match H; injection H as <- _; reflexivity. }
  split.
  { intros s path svc content info. unfold S3.Get. intros H.
    split_match H; injection H as _ <-; reflexivity. }
  exact S3_List_directories_synthesized.
Qed.

End Directories.

(** C10 on the bucket: [GetInfo] on the directory [reports], which
    [List] of the root shows as a directory record. *)
Lemma s3_directories_come_from_List_only_witness :
  S3.GetInfo s3Store "reports" filledCloud = Err (AppErr (FileNotFoundError "reports"))
  /\ In (mkFileInfo "reports" 0 1000 "https://docs.s3.eu-west-1.amazonaws.com/reports/"
           "application/directory" true)
        (match S3.List s3Store "" filledCloud with Ok records => records | Err _ => [] end).
Proof.
  split.
  - apply (proj1 (proj2 (s3_directories_come_from_List_only sniffText))).
    exact s3_reports_is_directory.
  - vm_compute. left. reflexivity.
Defined.

(** ** The end-to-end scenario of the specification

    A local backend rooted at [/tmp/x]: [hello] is uploaded to
    [a/b.txt], is found, read back and listed, and is gone after
    [Delete]; a second upload to the same path is refused. *)
Example end_to_end_local :
  let p := mkProvider (LocalBackend localStore) in
  let w1 := snd (provider.Upload sniffText p helloFile "a/b.txt" emptyWorld) in
  let w2 := snd (provider.Delete p "a/b.txt" w1) in
  provider.Exists p "a/b.txt" w1 = (true, None)
  /\ provider.Get p "a/b.txt" w1
     = Ok (hello, mkFileInfo "b.txt" 5 1000 "a/b.txt" "text/plain" false)
  /\ provider.List p "a" w1
     = Ok [mkFileInfo "b.txt" 5 1000 "a/b.txt" "text/plain" false]
  /\ fst (provider.Upload sniffText p helloFile "a/b.txt" w1)
     = Err (AppErr (AlreadyExistsError "a/b.txt"))
  /\ fst (provider.Delete p "a/b.txt" w1) = None
  /\ provider.Exists p "a/b.txt" w2 = (false, None).
Proof. repeat split; vm_compute; reflexivity. Qed.

(** * Further properties of the code *)

(** ** Validation of the configuration *)

Lemma appendIf_nil (cond : bool) (msg : string) (errors : list string) :
  appendIf cond msg errors = [] <-> errors = [] /\ cond = false.
Proof.
  unfold appendIf. destruct cond.
  - split; [|intros [_ H]; discriminate].
    intros H. apply app_eq_nil in H as [_ H]. discriminate.
  - tauto.
Qed.

(** X1: [Validate] returns no finding exactly for the configurations
    that name the local backend, or the S3 backend with a bucket (and
    with both keys when an endpoint is given), and that have a
    positive upload size and timeout. *)
Theorem Validate_passes_iff_valid (c : Config) :
  Validate c = [] <-> validConfig c.
Proof.
  unfold Validate, validConfig.
  rewrite !appendIf_nil.
  destruct (String.eqb_spec (StorageType c) "s3") as [Hs|Hs].
  - rewrite Hs. cbn [String.eqb Ascii.eqb Bool.eqb negb andb].
    destruct (String.eqb_spec (S3Endpoint c) "") as [He|He]; cbn [negb].
    + rewrite !appendIf_nil. rewrite !Z.leb_gt.
      destruct (String.eqb_spec (S3Bucket c) ""); split.
      * intros [[[_ H] _] _]. discriminate.
      * intros [[H|(_ & H & _)] _]; [discriminate|contradiction].
      * intros [[_ H1] H2]. split; [right|auto]. repeat split; auto; contradiction.
      * intros (_ & H1 & H2). auto.
    + rewrite !appendIf_nil. rewrite !Z.leb_gt.
      destruct (String.eqb_spec (S3Bucket c) "");
        destruct (String.eqb_spec (S3AccessKey c) "");
        destruct (String.eqb_spec (S3SecretKey c) ""); split;
        try (intros [[[[[_ H] H'] H''] _] _]; discriminate);
        try (intros [[H|(_ & Hb & Hk)] _]; [discriminate|];
             try contradiction; destruct (Hk He); contradiction).
      * intros [[_ H1] H2]. split; [right|auto]. repeat split; auto.
      * intros (_ & H1 & H2). repeat split; auto.
  - rewrite !appendIf_nil. rewrite !Z.leb_gt.
    destruct (String.eqb_spec (StorageType c) "local") as [Hl|Hl]; cbn [negb andb]; split.
    + intros [[_ H1] H2]. auto.
    + intros (_ & H1 & H2). auto.
    + intros [[[_ H] _] _]. discriminate.
    + intros [[H|[H _]] _]; contradiction.
Qed.

(** ** Construction of the backends *)


Lemma extends_refl (d : os.State) : extends d d.
Proof. split; auto. Qed.

Lemma extends_trans (d1 d2 d3 : os.State) :
  extends d1 d2 -> extends d2 d3 -> extends d1 d3.
Proof. intros [F1 N1] [F2 N2]. split; [congruence|auto]. Qed.

Lemma extends_insert_fresh (d : os.State) (name : string) (n : os.inode) :
  os.nodes d !! name = None ->
  extends d (os.with_nodes d (<[name := n]> (os.nodes d))).
Proof.
  intros Hn. split; [reflexivity|]. intros k nk Hk. simpl.
  rewrite lookup_insert_ne; [exact Hk|]. intros ->. congruence.
Qed.

Lemma Mkdir_Ok_inv (d d' : os.State) (name : string) :
  os.Mkdir d name = Ok d' ->
  os.faults d !! name = None /\ os.nodes d !! name = None
  /\ d' = os.with_nodes d (<[name := os.Directory (os.clock d)]> (os.nodes d)).
Proof.
  unfold os.Mkdir. intros H.
  destruct (os.faults d !! name); [discriminate|].
  destruct (os.nodes d !! name); [discriminate|].
  destruct (os.parent_errno d name); [discriminate|].
  injection H as <-. auto.
Qed.

Lemma Lstat_Stat (d : os.State) (name : string) (st : os.FileStat) :
  os.Lstat d name = Ok st -> os.Stat d name = Ok st.
Proof.
  unfold os.Lstat, os.Stat, os.access.
  destruct (os.faults d !! name); [discriminate|].
  destruct (os.nodes d !! name); [auto|discriminate].
Qed.

Lemma Mkdir_makes_directory (d d' : os.State) (name : string) :
  os.Mkdir d name = Ok d' -> isDirectory d' name /\ extends d d'.
Proof.
  intros H. apply Mkdir_Ok_inv in H as (Hf & Hn & ->). split.
  - eexists. split; [apply Stat_lookup; [exact Hf|simpl; apply lookup_insert_eq]|].
    reflexivity.
  - now apply extends_insert_fresh.
Qed.

(** What [os.MkdirAll] leaves: every node that was there, and, when
    it reports no error, the directory it was asked for. *)
Lemma MkdirAll_rec_post (fuel : nat) (d d' : os.State) (path : string)
    (err : option error) :
  os.MkdirAll_rec fuel d path = (err, d') ->
  extends d d' /\ (err = None -> isDirectory d' path).
Proof.
  revert d d' path err.
  assert (Hlast : forall d1 d' path err,
             match os.Mkdir d1 path with
             | Ok w2 => (None, w2)
             | Err e =>
                 match os.Lstat d1 path with
                 | Ok st => if os.IsDir st then (None, d1) else (Some e, d1)
                 | Err _ => (Some e, d1)
                 end
             end = (err, d') ->
             extends d1 d' /\ (err = None -> isDirectory d' path)).
  { intros d1 d' path err.
    destruct (os.Mkdir d1 path) as [w2|e] eqn:Hm.
    - intros H. injection H as <- <-.
      apply Mkdir_makes_directory in Hm as [Hd He]. auto.
    - destruct (os.Lstat d1 path) as [st|] eqn:Hl.
      + destruct (os.IsDir st) eqn:Hd; intros H; injection H as <- <-;
          (split; [apply extends_refl|]); [|discriminate].
        intros _. exists st. split; [now apply Lstat_Stat|exact Hd].
      + intros H. injection H as <- <-. split; [apply extends_refl|discriminate]. }
  induction fuel as [|fuel IH]; intros d d' path err;
    cbn [os.MkdirAll_rec]; destruct (os.Stat d path) as [st|e] eqn:Hs.
  1,3: destruct (os.IsDir st) eqn:Hd; intros H; injection H as <- <-;
       (split; [apply extends_refl|]); [intros _; exists st; auto|discriminate].
  - apply Hlast.
  - set (j := String.length (fst (filepath.cut_last (strings.TrimRight path "/")))).
    destruct (1 <? j)%nat; [|apply Hlast].
    destruct (os.MkdirAll_rec fuel d (strings.take (j - 1) path)) as [[e1|] d1] eqn:Hr.
    + intros H. injection H as <- <-. apply IH in Hr as [He _]. split; [exact He|discriminate].
    + apply IH in Hr as [He _]. intros H. apply Hlast in H as [He' Hd].
      split; [eapply extends_trans; eassumption|exact Hd].
Qed.



(** X3: [NewS3Storage] returns a storage exactly when a client can be
    configured (an endpoint or a region of the AWS configuration is
    given, or the default configuration loads) and the bucket answers
    the probe; the storage then carries the bucket, prefix, base URL
    and region of the configuration.  Every failure is an internal
    error (500). *)
Theorem NewS3Storage_probes_the_bucket (cfg : S3Config) (svc : s3.Service) :
  (forall s, S3.NewS3Storage cfg svc = Ok s <->
     (Endpoint cfg <> "" \/ AWSConfigRegion cfg <> "" \/ s3.defaultConfigError svc = None)
     /\ s3.outage svc = None /\ Bucket cfg ∈ s3.bucketNames svc
     /\ s = mkS3Storage (Bucket cfg) (BasePrefix cfg) (S3ConfigBaseURL cfg) (Region cfg))
  /\ (forall err, S3.NewS3Storage cfg svc = Err err ->
        exists e, err = AppErr e /\ HTTPCode e = http.StatusInternalServerError
                  /\ Code e = ErrCodeInternalError).
Proof.
  assert (Hprobe : forall s,
             match s3.HeadBucket svc (Bucket cfg) with
             | Some err =>
                 Err (AppErr (WrapError err http.StatusInternalServerError
                                ("Failed to access S3 bucket '" ++ Bucket cfg ++ "'")))
             | None =>
                 Ok (mkS3Storage (Bucket cfg) (BasePrefix cfg) (S3ConfigBaseURL cfg)
                       (Region cfg))
             end = Ok s <->
             s3.outage svc = None /\ Bucket cfg ∈ s3.bucketNames svc
             /\ s = mkS3Storage (Bucket cfg) (BasePrefix cfg) (S3ConfigBaseURL cfg)
                      (Region cfg)).
  { intros s. unfold s3.HeadBucket. destruct (s3.outage svc) as [o|].
    { split; [discriminate|]. intros (H & _). discriminate. }
    destruct (bool_decide_reflect (Bucket cfg ∈ s3.bucketNames svc)) as [Hb|Hb].
    - split; [intros H; injection H as <-; auto|]. intros (_ & _ & ->). reflexivity.
    - split; [discriminate|]. intros (_ & H & _). contradiction. }
  unfold S3.NewS3Storage, s3.LoadDefaultConfig. split.
  - intros s.
    destruct (String.eqb_spec (Endpoint cfg) "") as [He|He]; cbn [negb].
    2:{ rewrite Hprobe. tauto. }
    destruct (String.eqb_spec (AWSConfigRegion cfg) "") as [Ha|Ha]; cbn [negb].
    2:{ rewrite Hprobe. tauto. }
    destruct (s3.defaultConfigError svc) as [t|].
    + split; [discriminate|]. intros ([H|[H|H]] & _); (contradiction || discriminate).
    + rewrite Hprobe. tauto.
  - intros err H.
    destruct (if negb (String.eqb (Endpoint cfg) "") then _ else _) as [c|e0] eqn:Hc in H.
    + destruct (s3.HeadBucket svc (Bucket cfg)); [|discriminate].
      injection H as <-. eexists. repeat split.
    + injection H as <-.
      destruct (negb (String.eqb (Endpoint cfg) "")); [discriminate|].
      destruct (negb (String.eqb (AWSConfigRegion cfg) "")); [discriminate|].
      destruct (s3.defaultConfigError svc); [|discriminate].
      injection Hc as <-. eexists. repeat split.
Qed.


(** ** The local backend: what an upload leaves on the disk *)

Lemma Stat_Err_inv (d : os.State) (name : string) (e : error) :
  os.Stat d name = Err e ->
  (exists en, os.faults d !! name = Some en /\ e = PathError "stat" name en)
  \/ (os.faults d !! name = None /\ os.nodes d !! name = None
      /\ e = PathError "stat" name ENOENT).
Proof.
  unfold os.Stat, os.access. intros H.
  destruct (os.faults d !! name) as [en|].
  - injection H as <-. eauto.
  - destruct (os.nodes d !! name); [discriminate|]. injection H as <-. auto.
Qed.

Lemma Create_after_failed_Stat (d d2 : os.State) (name : string) (e : error) :
  os.Stat d name = Err e -> os.Create d name = Ok d2 ->
  os.faults d !! name = None /\ os.nodes d !! name = None
  /\ os.parent_errno d name = None
  /\ d2 = os.with_nodes d (<[name := os.File [] (os.clock d)]> (os.nodes d)).
Proof.
  intros Hs Hc. unfold os.Create in Hc.
  apply Stat_Err_inv in Hs as [(en & Hf & _)|(Hf & Hn & _)]; rewrite Hf in Hc;
    [discriminate|].
  rewrite Hn in Hc. destruct (os.parent_errno d name); [discriminate|].
  injection Hc as <-. auto.
Qed.

(** The step of [Upload] that makes or requires the parent directory. *)
Lemma Upload_directory_step (ls : LocalStorage) (d d1 : os.State) (dir : string)
    (o : option AppError) :
  (if createDirectories ls
   then match os.MkdirAll d dir with
        | (Some err, w') =>
            (Some (WrapError err http.StatusInternalServerError
                     ("Failed to create directory: " ++ dir)), w')
        | (None, w') => (None, w')
        end
   else match os.Stat d dir with
        | Ok _ => (None, d)
        | Err err =>
            if IsNotExist err
            then (Some (WrapError err http.StatusBadRequest
                          ("Directory does not exist: " ++ dir)), d)
            else (None, d)
        end) = (o, d1) ->
  extends d d1 /\ (createDirectories ls = false -> d1 = d)
  /\ (forall e, o = Some e -> Message e <> "Failed to copy file contents").
Proof.
  destruct (createDirectories ls).
  - unfold os.MkdirAll.
    destruct (os.MkdirAll_rec (String.length dir) d dir) as [[e|] w'] eqn:Hm;
      intros H; injection H as <- <-; apply MkdirAll_rec_post in Hm as [He _];
      (split; [exact He|split; [discriminate|]]); intros e' H; [|discriminate].
    injection H as <-. simpl. discriminate.
  - destruct (os.Stat d dir) as [|e]; [|destruct (IsNotExist e)];
      intros H; injection H as <- <-;
      (split; [apply extends_refl|split; [reflexivity|]]); intros e' H;
      try discriminate.
    injection H as <-. simpl. discriminate.
Qed.

(** What [Upload] of the local backend has done to the disk, by its
    outcome: it failed before it created the file; or it created the
    file, where there was none, and failed to copy; or it created
    and filled the file. *)
Lemma Local_Upload_cases (ls : LocalStorage) (file : multipart.FileHeader)
    (path : string) (d d' : os.State) (r : result FileInfo) :
  Local.Upload ls file path d = (r, d') ->
  exists d1, extends d d1 /\ (createDirectories ls = false -> d1 = d)
    /\ ((d' = d1 /\ exists e, r = Err (AppErr e)
                              /\ Message e <> "Failed to copy file contents")
        \/ (os.faults d1 !! physicalPath ls path = None
            /\ os.nodes d1 !! physicalPath ls path = None
            /\ os.parent_errno d1 (physicalPath ls path) = None
            /\ exists src,
                 multipart.Source file = Some src
                 /\ ((multipart.Readable src = false
                      /\ d' = os.with_nodes d1
                                (<[physicalPath ls path := os.File [] (os.clock d1)]>
                                   (os.nodes d1))
                      /\ exists e, r = Err (AppErr e)
                                   /\ Message e = "Failed to copy file contents")
                     \/ (multipart.Readable src = true
                         /\ d' = os.with_nodes d1
                                   (<[physicalPath ls path :=
                                        os.File (multipart.Bytes src) (os.clock d1)]>
                                      (os.nodes d1))
                         /\ r = Ok (mkFileInfo (filepath.Base path)
                                      (Z.of_nat (length (multipart.Bytes src)))
                                      (os.clock d1) (Local.urlFor ls path)
                                      (Local.getContentType ls
                                         (filepath.Ext (physicalPath ls path)))
                                      false))))).
Proof.
  unfold Local.Upload. fold (physicalPath ls path).
  set (fullPath := physicalPath ls path).
  match goal with
  | |- (let '(_, _) := ?x in _) = _ -> _ => destruct x as [o d1] eqn:E
  end.
  apply Upload_directory_step in E as (He & Hsame & Hmsg).
  intros H. exists d1. split; [exact He|]. split; [exact Hsame|].
  destruct o as [e|].
  { injection H as <- <-. left. eauto. }
  destruct (os.Stat d1 fullPath) as [st|e] eqn:Hs.
  { injection H as <- <-. left. split; [reflexivity|]. eexists. split; [reflexivity|].
    simpl. discriminate. }
  unfold multipart.Open in H. destruct (multipart.Source file) as [src|] eqn:Hsrc.
  2:{ injection H as <- <-. left. split; [reflexivity|]. eexists. split; [reflexivity|].
      simpl. discriminate. }
  destruct (os.Create d1 fullPath) as [d2|e2] eqn:Hc.
  2:{ injection H as <- <-. left. split; [reflexivity|]. eexists. split; [reflexivity|].
      simpl. discriminate. }
  apply (Create_after_failed_Stat _ _ _ _ Hs) in Hc as (Hf & Hn & Hp & ->).
  right. split; [exact Hf|]. split; [exact Hn|]. split; [exact Hp|].
  exists src. split; [reflexivity|].
  unfold multipart.ReadAll in H. destruct (multipart.Readable src).
  - right. split; [reflexivity|].
    assert (Hw : os.Write (os.with_nodes d1 (<[fullPath := os.File [] (os.clock d1)]>
                                                (os.nodes d1))) fullPath
                   (multipart.Bytes src)
                 = os.with_nodes d1 (<[fullPath := os.File (multipart.Bytes src)
                                                     (os.clock d1)]> (os.nodes d1))).
    { unfold os.Write, os.with_nodes. simpl. now rewrite insert_insert_eq. }
    rewrite Hw in H.
    rewrite (Stat_lookup _ fullPath (os.File (multipart.Bytes src) (os.clock d1))) in H;
      [|exact Hf|simpl; apply lookup_insert_eq].
    injection H as <- <-. auto.
  - left. injection H as <- <-. split; [reflexivity|]. split; [reflexivity|].
    eexists. split; reflexivity.
Qed.

(** ** The local backend: an upload never touches what is stored *)



(** X7: When [Upload] fails while it copies the content, the file it has
    created stays behind: the path exists afterwards, and an upload to
    the path is refused from then on. *)
Theorem Local_Upload_failed_copy_leaves_file (ls : LocalStorage)
    (file file2 : multipart.FileHeader) (path : string) (d d' : os.State) (e : AppError) :
  Local.Upload ls file path d = (Err (AppErr e), d') ->
  Message e = "Failed to copy file contents" ->
  Local.Exists ls path d' = (true, None)
  /\ (hierarchical d ->
      Local.Upload ls file2 path d' = (Err (AppErr (AlreadyExistsError path)), d')).
Proof.
  intros H Hm.
  assert (Hh : hierarchical d -> hierarchical d')
    by (intros Hd; exact (Local_Upload_hierarchical _ _ _ _ _ _ Hd H)).
  apply Local_Upload_cases in H as (d1 & He & _ & H).
  destruct H as [(_ & e' & He' & Hne)|(Hf & Hn & _ & src & _ & [(_ & -> & _)|(_ & _ & Hr)])].
  - injection He' as <-. contradiction.
  - assert (Hs : os.Stat (os.with_nodes d1 (<[physicalPath ls path :=
                                                os.File [] (os.clock d1)]> (os.nodes d1)))
                   (physicalPath ls path)
                 = Ok (os.stat_of (physicalPath ls path) (os.File [] (os.clock d1)))).
    { apply Stat_lookup; [exact Hf|simpl; apply lookup_insert_eq]. }
    split.
    + unfold Local.Exists. fold (physicalPath ls path). now rewrite Hs.
    + intros Hd. eapply Local_Upload_existing; [auto|exact Hs].
  - discriminate.
Qed.

(** ** The probes of a backend agree *)

(** X8: [Exists] and [GetInfo] answer from the same probe of the medium,
    on either backend: the one says yes exactly when the other returns
    a record, and says no, without an error, exactly when the other
    reports the file as not found; when [Exists] fails, [GetInfo]
    fails with an internal error (500). *)
Theorem Exists_agrees_with_GetInfo (p : Provider) (path : string) (w : World) :
  (provider.Exists p path w = (true, None) <-> exists info, provider.GetInfo p path w = Ok info)
  /\ (provider.Exists p path w = (false, None)
      <-> provider.GetInfo p path w = Err (AppErr (FileNotFoundError path)))
  /\ (forall b err, provider.Exists p path w = (b, Some err) ->
        b = false
        /\ exists e e', err = AppErr e /\ HTTPCode e = http.StatusInternalServerError
             /\ provider.GetInfo p path w = Err (AppErr e')
             /\ HTTPCode e' = http.StatusInternalServerError
             /\ Internal e' = Internal e).
Proof.
  unfold provider.Exists, provider.GetInfo.
  destruct (storage p) as [ls|s].
  - unfold Local.Exists, Local.GetInfo.
    destruct (os.Stat (disk w) (filepath.Join [basePath ls; path])) as [st|e].
    + split; [|split].
      * split; eauto.
      * split; discriminate.
      * intros b err H. discriminate.
    + destruct (IsNotExist e).
      * split; [|split].
        -- split; [discriminate|]. intros [info H]. discriminate.
        -- split; reflexivity.
        -- intros b err H. discriminate.
      * split; [|split].
        -- split; [discriminate|]. intros [info H]. discriminate.
        -- split; discriminate.
        -- intros b err H. injection H as <- <-. split; [reflexivity|].
           eexists. eexists. split; [reflexivity|]. split; [reflexivity|].
           split; [reflexivity|]. split; reflexivity.
  - unfold S3.Exists, S3.GetInfo.
    destruct (s3.HeadObject (cloud w) (bucket s) (S3.getFullKey s path)) as [out|e].
    + split; [|split].
      * split; eauto.
      * split; discriminate.
      * intros b err H. discriminate.
    + destruct (S3.looksNotFound e).
      * split; [|split].
        -- split; [discriminate|]. intros [info H]. discriminate.
        -- split; reflexivity.
        -- intros b err H. discriminate.
      * split; [|split].
        -- split; [discriminate|]. intros [info H]. discriminate.
        -- split; discriminate.
        -- intros b err H. injection H as <- <-. split; [reflexivity|].
           eexists. eexists. split; [reflexivity|]. split; [reflexivity|].
           split; [reflexivity|]. split; reflexivity.
Qed.

(** X9: What [Get] returns is a file that [GetInfo] describes alike: the
    record of [Get] gives the length of the content as its size and
    is no directory, and [GetInfo] returns a record with the same
    name, size, modification time and URL. *)
Theorem Get_agrees_with_GetInfo (p : Provider) (path : string) (w : World)
    (data : list byte) (info : FileInfo) :
  provider.Get p path w = Ok (data, info) ->
  Size info = Z.of_nat (length data) /\ IsDirectory info = false
  /\ exists info', provider.GetInfo p path w = Ok info'
       /\ Name info' = Name info /\ Size info' = Size info
       /\ LastModified info' = LastModified info /\ URL info' = URL info
       /\ IsDirectory info' = false.
Proof.
  unfold provider.Get, provider.GetInfo. destruct (storage p) as [ls|s].
  - unfold Local.Get, Local.GetInfo. fold (physicalPath ls path).
    destruct (os.Stat (disk w) (physicalPath ls path)) as [st|e] eqn:Hs.
    2:{ destruct (IsNotExist e); discriminate. }
    destruct (os.IsDir st) eqn:Hd; [discriminate|].
    destruct (os.Open (disk w) (physicalPath ls path)) as [content|e] eqn:Ho; [|discriminate].
    intros H. injection H as <- <-.
    apply Stat_Ok_inv in Hs as (Hf & n & Hn & ->).
    unfold os.Open, os.access in Ho. rewrite Hf, Hn in Ho.
    destruct n as [bytes mtime|mtime]; [|discriminate].
    injection Ho as <-. simpl. split; [reflexivity|]. split; [reflexivity|].
    eexists. split; [reflexivity|]. simpl. auto.
  - unfold S3.Get, S3.GetInfo.
    destruct (s3.HeadObject (cloud w) (bucket s) (S3.getFullKey s path)) as [out|e] eqn:Hh.
    2:{ destruct (S3.looksNotFound e); discriminate. }
    apply S3_HeadObject_Ok_inv in Hh as (Ho & Hk & Hb & o & Hl & ->).
    rewrite (S3_GetObject_found _ _ _ _ Ho Hk Hb Hl).
    intros H. injection H as <- <-. simpl. split; [reflexivity|]. split; [reflexivity|].
    eexists. split; [reflexivity|]. simpl. auto.
Qed.

(** ** An upload is visible to every probe *)

(** X10: After a successful [Upload], on either backend, the path exists
    and [GetInfo] describes the file as the record of the upload did:
    same name, size and content type, and no directory; [Get] returns
    the record's size in bytes. *)
Theorem Upload_then_probes_agree (sniff : list byte -> string) (p : Provider)
    (file : multipart.FileHeader) (path : string) (w w' : World) (info : FileInfo) :
  provider.Upload sniff p file path w = (Ok info, w') ->
  provider.Exists p path w' = (true, None)
  /\ IsDirectory info = false
  /\ (exists info', provider.GetInfo p path w' = Ok info'
        /\ Name info' = Name info /\ Size info' = Size info
        /\ ContentType info' = ContentType info /\ IsDirectory info' = false)
  /\ (exists data info', provider.Get p path w' = Ok (data, info')
        /\ Z.of_nat (length data) = Size info).
Proof.
  unfold provider.Upload, provider.Exists, provider.GetInfo, provider.Get.
  destruct (storage p) as [ls|s].
  - destruct (Local.Upload ls file path (disk w)) as [r d'] eqn:Hu.
    intros H. injection H as -> <-. simpl.
    apply Local_Upload_cases in Hu as (d1 & _ & _ & Hu).
    destruct Hu as [(_ & e & He & _)|(Hf & Hn & _ & src & _ & [(_ & _ & e & He & _)|(_ & -> & Hr)])];
      try discriminate.
    injection Hr as ->.
    assert (Hs : os.Stat (os.with_nodes d1 (<[physicalPath ls path :=
                             os.File (multipart.Bytes src) (os.clock d1)]> (os.nodes d1)))
                   (physicalPath ls path)
                 = Ok (os.stat_of (physicalPath ls path)
                         (os.File (multipart.Bytes src) (os.clock d1)))).
    { apply Stat_lookup; [exact Hf|simpl; apply lookup_insert_eq]. }
    split; [|split; [reflexivity|split]].
    + unfold Local.Exists. fold (physicalPath ls path). now rewrite Hs.
    + unfold Local.GetInfo. fold (physicalPath ls path). rewrite Hs. simpl.
      eexists. split; [reflexivity|]. simpl. auto.
    + eexists. eexists. split; [|reflexivity].
      apply Local_Get_file; [exact Hf|simpl; apply lookup_insert_eq].
  - destruct (S3.Upload sniff s file path (cloud w)) as [r c'] eqn:Hu.
    intros H. injection H as -> <-. simpl.
    unfold S3.Upload in Hu.
    destruct (multipart.Open file) as [src|] eqn:Hopen; [|discriminate].
    destruct (multipart.ReadAll src) as [buffer|] eqn:Hread; [|discriminate].
    destruct (multipart.SeekStart src); [|discriminate].
    destruct (S3.Exists s path (cloud w)) as [[|] [e|]]; try discriminate.
    match type of Hu with
    | context [s3.PutObject ?a ?b ?c ?d ?e ?f] =>
        destruct (s3.PutObject a b c d e f) as [[loc svc1]|] eqn:Hp; [|discriminate]
    end.
    injection Hu as <- <-.
    apply S3_PutObject_Ok_inv in Hp as (Ho & Hk & Hb & ->).
    match goal with
    | |- context [<[?k := ?o]> _] =>
        assert (Hh := S3_HeadObject_found
                        (s3.with_objects (cloud w) (<[k := o]> (s3.objects (cloud w))))
                        (bucket s) (S3.getFullKey s path) o Ho Hk Hb
                        (lookup_insert_eq _ _ _));
        assert (Hg := S3_GetObject_found
                        (s3.with_objects (cloud w) (<[k := o]> (s3.objects (cloud w))))
                        (bucket s) (S3.getFullKey s path) o Ho Hk Hb
                        (lookup_insert_eq _ _ _))
    end.
    split; [|split; [reflexivity|split]].
    + unfold S3.Exists. now rewrite Hh.
    + unfold S3.GetInfo. rewrite Hh. eexists. split; [reflexivity|]. simpl. auto.
    + unfold S3.Get. rewrite Hh, Hg. eexists. eexists. split; reflexivity.
Qed.

(** ** A deletion removes the target and nothing else *)


(** ** Listing a directory of the local backend *)







(** ** Listing a prefix of the S3 backend *)




(** X13: [List] of the S3 backend never reports a missing directory: it
    fails only when the service cannot be reached or the bucket is
    gone, and then with an internal error (500); on a reachable
    bucket it returns a list for every path. *)
Theorem S3_List_fails_only_on_the_service (s : S3Storage) (path : string)
    (svc : s3.Service) :
  (s3.outage svc = None -> bucket s ∈ s3.bucketNames svc ->
   exists records, S3.List s path svc = Ok records)
  /\ (forall err, S3.List s path svc = Err err ->
        (s3.outage svc <> None \/ bucket s ∉ s3.bucketNames svc)
        /\ exists e, err = AppErr e /\ HTTPCode e = http.StatusInternalServerError
                     /\ Code e = ErrCodeInternalError
                     /\ Message e = "Failed to list files in S3: " ++ path).
Proof.
  unfold S3.List.
  match goal with
  | |- context [s3.ListObjectsV2 svc (bucket s) ?p] => generalize p; intros prefix
  end.
  unfold s3.ListObjectsV2. destruct (s3.outage svc) as [text|].
  { split; [discriminate|]. intros err H. injection H as <-.
    split; [left; discriminate|]. eexists. repeat split. }
  destruct (bool_decide_reflect (bucket s ∈ s3.bucketNames svc)) as [Hb|Hb]; simpl.
  - destruct (s3.rollUp prefix (s3.keysWithPrefix svc (bucket s) prefix)) as [cps cs].
    split.
    + intros _ _.
      match goal with
      | |- exists r, match ?f with Some _ => _ | None => _ end = _ => destruct f; eauto
      end.
    + intros err H.
      match type of H with
      | match ?f with Some _ => _ | None => _ end = _ => destruct f; discriminate
      end.
  - split; [intros _ H; contradiction|]. intros err H. injection H as <-.
    split; [now right|]. eexists. repeat split.
Qed.



(** ** The further properties at concrete inputs *)





(** An upload whose source opens and then fails to be read. *)
Lemma Local_Upload_failed_copy_leaves_file_witness :
  Local.Exists localStore "a/b.txt"
    (snd (Local.Upload localStore
            (multipart.mkFileHeader "b.txt" 5 (Some (multipart.mkFile hello false true)))
            "a/b.txt" emptyDisk))
  = (true, None).
Proof.
  refine (proj1 (Local_Upload_failed_copy_leaves_file localStore
                   (multipart.mkFileHeader "b.txt" 5 (Some (multipart.mkFile hello false true)))
                   helloFile "a/b.txt" emptyDisk _
                   (WrapError (TextError "unexpected EOF") http.StatusInternalServerError
                      "Failed to copy file contents") _ _)).
  - vm_compute. reflexivity.
  - reflexivity.
Defined.

Lemma Get_agrees_with_GetInfo_witness :
  exists info',
    provider.GetInfo (mkProvider (S3Backend s3Store)) "readme.txt" filledWorld = Ok info'
    /\ Name info' = "readme.txt" /\ Size info' = 5 /\ IsDirectory info' = false.
Proof.
  destruct (Get_agrees_with_GetInfo (mkProvider (S3Backend s3Store)) "readme.txt" filledWorld
              hello
              (mkFileInfo "readme.txt" 5 910
                 "https://docs.s3.eu-west-1.amazonaws.com/readme.txt"
                 "text/plain; charset=utf-8" false))
    as (_ & _ & info' & H & Hn & Hs & _ & _ & Hd).
  - vm_compute. reflexivity.
  - exists info'. auto.
Defined.

Lemma Upload_then_probes_agree_witness :
  provider.Exists (mkProvider (LocalBackend localStore)) "a/b.txt"
    (snd (provider.Upload sniffText (mkProvider (LocalBackend localStore)) helloFile
            "a/b.txt" emptyWorld))
  = (true, None).
Proof.
  refine (proj1 (Upload_then_probes_agree sniffText (mkProvider (LocalBackend localStore))
                   helloFile "a/b.txt" emptyWorld _
                   (mkFileInfo "b.txt" 5 1000 "a/b.txt" "text/plain" false) _)).
  vm_compute. reflexivity.
Defined.


(** ** The failures of the backends *)

(** The outcomes of an operation whose result [H] names: every
    failing one returns an [AppError] built in place. *)
Ltac failure_cases H :=
  split_match H;
  first [ injection H as <-
        | injection H as <- <-
        | injection H as <- _
        | idtac ];
  try (eexists; split; reflexivity).

Lemma Local_Upload_failure (ls : LocalStorage) (file : multipart.FileHeader)
    (path : string) (d d' : os.State) (err : error) :
  Local.Upload ls file path d = (Err err, d') ->
  exists e, err = AppErr e /\ storageFailure e = true.
Proof.
  intros H. unfold Local.Upload in H. failure_cases H.
  match goal with
  | E : _ = (Some _, _) |- _ =>
      split_match E; injection E as <- <-; eexists; split; reflexivity
  end.
Qed.

Lemma S3_Upload_failure (sniff : list byte -> string) (s : S3Storage)
    (file : multipart.FileHeader) (path : string) (svc svc' : s3.Service) (err : error) :
  S3.Upload sniff s file path svc = (Err err, svc') ->
  exists e, err = AppErr e /\ storageFailure e = true.
Proof. intros H. unfold S3.Upload in H. failure_cases H. Qed.

Lemma Upload_failure (sniff : list byte -> string) (p : Provider)
    (file : multipart.FileHeader) (path : string) (w w' : World) (err : error) :
  provider.Upload sniff p file path w = (Err err, w') ->
  exists e, err = AppErr e /\ storageFailure e = true.
Proof.
  unfold provider.Upload. destruct (storage p) as [ls|s].
  - destruct (Local.Upload ls file path (disk w)) as [r d'] eqn:Hu.
    intros H. injection H as -> _. eapply Local_Upload_failure, Hu.
  - destruct (S3.Upload sniff s file path (cloud w)) as [r c'] eqn:Hu.
    intros H. injection H as -> _. eapply S3_Upload_failure, Hu.
Qed.

Lemma Get_failure (p : Provider) (path : string) (w : World) (err : error) :
  provider.Get p path w = Err err ->
  exists e, err = AppErr e /\ storageFailure e = true.
Proof.
  unfold provider.Get. destruct (storage p) as [ls|s]; intros H.
  - unfold Local.Get in H. failure_cases H.
  - unfold S3.Get in H. failure_cases H.
Qed.

Lemma GetInfo_failure (p : Provider) (path : string) (w : World) (err : error) :
  provider.GetInfo p path w = Err err ->
  exists e, err = AppErr e /\ storageFailure e = true.
Proof.
  unfold provider.GetInfo. destruct (storage p) as [ls|s]; intros H.
  - unfold Local.GetInfo in H. failure_cases H.
  - unfold S3.GetInfo in H. failure_cases H.
Qed.

Lemma List_failure (p : Provider) (path : string) (w : World) (err : error) :
  provider.List p path w = Err err ->
  exists e, err = AppErr e /\ storageFailure e = true.
Proof.
  unfold provider.List. destruct (storage p) as [ls|s]; intros H.
  - unfold Local.List in H. failure_cases H.
  - unfold S3.List in H.
    match type of H with
    | context [s3.ListObjectsV2 ?a ?b ?c] => destruct (s3.ListObjectsV2 a b c)
    end.
    + match type of H with
      | match ?f with Some _ => _ | None => _ end = _ => destruct f; discriminate
      end.
    + injection H as <-. eexists. split; reflexivity.
Qed.

Lemma Delete_failure (p : Provider) (path : string) (w w' : World) (err : error) :
  provider.Delete p path w = (Some err, w') ->
  w' = w /\ exists e, err = AppErr e /\ storageFailure e = true.
Proof.
  unfold provider.Delete. destruct (storage p) as [ls|s].
  - destruct (Local.Delete ls path (disk w)) as [r d'] eqn:Hd.
    intros H. injection H as -> <-. unfold Local.Delete in Hd.
    split_match Hd; injection Hd as <- <-;
      (split; [now destruct w|eexists; split; reflexivity]).
  - destruct (S3.Delete s path (cloud w)) as [r c'] eqn:Hd.
    intros H. injection H as -> <-. unfold S3.Delete in Hd.
    split_match Hd; injection Hd as <- <-;
      (split; [now destruct w|eexists; split; reflexivity]).
Qed.

Lemma Exists_failure (p : Provider) (path : string) (w : World) (b : bool) (err : error) :
  provider.Exists p path w = (b, Some err) ->
  b = false /\ exists e, err = AppErr e /\ storageFailure e = true.
Proof.
  unfold provider.Exists. destruct (storage p) as [ls|s]; intros H.
  - unfold Local.Exists in H. split_match H. injection H as <- <-.
    split; [reflexivity|]. eexists. split; reflexivity.
  - unfold S3.Exists in H. split_match H. injection H as <- <-.
    split; [reflexivity|]. eexists. split; reflexivity.
Qed.

(** X15: Every error of an operation of the provider, on either backend,
    is an [AppError] of one of four kinds: a client error (400), not
    found (404), a conflict (409) or an internal error (500), with
    the matching code; and a failed [Delete] leaves the world as it
    was. *)
Theorem provider_failures_are_AppErrors (sniff : list byte -> string) (p : Provider)
    (file : multipart.FileHeader) (path : string) (w : World) :
  (forall err w', provider.Upload sniff p file path w = (Err err, w') ->
     exists e, err = AppErr e /\ storageFailure e = true)
  /\ (forall err, provider.Get p path w = Err err ->
        exists e, err = AppErr e /\ storageFailure e = true)
  /\ (forall err w', provider.Delete p path w = (Some err, w') ->
        w' = w /\ exists e, err = AppErr e /\ storageFailure e = true)
  /\ (forall b err, provider.Exists p path w = (b, Some err) ->
        b = false /\ exists e, err = AppErr e /\ storageFailure e = true)
  /\ (forall err, provider.List p path w = Err err ->
        exists e, err = AppErr e /\ storageFailure e = true)
  /\ (forall err, provider.GetInfo p path w = Err err ->
        exists e, err = AppErr e /\ storageFailure e = true).
Proof.
  split; [|split; [|split; [|split; [|split]]]].
  - intros err w'. apply Upload_failure.
  - intros err. apply Get_failure.
  - intros err w'. apply Delete_failure.
  - intros b err. apply Exists_failure.
  - intros err. apply List_failure.
  - intros err. apply GetInfo_failure.
Qed.

(** ** The HTTP handlers *)

Lemma storageFailure_status (e : AppError) :
  storageFailure e = true -> 400 <= HTTPCode e.
Proof.
  unfold storageFailure. rewrite !orb_true_iff, !andb_true_iff, !Z.eqb_eq.
  unfold http.StatusBadRequest, http.StatusNotFound, http.StatusConflict,
    http.StatusInternalServerError. lia.
Qed.

Lemma errorReply_consistent (e : AppError) :
  400 <= HTTPCode e -> consistentReply (handler.errorReply (HTTPCode e) e) = true.
Proof.
  intros H. unfold consistentReply. simpl.
  rewrite Z.eqb_refl. simpl. now apply Z.leb_le.
Qed.

Lemma isAllowed_In (ext : string) (allowedTypes : list string) :
  handler.isAllowed ext allowedTypes = true <-> In ext allowedTypes.
Proof.
  induction allowedTypes as [|t rest IH]; simpl; [split; [discriminate|tauto]|].
  destruct (String.eqb_spec ext t) as [->|Hne].
  - split; auto.
  - rewrite IH. split; [auto|]. intros [H|H]; [congruence|exact H].
Qed.

(** X16: The status line and the body of every reply of the five handlers
    agree: an error body carries the status of the reply, which is
    400 or more, with [success] false; a reply with any other body
    has the status 200. *)
Theorem handlers_reply_consistently (sniff : list byte -> string) (uuid : string)
    (config : handler.UploadHandlerConfig) (c : handler.Request) (w : World) :
  consistentReply (fst (handler.UploadHandler sniff uuid config c w)) = true
  /\ consistentReply (handler.GetFileHandler config c w) = true
  /\ consistentReply (handler.GetFileInfoHandler config c w) = true
  /\ consistentReply (fst (handler.DeleteFileHandler config c w)) = true
  /\ consistentReply (handler.ListFilesHandler config c w) = true.
Proof.
  split; [|split; [|split; [|split]]].
  - unfold handler.UploadHandler.
    destruct (handler.FormFile c "file") as [file|]; [|reflexivity].
    destruct (multipart.Size file >? handler.MaxFileSize config); [reflexivity|].
    destruct (_ && _); [reflexivity|].
    match goal with
    | |- context [provider.Upload ?a ?b ?c ?d ?e] =>
        destruct (provider.Upload a b c d e) as [[info|err] w'] eqn:Hu
    end.
    + now destruct info.
    + apply Upload_failure in Hu as (e & -> & He). simpl.
      now apply errorReply_consistent, storageFailure_status.
  - unfold handler.GetFileHandler.
    destruct (String.eqb (handler.Params c "*") ""); [reflexivity|].
    destruct (provider.Exists _ _ w) as [[|] [err|]]; try reflexivity.
    match goal with
    | |- context [provider.Get ?a ?b ?c] => destruct (provider.Get a b c) as [[data info]|err] eqn:Hg
    end.
    + now destruct info.
    + apply Get_failure in Hg as (e & -> & He).
      now apply errorReply_consistent, storageFailure_status.
  - unfold handler.GetFileInfoHandler.
    destruct (String.eqb (handler.Params c "*") ""); [reflexivity|].
    match goal with
    | |- context [provider.GetInfo ?a ?b ?c] =>
        destruct (provider.GetInfo a b c) as [info|err] eqn:Hg
    end.
    + now destruct info.
    + apply GetInfo_failure in Hg as (e & -> & He).
      now apply errorReply_consistent, storageFailure_status.
  - unfold handler.DeleteFileHandler.
    destruct (String.eqb (handler.Params c "*") ""); [reflexivity|].
    destruct (provider.Exists _ _ w) as [[|] [err|]]; try reflexivity.
    match goal with
    | |- context [provider.Delete ?a ?b ?c] =>
        destruct (provider.Delete a b c) as [[err|] w'] eqn:Hd
    end; [|reflexivity].
    apply Delete_failure in Hd as (_ & e & -> & He). simpl.
    now apply errorReply_consistent, storageFailure_status.
  - unfold handler.ListFilesHandler.
    match goal with
    | |- context [provider.List ?a ?b ?c] =>
        destruct (provider.List a b c) as [files|err] eqn:Hl
    end; [reflexivity|].
    apply List_failure in Hl as (e & -> & He).
    now apply errorReply_consistent, storageFailure_status.
Qed.

(** X17: [UploadHandler] stores nothing for a request without a file, with
    a file above the size limit, or, when types are configured, with
    a file whose lower-cased extension is not among them: the reply
    is a 400 and the world is as it was. *)
Theorem UploadHandler_rejects (sniff : list byte -> string) (uuid : string)
    (config : handler.UploadHandlerConfig) (c : handler.Request) (w : World) :
  (handler.FormFile c "file" = None
   \/ exists file,
        handler.FormFile c "file" = Some file
        /\ (handler.MaxFileSize config < multipart.Size file
            \/ handler.AllowedTypes config <> []
               /\ ~ In (strings.ToLower (filepath.Ext (multipart.Filename file)))
                       (handler.AllowedTypes config))) ->
  exists e,
    handler.UploadHandler sniff uuid config c w
    = (handler.errorReply http.StatusBadRequest e, w)
    /\ HTTPCode e = http.StatusBadRequest
    /\ (Code e = ErrCodeBadRequest \/ Code e = errors.ErrCodeFileTooLarge).
Proof.
  unfold handler.UploadHandler. intros [->|(file & -> & H)].
  { eexists. split; [reflexivity|]. split; [reflexivity|now left]. }
  destruct (Z.gtb_spec (multipart.Size file) (handler.MaxFileSize config)) as [Hgt|Hle].
  { eexists. split; [reflexivity|]. split; [reflexivity|now right]. }
  destruct H as [H|[Hne Hnin]]; [lia|].
  destruct (handler.AllowedTypes config) as [|t rest] eqn:Ha; [contradiction|].
  cbn [length Nat.ltb Nat.leb andb].
  destruct (handler.isAllowed _ (t :: rest)) eqn:Hi.
  { apply isAllowed_In in Hi. contradiction. }
  cbn [negb]. eexists. split; [reflexivity|]. split; [reflexivity|now left].
Qed.

(** X18: [UploadHandler] answers 200 exactly when the request carries a
    file within the size limit and of an allowed type and the
    provider stores it, under the name drawn from the UUID or the
    sanitized file name; the reply then describes the stored file,
    and in every other case the world is what the provider left. *)
Theorem UploadHandler_ok_iff (sniff : list byte -> string) (uuid : string)
    (config : handler.UploadHandlerConfig) (c : handler.Request) (w w' : World)
    (reply : handler.Reply) :
  handler.UploadHandler sniff uuid config c w = (reply, w') ->
  (handler.Status reply = http.StatusOK <->
   exists file info,
     handler.FormFile c "file" = Some file
     /\ multipart.Size file <= handler.MaxFileSize config
     /\ (handler.AllowedTypes config = []
         \/ In (strings.ToLower (filepath.Ext (multipart.Filename file)))
               (handler.AllowedTypes config))
     /\ provider.Upload sniff (handler.Provider config) file
          (uploadFullPath (handler.BasePath config) (handler.FormValue c "path")
             (if handler.UseUUID config
              then uuid ++ filepath.Ext (multipart.Filename file)
              else sanitizeFilename (multipart.Filename file))) w
        = (Ok info, w')
     /\ handler.Body reply
        = handler.JSON
            (handler.mkResponse true "File uploaded successfully"
               (handler.FileData
                  (handler.mkFileResponse (Name info) (multipart.Filename file) (Size info)
                     (ContentType info) (URL info)
                     (filepath.Join
                        [cleanCustomPath (handler.FormValue c "path");
                         if handler.UseUUID config
                         then uuid ++ filepath.Ext (multipart.Filename file)
                         else sanitizeFilename (multipart.Filename file)])
                     (LastModified info) false)))).
Proof.
  unfold handler.UploadHandler, uploadFullPath.
  destruct (handler.FormFile c "file") as [file|].
  2:{ intros H. injection H as <- <-. split; [discriminate|].
      intros (file & info & H & _). discriminate. }
  destruct (Z.gtb_spec (multipart.Size file) (handler.MaxFileSize config)) as [Hgt|Hle].
  { intros H. injection H as <- <-. split; [discriminate|].
    intros (file' & info & H & Hs & _). injection H as <-. lia. }
  destruct (handler.AllowedTypes config) as [|t rest] eqn:Ha.
  - cbn [length Nat.ltb Nat.leb andb].
    match goal with
    | |- context [provider.Upload ?a ?b ?c ?d ?e] =>
        destruct (provider.Upload a b c d e) as [[info|err] w1] eqn:Hu
    end.
    + destruct info as [name size lastModified url contentType isDirectory].
      intros H. injection H as <- <-. split; [|reflexivity].
      intros _. exists file. eexists. split; [reflexivity|]. split; [exact Hle|].
      split; [now left|]. split; [exact Hu|reflexivity].
    + pose proof (Upload_failure _ _ _ _ _ _ _ Hu) as (e & -> & He).
      apply storageFailure_status in He.
      intros H. injection H as <- <-. split.
      * simpl. unfold http.StatusOK. lia.
      * intros (file' & info & H & _ & _ & Hu' & _). injection H as <-.
        rewrite Hu in Hu'. discriminate.
  - cbn [length Nat.ltb Nat.leb andb].
    destruct (handler.isAllowed _ (t :: rest)) eqn:Hi; cbn [negb].
    2:{ intros H. injection H as <- <-. split; [discriminate|].
        intros (file' & info & H & _ & [Hn|Hin] & _); [discriminate|].
        injection H as <-. apply isAllowed_In in Hin. congruence. }
    apply isAllowed_In in Hi.
    match goal with
    | |- context [provider.Upload ?a ?b ?c ?d ?e] =>
        destruct (provider.Upload a b c d e) as [[info|err] w1] eqn:Hu
    end.
    + destruct info as [name size lastModified url contentType isDirectory].
      intros H. injection H as <- <-. split; [|reflexivity].
      intros _. exists file. eexists. split; [reflexivity|]. split; [exact Hle|].
      split; [now right|]. split; [exact Hu|reflexivity].
    + pose proof (Upload_failure _ _ _ _ _ _ _ Hu) as (e & -> & He).
      apply storageFailure_status in He.
      intros H. injection H as <- <-. split.
      * simpl. unfold http.StatusOK. lia.
      * intros (file' & info & H & _ & _ & Hu' & _). injection H as <-.
        rewrite Hu in Hu'. discriminate.
Qed.

Lemma Get_Ok_Exists (p : Provider) (path : string) (w : World)
    (data : list byte) (info : FileInfo) :
  provider.Get p path w = Ok (data, info) -> provider.Exists p path w = (true, None).
Proof.
  unfold provider.Get, provider.Exists. destruct (storage p) as [ls|s]; intros H.
  - unfold Local.Get in H. unfold Local.Exists.
    destruct (os.Stat _ _) as [st|e]; [reflexivity|].
    destruct (IsNotExist e); discriminate.
  - unfold S3.Get in H. unfold S3.Exists.
    destruct (s3.HeadObject _ _ _) as [out|e]; [reflexivity|].
    destruct (S3.looksNotFound e); discriminate.
Qed.

Lemma errorReply_not_ok (e : AppError) :
  storageFailure e = true ->
  handler.Status (handler.errorReply (HTTPCode e) e) <> http.StatusOK.
Proof.
  intros H. apply storageFailure_status in H. simpl. unfold http.StatusOK. lia.
Qed.

(** X19: The handlers that read answer 200 exactly when the provider
    finds what is asked for.  [GetFileHandler] needs a path and a
    file that [Get] returns; the body is its content, sent with its
    content type ([application/octet-stream] when the record has
    none), the disposition and file name of the query ([inline] and
    the name of the file by default).  [GetFileInfoHandler] needs a
    path and a record of [GetInfo]; [ListFilesHandler] a listing of
    [List], also for the empty path. *)
Theorem read_handlers_ok_iff (config : handler.UploadHandlerConfig) (c : handler.Request)
    (w : World) :
  (handler.Status (handler.GetFileHandler config c w) = http.StatusOK <->
   handler.Params c "*" <> ""
   /\ exists data info,
        provider.Get (handler.Provider config)
          (handlerFullPath (handler.BasePath config) (handler.Params c "*")) w
        = Ok (data, info)
        /\ handler.Body (handler.GetFileHandler config c w) = handler.Stream data
        /\ handler.Headers (handler.GetFileHandler config c w)
           = [("Content-Type",
               if String.eqb (ContentType info) "" then "application/octet-stream"
               else ContentType info);
              ("Content-Disposition",
               handler.defaultString (handler.Query c "disposition") "inline"
               ++ "; filename="
               ++ String dquote
                    (handler.defaultString (handler.Query c "filename") (Name info)
                     ++ String dquote ""));
              ("Cache-Control", "public, max-age=31536000")])
  /\ (handler.Status (handler.GetFileInfoHandler config c w) = http.StatusOK <->
      handler.Params c "*" <> ""
      /\ exists info,
           provider.GetInfo (handler.Provider config)
             (handlerFullPath (handler.BasePath config) (handler.Params c "*")) w
           = Ok info
           /\ handler.Body (handler.GetFileInfoHandler config c w)
              = handler.JSON
                  (handler.mkResponse true ""
                     (handler.FileData
                        (handler.mkFileResponse (Name info) "" (Size info)
                           (ContentType info) (URL info)
                           (sanitizePath (handler.Params c "*")) (LastModified info)
                           (IsDirectory info)))))
  /\ (handler.Status (handler.ListFilesHandler config c w) = http.StatusOK <->
      exists files,
        provider.List (handler.Provider config)
          (handlerFullPath (handler.BasePath config) (handler.Params c "*")) w
        = Ok files
        /\ handler.Body (handler.ListFilesHandler config c w)
           = handler.JSON
               (handler.mkResponse true ""
                  (handler.FileListData
                     (handler.fileList (sanitizePath (handler.Params c "*")) files)))).
Proof.
  unfold handlerFullPath. split; [|split].
  - unfold handler.GetFileHandler.
    destruct (String.eqb_spec (handler.Params c "*") "") as [He|Hne].
    { split; [discriminate|]. intros [H _]. contradiction. }
    match goal with
    | |- context [provider.Get ?a ?b ?c] =>
        destruct (provider.Get a b c) as [[data info]|err] eqn:Hg
    end.
    + rewrite (Get_Ok_Exists _ _ _ _ _ Hg).
      destruct info as [name size lastModified url contentType isDirectory].
      split; [|reflexivity]. intros _. split; [exact Hne|].
      eexists. eexists. split; [reflexivity|]. split; reflexivity.
    + apply Get_failure in Hg as (e & -> & He).
      split; [|intros (_ & data & info & H & _); discriminate].
      destruct (provider.Exists _ _ w) as [[|] [err|]]; try discriminate.
      intros H. now apply errorReply_not_ok in H.
  - unfold handler.GetFileInfoHandler.
    destruct (String.eqb_spec (handler.Params c "*") "") as [He|Hne].
    { split; [discriminate|]. intros [H _]. contradiction. }
    match goal with
    | |- context [provider.GetInfo ?a ?b ?c] =>
        destruct (provider.GetInfo a b c) as [info|err] eqn:Hg
    end.
    + destruct info as [name size lastModified url contentType isDirectory].
      split; [|reflexivity]. intros _. split; [exact Hne|].
      eexists. split; reflexivity.
    + apply GetInfo_failure in Hg as (e & -> & He).
      split; [|intros (_ & info & H & _); discriminate].
      intros H. now apply errorReply_not_ok in H.
  - unfold handler.ListFilesHandler.
    match goal with
    | |- context [provider.List ?a ?b ?c] =>
        destruct (provider.List a b c) as [files|err] eqn:Hl
    end.
    + split; [|reflexivity]. intros _. eexists. split; reflexivity.
    + apply List_failure in Hl as (e & -> & He).
      split; [|intros (files & H & _); discriminate].
      intros H. now apply errorReply_not_ok in H.
Qed.

Lemma Delete_Ok_then_absent (p : Provider) (path : string) (w w' : World) :
  provider.Delete p path w = (None, w') ->
  provider.Exists p path w' = (false, None)
  /\ provider.GetInfo p path w' = Err (AppErr (FileNotFoundError path)).
Proof.
  unfold provider.Delete, provider.Exists, provider.GetInfo.
  destruct (storage p) as [ls|s].
  - destruct (Local.Delete ls path (disk w)) as [r d'] eqn:Hd.
    intros H. injection H as -> <-. simpl.
    apply Local_Delete_Ok in Hd as (Hf & ->).
    assert (Hs : os.Stat (os.with_nodes (disk w)
                            (delete (physicalPath ls path) (os.nodes (disk w))))
                   (physicalPath ls path)
                 = Err (PathError "stat" (physicalPath ls path) ENOENT)).
    { apply Stat_absent; [exact Hf|simpl; apply lookup_delete_eq]. }
    unfold Local.Exists, Local.GetInfo. fold (physicalPath ls path).
    rewrite Hs. simpl. auto.
  - destruct (S3.Delete s path (cloud w)) as [r c'] eqn:Hd.
    intros H. injection H as -> <-. simpl.
    apply S3_Delete_Ok in Hd as (Ho & Hk & ->).
    assert (Hh : s3.HeadObject
                   (s3.with_objects (cloud w)
                      (delete (bucket s, S3.getFullKey s path) (s3.objects (cloud w))))
                   (bucket s) (S3.getFullKey s path)
                 = Err (TextError (s3.notFoundText "HeadObject"))).
    { apply S3_HeadObject_missing; [exact Ho|exact Hk|simpl; apply lookup_delete_eq]. }
    unfold S3.Exists, S3.GetInfo. rewrite Hh, looksNotFound_notFound. auto.
Qed.

(** X20: [DeleteFileHandler] changes the world only when it answers 200,
    and after a 200 the same request finds nothing: [GetFileHandler],
    [GetFileInfoHandler] and a second [DeleteFileHandler] answer 404
    with the code [FILE_NOT_FOUND], and the second deletion changes
    nothing. *)
Theorem DeleteFileHandler_then_not_found (config : handler.UploadHandlerConfig)
    (c : handler.Request) (w w' : World) (reply : handler.Reply) :
  handler.DeleteFileHandler config c w = (reply, w') ->
  (handler.Status reply <> http.StatusOK -> w' = w)
  /\ (handler.Status reply = http.StatusOK ->
      handler.GetFileHandler config c w'
      = handler.errorReply http.StatusNotFound
          (FileNotFoundError (sanitizePath (handler.Params c "*")))
      /\ handler.GetFileInfoHandler config c w'
         = handler.errorReply http.StatusNotFound
             (FileNotFoundError
                (handlerFullPath (handler.BasePath config) (handler.Params c "*")))
      /\ handler.DeleteFileHandler config c w'
         = (handler.errorReply http.StatusNotFound
              (FileNotFoundError (sanitizePath (handler.Params c "*"))), w')).
Proof.
  unfold handler.DeleteFileHandler, handler.GetFileHandler, handler.GetFileInfoHandler,
    handlerFullPath.
  destruct (String.eqb (handler.Params c "*") "").
  { intros H. injection H as <- <-. split; [reflexivity|discriminate]. }
  destruct (provider.Exists _ _ w) as [[|] [err|]];
    try (intros H; injection H as <- <-; split; [reflexivity|discriminate]).
  match goal with
  | |- context [provider.Delete ?a ?b ?c] =>
      destruct (provider.Delete a b c) as [[err|] w1] eqn:Hd
  end.
  - apply Delete_failure in Hd as (-> & e & -> & He).
    intros H. injection H as <- <-. split; [reflexivity|].
    intros H. now apply errorReply_not_ok in H.
  - apply Delete_Ok_then_absent in Hd as [Hex Hinfo].
    intros H. injection H as <- <-. split; [intros H; now elim H|]. intros _.
    rewrite Hex, Hinfo. auto.
Qed.

Lemma UploadHandler_rejects_witness :
  exists e,
    handler.UploadHandler sniffText "0f8fad5b"
      (GetUploadHandlerConfig (mkProvider (LocalBackend localStore)) DefaultConfig)
      (request (Some helloFile) "docs" "") emptyWorld
    = (handler.errorReply http.StatusBadRequest e, emptyWorld)
    /\ HTTPCode e = http.StatusBadRequest
    /\ (Code e = ErrCodeBadRequest \/ Code e = errors.ErrCodeFileTooLarge).
Proof.
  apply (UploadHandler_rejects sniffText "0f8fad5b"
           (GetUploadHandlerConfig (mkProvider (LocalBackend localStore)) DefaultConfig)
           (request (Some helloFile) "docs" "") emptyWorld).
  right. exists helloFile. split; [reflexivity|]. right. split; [discriminate|].
  vm_compute. intros H.
  repeat match type of H with
         | _ \/ _ => destruct H as [H|H]
         end; try discriminate H; exact H.
Defined.

Lemma UploadHandler_ok_iff_witness :
  handler.Status
    (fst (handler.UploadHandler sniffText "0f8fad5b" plainHandlers
            (request (Some helloFile) "docs" "") emptyWorld))
  = http.StatusOK
  <-> exists file info,
        handler.FormFile (request (Some helloFile) "docs" "") "file" = Some file
        /\ multipart.Size file <= handler.MaxFileSize plainHandlers
        /\ (handler.AllowedTypes plainHandlers = []
            \/ In (strings.ToLower (filepath.Ext (multipart.Filename file)))
                  (handler.AllowedTypes plainHandlers))
        /\ provider.Upload sniffText (handler.Provider plainHandlers) file
             (uploadFullPath (handler.BasePath plainHandlers)
                (handler.FormValue (request (Some helloFile) "docs" "") "path")
                (if handler.UseUUID plainHandlers
                 then "0f8fad5b" ++ filepath.Ext (multipart.Filename file)
                 else sanitizeFilename (multipart.Filename file))) emptyWorld
           = (Ok info,
              snd (handler.UploadHandler sniffText "0f8fad5b" plainHandlers
                     (request (Some helloFile) "docs" "") emptyWorld))
        /\ handler.Body
             (fst (handler.UploadHandler sniffText "0f8fad5b" plainHandlers
                     (request (Some helloFile) "docs" "") emptyWorld))
           = handler.JSON
               (handler.mkResponse true "File uploaded successfully"
                  (handler.FileData
                     (handler.mkFileResponse (Name info) (multipart.Filename file)
                        (Size info) (ContentType info) (URL info)
                        (filepath.Join
                           [cleanCustomPath
                              (handler.FormValue (request (Some helloFile) "docs" "")
                                 "path");
                            if handler.UseUUID plainHandlers
                            then "0f8fad5b" ++ filepath.Ext (multipart.Filename file)
                            else sanitizeFilename (multipart.Filename file)])
                        (LastModified info) false))).
Proof.
  apply (UploadHandler_ok_iff sniffText "0f8fad5b" plainHandlers
           (request (Some helloFile) "docs" "") emptyWorld).
  vm_compute. reflexivity.
Defined.

Lemma DeleteFileHandler_then_not_found_witness :
  handler.GetFileHandler plainHandlers (request None "" "a/b.txt")
    (snd (handler.DeleteFileHandler plainHandlers (request None "" "a/b.txt") filledWorld))
  = handler.errorReply http.StatusNotFound (FileNotFoundError "a/b.txt").
Proof.
  refine (proj1 (proj2 (DeleteFileHandler_then_not_found plainHandlers
                          (request None "" "a/b.txt") filledWorld _ _ _) _)).
  - vm_compute. reflexivity.
  - vm_compute. reflexivity.
Defined.

(** ** The configuration read from the environment *)

Lemma to_int_nonnil (z : Z) :
  Z.to_int z <> Decimal.Pos Decimal.Nil /\ Z.to_int z <> Decimal.Neg Decimal.Nil.
Proof.
  destruct z as [|p|p]; simpl; split; try discriminate;
    intros H; injection H as H; exact (DecimalPos.Unsigned.to_uint_nonnil p H).
Qed.

Lemma int_of_string_decimal (z : Z) :
  NilZero.int_of_string (errors.decimal z) = Some (Z.to_int z).
Proof.
  unfold errors.decimal. destruct (to_int_nonnil z) as [H1 H2]. now apply NilZero.isi.
Qed.

Lemma Atoi_decimal (z : Z) :
  Atoi (errors.decimal z)
  = if (minInt <=? z) && (z <=? maxInt) then Some z else None.
Proof.
  pose proof (int_of_string_decimal z) as H. unfold Atoi.
  destruct (errors.decimal z) as [|c rest] eqn:Hd; [discriminate|].
  destruct (Ascii.eqb_spec c "+") as [->|Hne].
  - cbn in H. destruct (NilEmpty.uint_of_string rest); discriminate.
  - rewrite H, DecimalZ.of_to. reflexivity.
Qed.

(** X21: [getEnvAsInt] reads back every integer written in decimal that
    fits an [int], and falls back to the default for a number out of
    that range, as for a variable that is unset or empty. *)
Theorem getEnvAsInt_reads_decimal (env : gmap string string) (key : string)
    (defaultValue z : Z) :
  (env !! key = Some (errors.decimal z) ->
   getEnvAsInt env key defaultValue
   = if (minInt <=? z) && (z <=? maxInt) then z else defaultValue)
  /\ (env !! key = None \/ env !! key = Some "" ->
      getEnvAsInt env key defaultValue = defaultValue).
Proof.
  unfold getEnvAsInt, Getenv. split.
  - intros ->. rewrite Atoi_decimal.
    destruct (String.eqb_spec (errors.decimal z) "") as [He|_].
    + pose proof (int_of_string_decimal z) as H. rewrite He in H. discriminate.
    + now destruct ((minInt <=? z) && (z <=? maxInt)).
  - intros [->| ->]; reflexivity.
Qed.

Lemma lower_idempotent (c : ascii) : strings.lower (strings.lower c) = strings.lower c.
Proof. destruct c as [[] [] [] [] [] [] [] []]; reflexivity. Qed.

Lemma ToLower_idempotent (s : string) :
  strings.ToLower (strings.ToLower s) = strings.ToLower s.
Proof.
  induction s as [|c s IH]; simpl; [reflexivity|]. now rewrite lower_idempotent, IH.
Qed.

Lemma HasPrefix_dot_ToLower (t : string) :
  strings.HasPrefix t "." = true -> strings.HasPrefix (strings.ToLower t) "." = true.
Proof.
  unfold strings.HasPrefix. destruct t as [|c t]; [discriminate|].
  cbn [String.prefix strings.ToLower].
  destruct (Ascii.ascii_dec "." c) as [<-|Hne]; [|discriminate].
  intros _. assert (Hl : strings.lower "." = "."%char) by reflexivity. rewrite Hl.
  destruct (Ascii.ascii_dec "." ".") as [_|H]; [|congruence].
  now destruct (strings.ToLower t).
Qed.

Lemma HasPrefix_dot_cons (t : string) : strings.HasPrefix (String "." t) "." = true.
Proof.
  unfold strings.HasPrefix. cbn [String.prefix].
  destruct (Ascii.ascii_dec "." ".") as [_|H]; [now destruct t|congruence].
Qed.

Lemma cleanTypes_normalised (types : list string) :
  Forall (fun t => strings.HasPrefix t "." = true /\ strings.ToLower t = t)
         (cleanTypes types).
Proof.
  induction types as [|t rest IH]; cbn [cleanTypes]; [constructor|].
  destruct (String.eqb (TrimSpace t) ""); cbn [negb]; [exact IH|].
  constructor; [|exact IH]. split; [|apply ToLower_idempotent].
  apply HasPrefix_dot_ToLower.
  destruct (strings.HasPrefix (TrimSpace t) ".") eqn:Hp; cbn [negb].
  - exact Hp.
  - apply HasPrefix_dot_cons.
Qed.

(** X22: Whatever the environment holds, the configuration read from it
    has a positive upload size and timeout, and a list of allowed
    file types that is not empty and whose entries all begin with a
    dot and are in lower case. *)
Theorem NewConfigFromEnv_is_normalised (env : gmap string string) :
  0 < UploadMaxSizeMB (NewConfigFromEnv env)
  /\ 0 < TimeoutSecs (NewConfigFromEnv env)
  /\ AllowedFileTypes (NewConfigFromEnv env) <> []
  /\ Forall (fun t => strings.HasPrefix t "." = true /\ strings.ToLower t = t)
            (AllowedFileTypes (NewConfigFromEnv env)).
Proof.
  assert (Hsize : 0 < UploadMaxSizeMB (NewConfigFromEnv env)).
  { simpl. destruct (Z.ltb_spec 0 (getEnvAsInt env "UPLOAD_MAX_SIZE" 10)); [assumption|].
    reflexivity. }
  assert (Htime : 0 < TimeoutSecs (NewConfigFromEnv env)).
  { simpl. destruct (Z.ltb_spec 0 (getEnvAsInt env "UPLOAD_TIMEOUT_SECS" 30)); [assumption|].
    reflexivity. }
  split; [exact Hsize|]. split; [exact Htime|]. split.
  - simpl.
    destruct (if negb (String.eqb (Getenv env "ALLOWED_FILE_TYPES") "") then _ else _)
      as [|t rest]; simpl; discriminate.
  - simpl.
    destruct (negb (String.eqb (Getenv env "ALLOWED_FILE_TYPES") "")).
    + pose proof (cleanTypes_normalised (Split (Getenv env "ALLOWED_FILE_TYPES") ","))
        as Hc.
      destruct (cleanTypes (Split (Getenv env "ALLOWED_FILE_TYPES") ",")) as [|t rest].
      * simpl. repeat constructor.
      * exact Hc.
    + simpl. repeat constructor.
Qed.

(** ** The high-level provider *)

(** X23: [NewFilesystemProviderWithConfig] succeeds and fails as
    [NewStorageProvider] does, with the same error and the same
    effect on the world: its own validation never decides.  On
    success it keeps the provider and the configuration, and a
    handler configuration with that provider, an empty base path, and
    the allowed types, UUID flag and timeout of the configuration.
    [NewFilesystemProvider] does the same with the configuration read
    from the environment. *)
Theorem NewFilesystemProviderWithConfig_follows_NewStorageProvider (config : Config)
    (env : gmap string string) (w : World) :
  fsprovider.NewFilesystemProviderWithConfig config w
  = match NewStorageProvider config w with
    | (Ok p, w') =>
        (Ok (fsprovider.mkFilesystemProvider p
               (handler.mkUploadHandlerConfig p "" (AllowedFileTypes config)
                  (mulInt (mulInt (UploadMaxSizeMB config) 1024) 1024)
                  (UseUUID config) (TimeoutSecs config))
               config), w')
    | (Err err, w') => (Err err, w')
    end
  /\ fsprovider.NewFilesystemProvider env w
     = fsprovider.NewFilesystemProviderWithConfig (NewConfigFromEnv env) w.
Proof.
  split; [|reflexivity].
  unfold fsprovider.NewFilesystemProviderWithConfig.
  destruct (Validate config) as [|msg rest] eqn:Hv.
  - cbn [length Nat.ltb Nat.leb].
    destruct (NewStorageProvider config w) as [[p|err] w']; reflexivity.
  - cbn [length Nat.ltb Nat.leb].
    rewrite (NewStorageProvider_invalid config w msg); rewrite Hv; [reflexivity|now left].
Qed.

(** X24: [GetUploadHandlerConfig] turns a limit of less than 2^43 MB into
    that many times 2^20 bytes.  From 2^43 MB on the product leaves
    the range of a 64-bit [int]: for a limit below 2^44 MB the byte
    limit is negative, and [UploadHandler] then refuses every file as
    too large. *)
Theorem GetUploadHandlerConfig_limit (sniff : list byte -> string) (uuid : string)
    (p : Provider) (cfg : Config) :
  (0 <= UploadMaxSizeMB cfg < 2 ^ 43 ->
   handler.MaxFileSize (GetUploadHandlerConfig p cfg) = UploadMaxSizeMB cfg * 1048576)
  /\ (2 ^ 43 <= UploadMaxSizeMB cfg < 2 ^ 44 ->
      handler.MaxFileSize (GetUploadHandlerConfig p cfg) < 0
      /\ forall c w file,
           handler.FormFile c "file" = Some file -> 0 <= multipart.Size file ->
           handler.UploadHandler sniff uuid (GetUploadHandlerConfig p cfg) c w
           = (handler.errorReply http.StatusBadRequest
                (errors.FileTooLargeError (multipart.Size file)
                   (handler.MaxFileSize (GetUploadHandlerConfig p cfg))), w)).
Proof.
  assert (Hm : handler.MaxFileSize (GetUploadHandlerConfig p cfg)
               = mulInt (mulInt (UploadMaxSizeMB cfg) 1024) 1024) by reflexivity.
  split.
  - intros H. rewrite Hm. unfold mulInt.
    rewrite (Z.mod_small (UploadMaxSizeMB cfg * 1024 + 9223372036854775808)) by lia.
    rewrite Z.mod_small by lia. lia.
  - intros H.
    assert (Hneg : handler.MaxFileSize (GetUploadHandlerConfig p cfg) < 0).
    { rewrite Hm. unfold mulInt.
      rewrite (Z.mod_small (UploadMaxSizeMB cfg * 1024 + 9223372036854775808)) by lia.
      replace ((UploadMaxSizeMB cfg * 1024 + 9223372036854775808 - 9223372036854775808)
               * 1024 + 9223372036854775808)
        with (UploadMaxSizeMB cfg * 1048576 - 9223372036854775808
              + 1 * 18446744073709551616) by lia.
      rewrite Z.mod_add by lia. rewrite Z.mod_small by lia. lia. }
    split; [exact Hneg|]. intros c w file Hf Hs.
    unfold handler.UploadHandler. rewrite Hf.
    destruct (Z.gtb_spec (multipart.Size file)
                (handler.MaxFileSize (GetUploadHandlerConfig p cfg))); [reflexivity|lia].
Qed.

Lemma isAllowed_without_extension (allowedTypes : list string) :
  Forall (fun t => strings.HasPrefix t "." = true) allowedTypes ->
  handler.isAllowed "" allowedTypes = false.
Proof.
  induction 1 as [|t rest Ht _ IH]; [reflexivity|].
  cbn [handler.isAllowed].
  destruct (String.eqb_spec "" t) as [<-|_]; [discriminate|exact IH].
Qed.

Lemma env_types_dotted (env : gmap string string) :
  AllowedFileTypes (NewConfigFromEnv env) <> []
  /\ Forall (fun t => strings.HasPrefix t "." = true)
            (AllowedFileTypes (NewConfigFromEnv env)).
Proof.
  pose proof (cleanTypes_normalised (Split (Getenv env "ALLOWED_FILE_TYPES") ",")) as Hc.
  simpl. destruct (negb (String.eqb (Getenv env "ALLOWED_FILE_TYPES") "")).
  - destruct (cleanTypes (Split (Getenv env "ALLOWED_FILE_TYPES") ",")) as [|t rest].
    + simpl. split; [discriminate|repeat constructor].
    + simpl. split; [discriminate|].
      eapply Forall_impl; [exact Hc|]. intros a [H _]. exact H.
  - simpl. split; [discriminate|repeat constructor].
Qed.

(** X25: The upload handler of a provider configured from the environment
    never accepts a file whose name has no extension: the list of
    allowed types is never empty there and each of its entries begins
    with a dot, so the reply is a 400 and the world is unchanged. *)
Theorem env_provider_refuses_files_without_extension (sniff : list byte -> string)
    (uuid basePath : string) (env : gmap string string) (w0 w1 w : World)
    (f : fsprovider.FilesystemProvider) (c : handler.Request)
    (file : multipart.FileHeader) :
  fsprovider.NewFilesystemProvider env w0 = (Ok f, w1) ->
  handler.FormFile c "file" = Some file ->
  filepath.Ext (multipart.Filename file) = "" ->
  exists e,
    fsprovider.GetUploadHandler sniff uuid f basePath c w
    = (handler.errorReply http.StatusBadRequest e, w)
    /\ HTTPCode e = http.StatusBadRequest.
Proof.
  intros Hn Hf Hext.
  assert (Ha : handler.AllowedTypes (fsprovider.withBasePath f basePath)
               = AllowedFileTypes (NewConfigFromEnv env)).
  { unfold fsprovider.NewFilesystemProvider in Hn.
    destruct (0 <? length (Validate (NewConfigFromEnv env)))%nat; [discriminate|].
    destruct (NewStorageProvider (NewConfigFromEnv env) w0) as [[p|err] w']; [|discriminate].
    injection Hn as <- _. reflexivity. }
  destruct (env_types_dotted env) as [Hne Hall].
  unfold fsprovider.GetUploadHandler, handler.UploadHandler. rewrite Hf, Ha, Hext.
  destruct (_ >? _).
  { eexists. split; reflexivity. }
  cbn [strings.ToLower]. rewrite (isAllowed_without_extension _ Hall).
  destruct (AllowedFileTypes (NewConfigFromEnv env)) as [|t rest]; [contradiction|].
  cbn [length Nat.ltb Nat.leb andb negb]. eexists. split; reflexivity.
Qed.

Lemma env_provider_refuses_files_without_extension_witness :
  exists e,
    fsprovider.GetUploadHandler sniffText "0f8fad5b"
      (fsprovider.mkFilesystemProvider (mkProvider (LocalBackend localStore))
         (GetUploadHandlerConfig (mkProvider (LocalBackend localStore))
            (NewConfigFromEnv (<["UPLOAD_STORAGE_PATH" := "/tmp/x"]> ∅)))
         (NewConfigFromEnv (<["UPLOAD_STORAGE_PATH" := "/tmp/x"]> ∅)))
      "" (request (Some (multipart.mkFileHeader "README" 5
                           (Some (multipart.mkFile hello true true)))) "" "")
      emptyWorld
    = (handler.errorReply http.StatusBadRequest e, emptyWorld)
    /\ HTTPCode e = http.StatusBadRequest.
Proof.
  apply (env_provider_refuses_files_without_extension sniffText "0f8fad5b" ""
           (<["UPLOAD_STORAGE_PATH" := "/tmp/x"]> ∅) emptyWorld emptyWorld emptyWorld _ _
           (multipart.mkFileHeader "README" 5 (Some (multipart.mkFile hello true true)))).
  - vm_compute. reflexivity.
  - reflexivity.
  - reflexivity.
Defined.

Lemma GetUploadHandlerConfig_limit_witness :
  handler.MaxFileSize (GetUploadHandlerConfig (mkProvider (LocalBackend localStore))
                         DefaultConfig)
  = UploadMaxSizeMB DefaultConfig * 1048576.
Proof.
  apply (proj1 (GetUploadHandlerConfig_limit sniffText "0f8fad5b"
                  (mkProvider (LocalBackend localStore)) DefaultConfig)).
  vm_compute. split; [discriminate|reflexivity].
Defined.

(** ** File names and URLs *)

Lemma mem_ReplaceEach (olds s : string) (c : ascii) :
  strings.mem "_" olds = false -> strings.mem c olds = true ->
  strings.mem c (strings.ReplaceEach olds s) = false.
Proof.
  intros Hu Hc. induction s as [|a s IH]; [reflexivity|].
  cbn [strings.ReplaceEach strings.mem]. rewrite IH, orb_false_r.
  destruct (strings.mem a olds) eqn:Ha.
  - destruct (Ascii.eqb_spec c "_") as [->|]; [congruence|reflexivity].
  - destruct (Ascii.eqb_spec c a) as [->|]; [congruence|reflexivity].
Qed.

Lemma length_ReplaceEach (olds s : string) :
  String.length (strings.ReplaceEach olds s) = String.length s.
Proof. induction s as [|a s IH]; simpl; [reflexivity|]. now rewrite IH. Qed.

Lemma SplitSlash_without_slash (s : string) :
  strings.mem "/" s = false -> strings.SplitSlash s = [s].
Proof.
  induction s as [|a s IH]; [reflexivity|].
  cbn [strings.mem strings.SplitSlash]. rewrite Ascii.eqb_sym.
  destruct (Ascii.eqb a "/"); [discriminate|]. simpl. intros H. now rewrite (IH H).
Qed.

Lemma Base_not_empty (path : string) : filepath.Base path <> "".
Proof.
  unfold filepath.Base. destruct (String.eqb path ""); [discriminate|].
  destruct (String.eqb_spec (snd (filepath.cut_last (strings.TrimRight path "/"))) "")
    as [|Hne]; [discriminate|exact Hne].
Qed.

Lemma ReplaceEach_dotdot (olds s : string) :
  strings.mem "." olds = false ->
  (strings.ReplaceEach olds s = ".." <-> s = "..").
Proof.
  intros Hd. split.
  - destruct s as [|a [|b [|c s]]]; try discriminate.
    cbn [strings.ReplaceEach]. intros H. injection H as Ha Hb.
    destruct (strings.mem a olds) eqn:Ea; [discriminate|].
    destruct (strings.mem b olds) eqn:Eb; [discriminate|]. now subst.
  - intros ->. cbn [strings.ReplaceEach]. now rewrite Hd.
Qed.

(** X26: [sanitizeFilename] returns one path element: it is never empty,
    as long as the last element of the given name, holds none of the
    characters it replaces, in particular no separator; it leaves
    the parent element [..] as it is, and only that name gives it. *)
Theorem sanitizeFilename_is_one_element (filename : string) :
  sanitizeFilename filename <> ""
  /\ String.length (sanitizeFilename filename) = String.length (filepath.Base filename)
  /\ (forall c, strings.mem c dangerousChars = true ->
                strings.mem c (sanitizeFilename filename) = false)
  /\ strings.SplitSlash (sanitizeFilename filename) = [sanitizeFilename filename]
  /\ (sanitizeFilename filename = ".." <-> filepath.Base filename = "..").
Proof.
  unfold sanitizeFilename. fold dangerousChars.
  assert (Hlen := length_ReplaceEach dangerousChars (filepath.Base filename)).
  assert (Hmem : forall c, strings.mem c dangerousChars = true ->
                   strings.mem c (strings.ReplaceEach dangerousChars
                                    (filepath.Base filename)) = false).
  { intros c. now apply mem_ReplaceEach. }
  split; [|split; [exact Hlen|split; [exact Hmem|split]]].
  - intros He. rewrite He in Hlen. pose proof (Base_not_empty filename) as Hb.
    destruct (filepath.Base filename); [congruence|discriminate].
  - apply SplitSlash_without_slash, Hmem. reflexivity.
  - now apply ReplaceEach_dotdot.
Qed.

Lemma TrimRight_app_slash (s : string) :
  strings.TrimRight (s ++ "/") "/" = strings.TrimRight s "/".
Proof.
  induction s as [|c s IH]; [reflexivity|].
  change (String c s ++ "/") with (String c (s ++ "/")).
  cbn [strings.TrimRight]. now rewrite IH.
Qed.

Lemma TrimRight_no_trailing (s cutset : string) :
  forall t c, strings.TrimRight s cutset = t ++ String c "" -> strings.mem c cutset = false.
Proof.
  induction s as [|a s IH]; intros t c.
  - destruct t; discriminate.
  - cbn [strings.TrimRight].
    destruct (strings.TrimRight s cutset) as [|b r] eqn:Hr.
    + destruct (strings.mem a cutset) eqn:Ha.
      * destruct t; discriminate.
      * destruct t as [|x [|y t]]; try discriminate. intros H. injection H as <-.
        exact Ha.
    + destruct t as [|x t].
      * discriminate.
      * simpl. intros H. injection H as _ H. eapply IH. exact H.
Qed.

Lemma TrimLeft_no_leading (s cutset : string) (c : ascii) (t : string) :
  strings.TrimLeft s cutset = String c t -> strings.mem c cutset = false.
Proof.
  induction s as [|a s IH]; [discriminate|].
  cbn [strings.TrimLeft]. destruct (strings.mem a cutset) eqn:Ha; [exact IH|].
  intros H. injection H as <- _. exact Ha.
Qed.

(** X27: With a base URL, the URL of both backends joins the base and the
    path by exactly one separator: the part before it does not end
    with a separator and the part after it does not begin with one,
    so that one more trailing separator on the base URL, or one more
    leading separator on the path, changes nothing.  Without a base
    URL the local backend gives the path as it is. *)
Theorem url_has_one_separator_at_the_joint (ls : LocalStorage) (s : S3Storage)
    (path : string) :
  (baseURL ls = "" -> Local.urlFor ls path = path)
  /\ (baseURL ls <> "" ->
      Local.urlFor ls path
      = strings.TrimRight (baseURL ls) "/" ++ "/" ++ strings.TrimLeft path "/"
      /\ Local.urlFor (mkLocalStorage (basePath ls) (baseURL ls ++ "/")
                         (createDirectories ls)) path
         = Local.urlFor ls path
      /\ Local.urlFor ls ("/" ++ path) = Local.urlFor ls path)
  /\ (s3BaseURL s <> "" ->
      S3.getURL s path
      = strings.TrimRight (s3BaseURL s) "/" ++ "/" ++ strings.TrimLeft path "/"
      /\ S3.getURL (mkS3Storage (bucket s) (basePrefix s) (s3BaseURL s ++ "/") (region s))
           path
         = S3.getURL s path
      /\ S3.getURL s ("/" ++ path) = S3.getURL s path)
  /\ (forall base t c, strings.TrimRight base "/" = t ++ String c "" -> c <> "/"%char)
  /\ (forall c t, strings.TrimLeft path "/" = String c t -> c <> "/"%char).
Proof.
  split; [|split; [|split; [|split]]].
  - unfold Local.urlFor. now intros ->.
  - intros Hne. unfold Local.urlFor. cbn [baseURL].
    destruct (String.eqb_spec (baseURL ls) "") as [|_]; [contradiction|].
    destruct (String.eqb_spec (baseURL ls ++ "/") "") as [He|_].
    { destruct (baseURL ls); discriminate. }
    rewrite TrimRight_app_slash. auto.
  - intros Hne. unfold S3.getURL. cbn [s3BaseURL].
    destruct (String.eqb_spec (s3BaseURL s) "") as [|_]; [contradiction|].
    destruct (String.eqb_spec (s3BaseURL s ++ "/") "") as [He|_].
    { destruct (s3BaseURL s); discriminate. }
    cbn [negb]. rewrite TrimRight_app_slash. auto.
  - intros base t c H ->. now apply TrimRight_no_trailing in H.
  - intros c t H ->. now apply TrimLeft_no_leading in H.
Qed.

(** ** Paths without parent elements stay under the root *)

Lemma SplitSlash_not_nil (s : string) : strings.SplitSlash s <> [].
Proof.
  destruct s as [|c s]; [discriminate|]. cbn [strings.SplitSlash].
  destruct (Ascii.eqb c "/"); [discriminate|].
  destruct (strings.SplitSlash s); discriminate.
Qed.

Lemma SplitSlash_cons (c : ascii) (s : string) :
  strings.SplitSlash (String c s)
  = if Ascii.eqb c "/" then "" :: strings.SplitSlash s
    else match strings.SplitSlash s with
         | [] => [String c ""]
         | seg :: segs => String c seg :: segs
         end.
Proof. reflexivity. Qed.

(** The elements of [a/b] are those of [a] followed by those of [b]. *)
Lemma SplitSlash_app (a b : string) :
  strings.SplitSlash (a ++ "/" ++ b) = List.app (strings.SplitSlash a) (strings.SplitSlash b).
Proof.
  induction a as [|c a IH]; [reflexivity|].
  change (String c a ++ "/" ++ b) with (String c (a ++ "/" ++ b)).
  rewrite !SplitSlash_cons, IH. destruct (Ascii.eqb c "/"); [reflexivity|].
  pose proof (SplitSlash_not_nil a) as Hne.
  destruct (strings.SplitSlash a); [contradiction|reflexivity].
Qed.

Lemma SplitSlash_slash_free (s : string) :
  Forall (fun seg => strings.mem "/" seg = false) (strings.SplitSlash s).
Proof.
  induction s as [|c s IH]; [repeat constructor|].
  rewrite SplitSlash_cons. destruct (Ascii.eqb c "/") eqn:Hc.
  - constructor; [reflexivity|exact IH].
  - destruct (strings.SplitSlash s) as [|seg segs]; [repeat constructor|].
    + cbn [strings.mem]. now rewrite Ascii.eqb_sym, Hc.
    + inversion IH; subst. constructor; [|assumption].
      cbn [strings.mem]. now rewrite Ascii.eqb_sym, Hc.
Qed.

(** Joining elements without separators and splitting again gives
    the elements back. *)
Lemma SplitSlash_Join (elems : list string) :
  elems <> [] -> Forall (fun seg => strings.mem "/" seg = false) elems ->
  strings.SplitSlash (strings.Join elems "/") = elems.
Proof.
  induction elems as [|e rest IH]; [contradiction|]. intros _ Hf.
  inversion Hf as [|? ? He Hrest]; subst.
  destruct rest as [|e' rest'].
  - cbn [strings.Join]. now apply SplitSlash_without_slash.
  - change (strings.Join (e :: e' :: rest') "/")
      with (e ++ "/" ++ strings.Join (e' :: rest') "/").
    rewrite SplitSlash_app, (SplitSlash_without_slash _ He), IH; [reflexivity|discriminate|].
    exact Hrest.
Qed.

(** Over elements none of which is [..], [Clean] keeps the elements
    that are neither empty nor [.], in their order. *)
Lemma fold_clean_step_plain (r : bool) (segs out : list string) :
  forallb (fun seg => negb (filepath.is_dotdot seg)) segs = true ->
  fold_left (filepath.clean_step r) segs out = List.app (rev (List.filter kept segs)) out.
Proof.
  revert out. induction segs as [|seg segs IH]; intros out; [reflexivity|].
  cbn [forallb fold_left List.filter]. rewrite andb_true_iff. intros [Hd Hs].
  rewrite IH by exact Hs. unfold filepath.clean_step at 1, kept at 2.
  destruct (String.eqb seg "" || filepath.is_dot seg); cbn [negb]; [reflexivity|].
  apply negb_true_iff in Hd. rewrite Hd. cbn [rev]. now rewrite <- List.app_assoc.
Qed.

(** On a rooted path no [..] is ever kept. *)
Lemma fold_clean_step_rooted (segs out : list string) :
  forallb (fun seg => negb (filepath.is_dotdot seg) && kept seg) out = true ->
  forallb (fun seg => negb (filepath.is_dotdot seg) && kept seg)
          (fold_left (filepath.clean_step true) segs out) = true.
Proof.
  revert out. induction segs as [|seg segs IH]; intros out Hout; [exact Hout|].
  cbn [fold_left]. apply IH. unfold filepath.clean_step.
  destruct (String.eqb seg "" || filepath.is_dot seg) eqn:Hk; [exact Hout|].
  destruct (filepath.is_dotdot seg) eqn:Hd.
  - destruct out as [|top rest]; [reflexivity|].
    cbn [forallb] in Hout. apply andb_true_iff in Hout as [Ht Hrest].
    apply andb_true_iff in Ht as [Ht _]. apply negb_true_iff in Ht. now rewrite Ht.
  - cbn [forallb]. rewrite Hout. unfold kept. now rewrite Hd, Hk.
Qed.

Lemma fold_clean_step_In (r : bool) (segs out : list string) (x : string) :
  In x (fold_left (filepath.clean_step r) segs out) -> In x segs \/ In x out.
Proof.
  revert out. induction segs as [|seg segs IH]; intros out; [auto|].
  cbn [fold_left]. intros H. apply IH in H as [H|H]; [left; now right|].
  unfold filepath.clean_step in H.
  destruct (String.eqb seg "" || filepath.is_dot seg); [auto|].
  destruct (filepath.is_dotdot seg).
  - destruct out as [|top rest].
    + destruct r; [destruct H|destruct H as [<-|[]]; left; now left].
    + destruct (filepath.is_dotdot top).
      * destruct H as [<-|H]; [left; now left|auto].
      * right. now right.
  - destruct H as [<-|H]; [left; now left|auto].
Qed.

Lemma clean_elems_slash_free (path : string) :
  Forall (fun seg => strings.mem "/" seg = false) (filepath.clean_elems path).
Proof.
  apply List.Forall_forall. intros x Hx. unfold filepath.clean_elems in Hx.
  apply in_rev, fold_clean_step_In in Hx as [Hx|[]].
  pose proof (SplitSlash_slash_free path) as Hf.
  rewrite List.Forall_forall in Hf. now apply Hf.
Qed.

(** The elements [Clean] keeps of a path that is rooted, or has no
    element [..]: none of them is [..]. *)
Lemma clean_elems_confined (path : string) :
  filepath.rooted path = true \/ noParentSegment path = true ->
  forallb (fun seg => negb (filepath.is_dotdot seg) && kept seg)
          (filepath.clean_elems path) = true.
Proof.
  unfold filepath.clean_elems. intros H.
  destruct (filepath.rooted path) eqn:Hr.
  - apply forallb_forall. intros x Hx. apply in_rev in Hx.
    pose proof (fold_clean_step_rooted (strings.SplitSlash path) [] eq_refl) as Hf.
    rewrite forallb_forall in Hf. now apply Hf.
  - destruct H as [H|H]; [discriminate|].
    rewrite (fold_clean_step_plain _ _ _ H), List.app_nil_r, rev_involutive.
    unfold noParentSegment in H. rewrite forallb_forall in H.
    apply forallb_forall. intros x Hx. apply filter_In in Hx as [Hx Hk].
    now rewrite (H x Hx), Hk.
Qed.

Lemma HasPrefix_inv (s pre : string) :
  strings.HasPrefix s pre = true -> exists t, s = pre ++ t.
Proof.
  unfold strings.HasPrefix. revert s. induction pre as [|c pre IH]; intros s.
  - intros _. now exists s.
  - destruct s as [|d s]; [discriminate|]. cbn [String.prefix].
    destruct (Ascii.ascii_dec c d) as [<-|]; [|discriminate].
    intros H. apply IH in H as [t ->]. now exists t.
Qed.

Lemma HasPrefix_app_self (a b : string) : strings.HasPrefix (a ++ b) a = true.
Proof.
  unfold strings.HasPrefix. induction a as [|c a IH]; [now destruct b|].
  change (String c a ++ b) with (String c (a ++ b)). cbn [String.prefix].
  destruct (Ascii.ascii_dec c c) as [_|Hne]; [exact IH|congruence].
Qed.

Lemma append_assoc (a b c : string) : (a ++ b) ++ c = a ++ (b ++ c).
Proof.
  induction a as [|x a IH]; [reflexivity|].
  change ((String x a ++ b) ++ c) with (String x ((a ++ b) ++ c)). now rewrite IH.
Qed.

(** A joined list of kept elements, none [..], begins neither with a
    separator nor with a parent element. *)
Lemma Join_plain_head (elems : list string) :
  elems <> [] ->
  forallb (fun seg => negb (filepath.is_dotdot seg) && kept seg) elems = true ->
  Forall (fun seg => strings.mem "/" seg = false) elems ->
  strings.HasPrefix (strings.Join elems "/") "../" = false
  /\ strings.HasPrefix (strings.Join elems "/") "/" = false.
Proof.
  intros Hne Hg Hs. pose proof (SplitSlash_Join elems Hne Hs) as Hsplit.
  destruct elems as [|e rest]; [contradiction|].
  cbn [forallb] in Hg. apply andb_true_iff in Hg as [He _].
  apply andb_true_iff in He as [Hdd Hk].
  split.
  - destruct (strings.HasPrefix (strings.Join (e :: rest) "/") "../") eqn:Hp; [|reflexivity].
    apply HasPrefix_inv in Hp as [t Ht]. rewrite Ht in Hsplit.
    change ("../" ++ t) with (".." ++ "/" ++ t) in Hsplit.
    rewrite SplitSlash_app in Hsplit. injection Hsplit as <- _. discriminate.
  - destruct (strings.HasPrefix (strings.Join (e :: rest) "/") "/") eqn:Hp; [|reflexivity].
    apply HasPrefix_inv in Hp as [t Ht]. rewrite Ht in Hsplit.
    change ("/" ++ t) with ("" ++ "/" ++ t) in Hsplit.
    rewrite SplitSlash_app in Hsplit. injection Hsplit as <- _. discriminate.
Qed.

Lemma noParentSegment_Join (elems : list string) :
  forallb (fun seg => negb (filepath.is_dotdot seg) && kept seg) elems = true ->
  Forall (fun seg => strings.mem "/" seg = false) elems ->
  noParentSegment (strings.Join elems "/") = true.
Proof.
  intros Hg Hs. unfold noParentSegment.
  destruct elems as [|e rest]; [reflexivity|].
  rewrite SplitSlash_Join by (discriminate || assumption).
  apply forallb_forall. intros x Hx. rewrite forallb_forall in Hg.
  apply Hg in Hx. now apply andb_true_iff in Hx as [Hx _].
Qed.

(** [Clean] brings no parent element into a path that is rooted or
    has none. *)
Lemma Clean_noParent (path : string) :
  filepath.rooted path = true \/ noParentSegment path = true ->
  noParentSegment (filepath.Clean path) = true.
Proof.
  intros H. pose proof (clean_elems_confined path H) as Hg.
  pose proof (clean_elems_slash_free path) as Hs.
  pose proof (noParentSegment_Join _ Hg Hs) as Hj.
  unfold filepath.Clean. destruct (String.eqb path ""); [reflexivity|].
  destruct (filepath.rooted path).
  - unfold noParentSegment in *.
    change ("/" ++ strings.Join (filepath.clean_elems path) "/")
      with ("" ++ "/" ++ strings.Join (filepath.clean_elems path) "/").
    rewrite SplitSlash_app. cbn [strings.SplitSlash List.app forallb]. exact Hj.
  - destruct (filepath.clean_elems path); [reflexivity|exact Hj].
Qed.

(** [sanitizePath] returns a path without parent elements for a
    request path that is rooted or has none. *)
Lemma sanitizePath_noParent (path : string) :
  filepath.rooted path = true \/ noParentSegment path = true ->
  noParentSegment (sanitizePath path) = true.
Proof.
  intros H. pose proof (clean_elems_confined path H) as Hg.
  pose proof (clean_elems_slash_free path) as Hs.
  pose proof (noParentSegment_Join _ Hg Hs) as Hj.
  unfold sanitizePath, filepath.Clean.
  destruct (String.eqb path ""); [reflexivity|].
  destruct (filepath.rooted path).
  - unfold strings.TrimPrefix at 2.
    assert (Hp : strings.HasPrefix ("/" ++ strings.Join (filepath.clean_elems path) "/")
                   "../" = false).
    { unfold strings.HasPrefix. cbn [append String.prefix].
      destruct (Ascii.ascii_dec "." "/"); [discriminate|reflexivity]. }
    rewrite Hp. unfold strings.TrimPrefix.
    rewrite (HasPrefix_app_self "/" _). exact Hj.
  - destruct (filepath.clean_elems path) as [|e rest] eqn:He; [reflexivity|].
    destruct (Join_plain_head (e :: rest)) as [H1 H2]; [discriminate|assumption..|].
    unfold strings.TrimPrefix. rewrite H1, H2. exact Hj.
Qed.

Lemma Join_app (a b : list string) :
  a <> [] -> b <> [] ->
  strings.Join (List.app a b) "/" = strings.Join a "/" ++ "/" ++ strings.Join b "/".
Proof.
  intros Ha Hb. induction a as [|x a IH]; [contradiction|].
  destruct a as [|y a].
  - destruct b as [|z b]; [contradiction|reflexivity].
  - change (strings.Join (List.app (x :: y :: a) b) "/")
      with (x ++ "/" ++ strings.Join (List.app (y :: a) b) "/").
    rewrite IH by discriminate.
    change (strings.Join (x :: y :: a) "/") with (x ++ "/" ++ strings.Join (y :: a) "/").
    now rewrite !append_assoc.
Qed.

Lemma rooted_app (base rest : string) :
  base <> "" -> filepath.rooted (base ++ rest) = filepath.rooted base.
Proof.
  intros Hne. destruct base as [|c base]; [contradiction|].
  unfold filepath.rooted, strings.HasPrefix.
  change (String c base ++ rest) with (String c (base ++ rest)). cbn [String.prefix].
  destruct (Ascii.ascii_dec "/" c); [|reflexivity].
  now destruct (base ++ rest), base.
Qed.

(** Joining a path without parent elements to a base never leaves
    the base. *)
Lemma Join_under_base (base q : string) :
  base <> "" -> filepath.clean_elems base <> [] -> noParentSegment q = true ->
  underRoot (filepath.Clean base) (filepath.Join [base; q]) = true.
Proof.
  intros Hne Hcb Hq.
  assert (Hj : filepath.Join [base; q] = filepath.Clean (base ++ "/" ++ q)).
  { cbn [filepath.Join]. destruct (String.eqb_spec base ""); [contradiction|reflexivity]. }
  rewrite Hj.
  assert (He : filepath.clean_elems (base ++ "/" ++ q)
               = List.app (filepath.clean_elems base)
                          (List.filter kept (strings.SplitSlash q))).
  { unfold filepath.clean_elems. rewrite rooted_app by exact Hne.
    rewrite SplitSlash_app, fold_left_app, (fold_clean_step_plain _ _ _ Hq).
    now rewrite rev_app_distr, rev_involutive. }
  unfold filepath.Clean. rewrite rooted_app by exact Hne. rewrite He.
  destruct (String.eqb_spec (base ++ "/" ++ q) "") as [Hz|_].
  { destruct base; [contradiction|discriminate]. }
  destruct (String.eqb_spec base "") as [|_]; [contradiction|].
  unfold underRoot.
  destruct (List.filter kept (strings.SplitSlash q)) as [|x qs] eqn:Hqs.
  - rewrite List.app_nil_r.
    destruct (filepath.rooted base).
    + now rewrite String.eqb_refl.
    + destruct (filepath.clean_elems base); [contradiction|]. now rewrite String.eqb_refl.
  - rewrite Join_app by (assumption || discriminate).
    apply orb_true_iff. right.
    destruct (filepath.rooted base).
    + rewrite <- !append_assoc. apply HasPrefix_app_self.
    + destruct (filepath.clean_elems base) as [|e cb] eqn:Hc; [contradiction|].
      cbn [List.app]. rewrite <- !append_assoc. apply HasPrefix_app_self.
Qed.

(** The path a handler passes to the provider has no parent element
    when neither its base path nor the request path (rooted, or
    without parent elements) brings one. *)
Lemma handlerFullPath_noParent (handlerBasePath path : string) :
  noParentSegment handlerBasePath = true ->
  filepath.rooted path = true \/ noParentSegment path = true ->
  noParentSegment (handlerFullPath handlerBasePath path) = true.
Proof.
  intros Hb Hp. apply sanitizePath_noParent in Hp.
  unfold handlerFullPath. cbn [filepath.Join].
  destruct (String.eqb handlerBasePath "").
  - destruct (String.eqb (sanitizePath path) ""); [reflexivity|].
    apply Clean_noParent. now right.
  - apply Clean_noParent. right.
    change (strings.Join [handlerBasePath; sanitizePath path] "/")
      with (handlerBasePath ++ "/" ++ sanitizePath path).
    unfold noParentSegment in *. rewrite SplitSlash_app, forallb_app. now rewrite Hb, Hp.
Qed.

(** X28: A request path that is rooted, or has no parent element, never
    leaves the storage: behind a handler whose base path has no
    parent element, the local backend resolves it to a location
    under its cleaned base path, and the S3 backend to a key under
    its cleaned prefix. *)
Theorem request_without_parent_stays_under_root (ls : LocalStorage) (s : S3Storage)
    (handlerBasePath path : string) :
  noParentSegment handlerBasePath = true ->
  filepath.rooted path = true \/ noParentSegment path = true ->
  (basePath ls <> "" -> filepath.clean_elems (basePath ls) <> [] ->
   underRoot (filepath.Clean (basePath ls))
     (physicalPath ls (handlerFullPath handlerBasePath path)) = true)
  /\ (basePrefix s <> "" -> filepath.clean_elems (basePrefix s) <> [] ->
      underRoot (filepath.Clean (basePrefix s))
        (S3.getFullKey s (handlerFullPath handlerBasePath path)) = true).
Proof.
  intros Hb Hp. pose proof (handlerFullPath_noParent _ _ Hb Hp) as Hq. split.
  - intros Hne Hcb. unfold physicalPath. now apply Join_under_base.
  - intros Hne Hcb. unfold S3.getFullKey.
    destruct (String.eqb_spec (basePrefix s) "") as [|_]; [contradiction|].
    now apply Join_under_base.
Qed.

Lemma request_without_parent_stays_under_root_witness :
  underRoot (filepath.Clean (basePath localStore))
    (physicalPath localStore (handlerFullPath "files" "/../../etc/passwd")) = true.
Proof.
  apply (proj1 (request_without_parent_stays_under_root localStore s3Store "files"
                  "/../../etc/passwd" eq_refl (or_introl eq_refl))).
  - discriminate.
  - discriminate.
Defined.

Lemma cleanCustomPath_noParent (customPath : string) :
  filepath.rooted customPath = true \/ noParentSegment customPath = true ->
  noParentSegment (cleanCustomPath customPath) = true.
Proof.
  intros H. unfold cleanCustomPath.
  destruct (String.eqb_spec customPath "") as [->|_]; cbn [negb]; [reflexivity|].
  pose proof (Clean_noParent _ H) as Hc. unfold strings.TrimPrefix.
  destruct (strings.HasPrefix (filepath.Clean customPath) "../") eqn:Hp; [|exact Hc].
  apply HasPrefix_inv in Hp as [t Ht]. rewrite Ht in Hc.
  change ("../" ++ t) with (".." ++ "/" ++ t) in Hc.
  unfold noParentSegment in Hc. rewrite SplitSlash_app in Hc. discriminate.
Qed.

Lemma sanitizeFilename_noParent (filename : string) :
  filepath.Base filename <> ".." -> noParentSegment (sanitizeFilename filename) = true.
Proof.
  intros Hb. unfold noParentSegment.
  assert (Hs : strings.SplitSlash (sanitizeFilename filename) = [sanitizeFilename filename]).
  { apply SplitSlash_without_slash. unfold sanitizeFilename. fold dangerousChars.
    now apply mem_ReplaceEach. }
  rewrite Hs. cbn [forallb]. rewrite andb_true_r. apply negb_true_iff.
  unfold filepath.is_dotdot. apply String.eqb_neq. intros He. apply Hb.
  unfold sanitizeFilename in He. fold dangerousChars in He.
  now apply ReplaceEach_dotdot in He.
Qed.

Lemma uploadFullPath_noParent (handlerBasePath customPath filename : string) :
  noParentSegment handlerBasePath = true ->
  filepath.rooted customPath = true \/ noParentSegment customPath = true ->
  noParentSegment filename = true ->
  noParentSegment (uploadFullPath handlerBasePath customPath filename) = true.
Proof.
  intros Hb Hc Hf. apply cleanCustomPath_noParent in Hc.
  unfold uploadFullPath. cbn [filepath.Join].
  assert (Happ : forall a b, noParentSegment a = true -> noParentSegment b = true ->
                   noParentSegment (a ++ "/" ++ b) = true).
  { intros a b Ha Hb'. unfold noParentSegment in *.
    rewrite SplitSlash_app, forallb_app. now rewrite Ha, Hb'. }
  destruct (String.eqb handlerBasePath "").
  - destruct (String.eqb (cleanCustomPath customPath) "").
    + destruct (String.eqb filename ""); [reflexivity|].
      apply Clean_noParent. now right.
    + apply Clean_noParent. right. now apply Happ.
  - apply Clean_noParent. right. apply Happ; [exact Hb|]. now apply Happ.
Qed.

(** X29: An upload never leaves the storage when the handler's base path
    and the form value [path] (rooted, or without parent elements)
    bring no parent element and the file is stored under its
    sanitized name, unless the name of the file is the parent element
    itself: the local backend resolves the destination to a location
    under its cleaned base path, the S3 backend to a key under its
    cleaned prefix. *)
Theorem upload_without_parent_stays_under_root (ls : LocalStorage) (s : S3Storage)
    (handlerBasePath customPath filename : string) :
  noParentSegment handlerBasePath = true ->
  filepath.rooted customPath = true \/ noParentSegment customPath = true ->
  filepath.Base filename <> ".." ->
  (basePath ls <> "" -> filepath.clean_elems (basePath ls) <> [] ->
   underRoot (filepath.Clean (basePath ls))
     (physicalPath ls (uploadFullPath handlerBasePath customPath
                         (sanitizeFilename filename))) = true)
  /\ (basePrefix s <> "" -> filepath.clean_elems (basePrefix s) <> [] ->
      underRoot (filepath.Clean (basePrefix s))
        (S3.getFullKey s (uploadFullPath handlerBasePath customPath
                            (sanitizeFilename filename))) = true).
Proof.
  intros Hb Hc Hf.
  pose proof (uploadFullPath_noParent _ _ _ Hb Hc (sanitizeFilename_noParent _ Hf)) as Hq.
  split.
  - intros Hne Hcb. unfold physicalPath. now apply Join_under_base.
  - intros Hne Hcb. unfold S3.getFullKey.
    destruct (String.eqb_spec (basePrefix s) "") as [|_]; [contradiction|].
    now apply Join_under_base.
Qed.

Lemma upload_without_parent_stays_under_root_witness :
  underRoot (filepath.Clean (basePath localStore))
    (physicalPath localStore
       (uploadFullPath "" "/../docs" (sanitizeFilename "../../etc/passwd"))) = true.
Proof.
  apply (proj1 (upload_without_parent_stays_under_root localStore s3Store ""
                  "/../docs" "../../etc/passwd" eq_refl (or_introl eq_refl)
                  ltac:(discriminate))).
  - discriminate.
  - discriminate.
Defined.

(** ** An upload to the S3 backend is all or nothing *)

(** X30: [Upload] of the S3 backend leaves the service as it was when it
    fails.  When it succeeds it has stored one object, under the full
    key of the path, holding the bytes of the upload with the content
    type and size the record reports and the name of the uploaded
    file in its metadata; every other object is as it was.  The
    content type is the sniffed one unless that is
    [application/octet-stream], and then the type of the extension
    of the name of the uploaded file. *)
Theorem S3_Upload_all_or_nothing (sniff : list byte -> string) (s : S3Storage)
    (file : multipart.FileHeader) (path : string) (svc svc' : s3.Service)
    (r : result FileInfo) :
  S3.Upload sniff s file path svc = (r, svc') ->
  match r with
  | Err _ => svc' = svc
  | Ok info =>
      exists src,
        multipart.Source file = Some src
        /\ svc' = s3.with_objects svc
                    (<[(bucket s, S3.getFullKey s path) :=
                         s3.mkObject (multipart.Bytes src) (Some (ContentType info))
                           (s3.now svc)
                           (Some (s3.mkMetadata (multipart.Filename file) (s3.now svc)))]>
                       (s3.objects svc))
        /\ Size info = Z.of_nat (length (multipart.Bytes src))
        /\ Name info = filepath.Base path
        /\ ContentType info
           = (if strings.HasPrefix (sniff (multipart.Bytes src)) "application/octet-stream"
              then S3.getContentTypeByExt (filepath.Ext (multipart.Filename file))
              else sniff (multipart.Bytes src))
        /\ forall b key, (b, key) <> (bucket s, S3.getFullKey s path) ->
             s3.objects svc' !! (b, key) = s3.objects svc !! (b, key)
  end.
Proof.
  unfold S3.Upload. unfold multipart.Open, multipart.ReadAll.
  destruct (multipart.Source file) as [src|]; [|intros H; now injection H as <- <-].
  destruct (multipart.Readable src); [|intros H; now injection H as <- <-].
  destruct (multipart.SeekStart src); [|intros H; now injection H as <- <-].
  unfold S3.Exists.
  destruct (s3.HeadObject svc (bucket s) (S3.getFullKey s path)) as [out|e] eqn:Hh.
  { intros H. now injection H as <- <-. }
  destruct (S3.looksNotFound e) eqn:Hl; [|intros H; now injection H as <- <-].
  match goal with
  | |- context [s3.PutObject ?a ?b ?c ?d ?e ?f] =>
      destruct (s3.PutObject a b c d e f) as [[loc svc1]|e1] eqn:Hp
  end; [|intros H; now injection H as <- <-].
  apply S3_PutObject_Ok_inv in Hp as (Ho & Hk & Hb & ->).
  intros H. injection H as <- <-. exists src. cbn [ContentType Size Name].
  repeat (split; [reflexivity|]).
  intros b key Hne. cbn [s3.objects s3.with_objects]. now apply lookup_insert_ne.
Qed.

Lemma S3_Upload_all_or_nothing_witness :
  snd (S3.Upload sniffText s3Store brokenFile "notes/b.txt" filledCloud) = filledCloud.
Proof.
  exact (S3_Upload_all_or_nothing sniffText s3Store brokenFile "notes/b.txt" filledCloud
           (snd (S3.Upload sniffText s3Store brokenFile "notes/b.txt" filledCloud))
           (Err (AppErr (WrapError (PathError "open" "" ENOENT)
                           http.StatusInternalServerError "Failed to open uploaded file")))
           eq_refl).
Defined.
